(** * CareFund: risk scoring, data aggregation and financial planning

    A shallow embedding of the risk-scoring and data-aggregation pipeline of
    the CareFund repository, with the properties its specification states.

    Conventions of the embedding.
    - A JavaScript [number] is a rational ([Q]); the arithmetic of the code
      is read exactly. Comparisons are boolean functions, so every
      definition evaluates.
    - An optional field ([x?: number]) is an [option]; the truthiness test
      [if (x)] of the code is [truthy].
    - Template literals (descriptions, messages) are kept symbolic: one
      constructor per template, holding the interpolated values.
    - [console.log] and the metrics logger have no effect on any value and
      are left out. *)

From Stdlib Require Import QArith Qround Qminmax Qabs ZArith Lia Lqa.
From Stdlib Require Import List String Ascii Bool Sorting.Sorted Permutation.
From Stdlib Require Import DecimalString.
From stdpp Require Import base gmap strings.

Import ListNotations.
Open Scope Q_scope.

(** ** JavaScript numbers *)

Module JS.

Definition number := Q.

(** [x > y], [x < y], [x >= y], [x <= y] of the source. *)
Definition gtb (x y : Q) : bool := negb (Qle_bool x y).
Definition ltb (x y : Q) : bool := gtb y x.
Definition geb (x y : Q) : bool := Qle_bool y x.
Definition leb (x y : Q) : bool := Qle_bool x y.

(** [Math.round]: the nearest integer, halves rounded up. *)
Definition Math_round (x : Q) : Q := inject_Z (Qfloor (x + (1 # 2))).
Definition Math_min (x y : Q) : Q := Qmin x y.
Definition Math_max (x y : Q) : Q := Qmax x y.

(** [Math.pow(2, n)] for a loop counter [n]. *)
Definition pow2 (n : nat) : Q := inject_Z (2 ^ Z.of_nat n).

(** [if (x)] on an optional number: [undefined] and [0] are falsy. *)
Definition truthy (o : option Q) : bool :=
  match o with
  | Some q => negb (Qeq_bool q 0)
  | None => false
  end.

(** The value read from an optional number once it is known to be truthy. *)
Definition val (o : option Q) : Q :=
  match o with Some q => q | None => 0 end.

(** [s !== "None" && s !== ""]. *)
Definition present (s : string) : bool :=
  negb (String.eqb s "None") && negb (String.eqb s "").

(** [arr.length] as a number. *)
Definition len {A : Type} (l : list A) : Q := inject_Z (Z.of_nat (List.length l)).

Definition is_integer (x : Q) : Prop := exists z : Z, x == inject_Z z.

(** [Array.prototype.sort(compareFn)]. The language fixes the result for a
    consistent comparator: the sort is stable. Insertion from the right is
    such a sort: an element stays in front of a later one unless the
    comparator is positive on the pair. *)
Section ArraySort.
Context {A : Type} (compareFn : A -> A -> Q).

Fixpoint insert (x : A) (l : list A) : list A :=
  match l with
  | [] => [x]
  | y :: l' =>
      if Qle_bool (compareFn x y) 0 then x :: y :: l' else y :: insert x l'
  end.

Definition Array_sort (l : list A) : list A := fold_right insert [] l.
End ArraySort.

(** The comparator [(a, b) => key(b) - key(a)], which puts larger keys
    first; the order it establishes; the elements of one key. *)
Definition descending {A : Type} (key : A -> Q) (a b : A) : Q := key b - key a.
Definition before {A : Type} (key : A -> Q) (a b : A) : Prop := key b <= key a.
Definition has_key {A : Type} (key : A -> Q) (v : Q) (a : A) : bool :=
  Qeq_bool (key a) v.

(** [s.includes(sub)]. *)
Definition includes (s sub : string) : bool :=
  match String.index 0 sub s with
  | Some _ => true
  | None => false
  end.

(** [s.toLowerCase()], on the letters A-Z. *)
Definition lowerAscii (c : ascii) : ascii :=
  let n := nat_of_ascii c in
  if (65 <=? n)%nat && (n <=? 90)%nat then ascii_of_nat (n + 32) else c.

Fixpoint toLowerCase (s : string) : string :=
  match s with
  | EmptyString => EmptyString
  | String c s' => String (lowerAscii c) (toLowerCase s')
  end.

(** [String(x)] inside a template literal. A whole number prints its
    decimal digits; any other number prints as its reduced fraction, which
    like the decimal expansion of the language tells different numbers
    apart. *)
Definition decimal (z : Z) : string := NilZero.string_of_int (Z.to_int z).

Definition String_of_number (x : Q) : string :=
  let r := Qred x in
  if (Qden r =? 1)%positive then decimal (Qnum r)
  else (decimal (Qnum r) ++ "/" ++ decimal (Zpos (Qden r)))%string.

(** [keys.sort()] on strings: the default order of code units. *)
Fixpoint insertKey (k : string * string) (l : list (string * string))
    : list (string * string) :=
  match l with
  | [] => [k]
  | k' :: l' => if String.leb (fst k) (fst k') then k :: l else k' :: insertKey k l'
  end.

Definition sortKeys (l : list (string * string)) : list (string * string) :=
  fold_right insertKey [] l.

End JS.

(** ** Types of [types/agents.ts] *)

Inductive RiskLevel := low | medium | high | critical.

Record UserProfile := {
  occupation : string;
  city : string;
  area : string;
  workShift : string;
  healthCondition : string;
  addictions : string;
  pastSurgery : string;
  age : Q
}.

Record EnvironmentalData := {
  env_city : string;
  aqi : Q;
  temperature : Q;
  humidity : Q;
  climateRisk : string;
  weatherCondition : option string;
  seasonalRisks : option (list string);
  env_timestamp : Z;
  env_source : string * string
}.

Record StatisticalData := {
  deathRate : Q;
  stat_crimeRate : Q;
  occupationHazardLevel : string;
  occupationDeathRate : Q;
  cityHealthIndex : Q;
  ageAdjustedDeathRate : option Q;
  violentCrimeRate : option Q;
  safetyIndex : option Q
}.

(** The records of the static tables ([lib/data]), by the fields the
    pipeline reads. *)
Record OccupationHazard := {
  hazardLevel : string;
  hazard_deathRate : Q;
  riskScore : Q;
  preventiveMeasures : list string
}.

Record CityStats := {
  crimeRate : Q
}.

(** The descriptions of risk factors, one constructor per template literal. *)
Inductive Description :=
| DescAirSignificant (aqi : Q) (weather : string)
| DescAirSensitive (aqi : Q) (weather : string)
| DescSeasonal (risks : list string)
| DescOccupation (occupation level : string) (deathRate : Q)
| DescAge (age : Q)
| DescCondition (condition : string)
| DescAddiction (addiction : string)
| DescNightShift
| DescCrime (crimeRate : Q) (violent : option Q)
| DescSafety (safetyIndex : Q)
| DescCityHealth (index : Q).

Record RiskFactor := {
  category : string;
  level : string;
  description : Description;
  impact : Q
}.

(** ** The risk calculator ([lib/services/risk-calculator]) *)

Module RiskCalculator.
Import JS.

Record RiskCalculationInput := {
  userProfile : UserProfile;
  environmentalData : EnvironmentalData;
  statisticalData : StatisticalData;
  occupationHazard : OccupationHazard;
  cityStats : CityStats
}.

Section WithCrimeStress.

(** [calculateCrimeStressImpact] of [lib/data/crime-statistics], which the
    calculator imports. *)
Variable calculateCrimeStressImpact : Q -> Q.

(** The ten numbered steps of [calculateRiskScore], each the amount its
    [score += ...] statements add. *)

(* 2. Age factor *)
Definition agePoints (input : RiskCalculationInput) : Q :=
  let age := age (userProfile input) in
  if gtb age 60 then 20
  else if gtb age 50 then 15
  else if gtb age 40 then 10
  else if gtb age 30 then 5
  else 0.

Definition ageDeathRatePoints (input : RiskCalculationInput) : Q :=
  if truthy (ageAdjustedDeathRate (statisticalData input)) then
    let ageDeathRateImpact :=
      Math_min ((val (ageAdjustedDeathRate (statisticalData input)) / 20) * 5) 5 in
    ageDeathRateImpact
  else 0.

(* 3. Environmental factors *)
Definition aqiPoints (input : RiskCalculationInput) : Q :=
  let aqi := aqi (environmentalData input) in
  if gtb aqi 200 then 25
  else if gtb aqi 150 then 20
  else if gtb aqi 100 then 15
  else if gtb aqi 50 then 10
  else 5.

Definition hasSeasonalRisks (input : RiskCalculationInput) : bool :=
  match seasonalRisks (environmentalData input) with
  | Some risks => gtb (len risks) 0
  | None => false
  end.

Definition seasonalRisksOf (input : RiskCalculationInput) : list string :=
  match seasonalRisks (environmentalData input) with
  | Some risks => risks
  | None => []
  end.

Definition seasonalPoints (input : RiskCalculationInput) : Q :=
  if hasSeasonalRisks input
  then Math_min (len (seasonalRisksOf input) * 2) 5
  else 0.

(* 4. Occupation hazard *)
Definition occupationPoints (input : RiskCalculationInput) : Q :=
  let occupationRisk := riskScore (occupationHazard input) in
  Math_round (occupationRisk * 0.2).

(* 5. - 7. Health condition, addictions, past surgery *)
Definition healthConditionPoints (input : RiskCalculationInput) : Q :=
  if present (healthCondition (userProfile input)) then 15 else 0.

Definition addictionPoints (input : RiskCalculationInput) : Q :=
  if present (addictions (userProfile input)) then 10 else 0.

Definition pastSurgeryPoints (input : RiskCalculationInput) : Q :=
  if present (pastSurgery (userProfile input)) then 5 else 0.

(* 8. Work shift *)
Definition workShiftPoints (input : RiskCalculationInput) : Q :=
  if String.eqb (workShift (userProfile input)) "Night Shift" then 5
  else if String.eqb (workShift (userProfile input)) "Rotating Shift" then 3
  else 0.

(* 9. Crime-related stress *)
Definition crimeStressPoints (input : RiskCalculationInput) : Q :=
  let crimeStressImpact := calculateCrimeStressImpact (crimeRate (cityStats input)) in
  Math_min crimeStressImpact 10.

Definition violentCrimePoints (input : RiskCalculationInput) : Q :=
  let v := violentCrimeRate (statisticalData input) in
  if truthy v && gtb (val v) 30
  then Math_min (val v / 10) 5
  else 0.

(* 10. Safety index *)
Definition safetyIndexPoints (input : RiskCalculationInput) : Q :=
  let s := safetyIndex (statisticalData input) in
  if truthy s && ltb (val s) 60 then 5
  else if truthy s && ltb (val s) 70 then 3
  else 0.

(** The running total before the final rounding and cap. *)
Definition rawScore (input : RiskCalculationInput) : Q :=
  let score := 0 in
  let score := score + 10 in
  let score := score + agePoints input in
  let score := score + ageDeathRatePoints input in
  let score := score + aqiPoints input in
  let score := score + seasonalPoints input in
  let score := score + occupationPoints input in
  let score := score + healthConditionPoints input in
  let score := score + addictionPoints input in
  let score := score + pastSurgeryPoints input in
  let score := score + workShiftPoints input in
  let score := score + crimeStressPoints input in
  let score := score + violentCrimePoints input in
  let score := score + safetyIndexPoints input in
  score.

Definition calculateRiskScore (input : RiskCalculationInput) : Q :=
  Math_min (Math_round (rawScore input)) 100.

Definition getRiskLevel (score : Q) : RiskLevel :=
  if geb score 80 then critical
  else if geb score 60 then high
  else if geb score 40 then medium
  else low.

(** [generateRiskFactors]: the factors in the order they are pushed, then
    the sort by impact. *)

Definition weatherOf (input : RiskCalculationInput) : string :=
  match weatherCondition (environmentalData input) with
  | Some w => w
  | None => ""
  end.

Definition airQualityFactor (input : RiskCalculationInput) : list RiskFactor :=
  let aqi := aqi (environmentalData input) in
  let weatherCondition := weatherOf input in
  if gtb aqi 150 then
    [ {| category := "Air Quality";
         level := if gtb aqi 200 then "critical" else "high";
         description := DescAirSignificant aqi weatherCondition;
         impact := if gtb aqi 200 then 25 else 20 |} ]
  else if gtb aqi 100 then
    [ {| category := "Air Quality";
         level := "medium";
         description := DescAirSensitive aqi weatherCondition;
         impact := 15 |} ]
  else [].

Definition seasonalFactor (input : RiskCalculationInput) : list RiskFactor :=
  if hasSeasonalRisks input then
    let seasonalRiskLevel :=
      if gtb (len (seasonalRisksOf input)) 2 then "high" else "medium" in
    [ {| category := "Seasonal Health Risks";
         level := seasonalRiskLevel;
         description := DescSeasonal (seasonalRisksOf input);
         impact := len (seasonalRisksOf input) * 2 |} ]
  else [].

Definition occupationFactor (input : RiskCalculationInput) : list RiskFactor :=
  let occupationHazard := occupationHazard input in
  if String.eqb (hazardLevel occupationHazard) "critical"
     || String.eqb (hazardLevel occupationHazard) "high" then
    [ {| category := "Occupational Hazard";
         level := hazardLevel occupationHazard;
         description := DescOccupation (occupation (userProfile input))
                          (hazardLevel occupationHazard)
                          (hazard_deathRate occupationHazard);
         impact := riskScore occupationHazard * 0.2 |} ]
  else [].

Definition ageFactor (input : RiskCalculationInput) : list RiskFactor :=
  let age := age (userProfile input) in
  if gtb age 50 then
    [ {| category := "Age Factor";
         level := if gtb age 60 then "high" else "medium";
         description := DescAge age;
         impact := if gtb age 60 then 20 else 15 |} ]
  else [].

Definition healthConditionFactor (input : RiskCalculationInput) : list RiskFactor :=
  if present (healthCondition (userProfile input)) then
    [ {| category := "Pre-existing Condition";
         level := "high";
         description := DescCondition (healthCondition (userProfile input));
         impact := 15 |} ]
  else [].

Definition lifestyleFactor (input : RiskCalculationInput) : list RiskFactor :=
  if present (addictions (userProfile input)) then
    [ {| category := "Lifestyle Risk";
         level := "medium";
         description := DescAddiction (addictions (userProfile input));
         impact := 10 |} ]
  else [].

Definition workScheduleFactor (input : RiskCalculationInput) : list RiskFactor :=
  if String.eqb (workShift (userProfile input)) "Night Shift" then
    [ {| category := "Work Schedule";
         level := "medium";
         description := DescNightShift;
         impact := 5 |} ]
  else [].

Definition crimeFactor (input : RiskCalculationInput) : list RiskFactor :=
  if gtb (crimeRate (cityStats input)) 500 then
    let violentCrimeInfo :=
      if truthy (violentCrimeRate (statisticalData input))
      then violentCrimeRate (statisticalData input) else None in
    [ {| category := "Environmental Stress";
         level := if gtb (crimeRate (cityStats input)) 1000 then "high" else "medium";
         description := DescCrime (crimeRate (cityStats input)) violentCrimeInfo;
         impact := calculateCrimeStressImpact (crimeRate (cityStats input)) |} ]
  else [].

Definition citySafetyFactor (input : RiskCalculationInput) : list RiskFactor :=
  let s := safetyIndex (statisticalData input) in
  if truthy s && ltb (val s) 60 then
    [ {| category := "City Safety";
         level := if ltb (val s) 50 then "high" else "medium";
         description := DescSafety (val s);
         impact := 5 |} ]
  else [].

Definition cityHealthFactor (input : RiskCalculationInput) : list RiskFactor :=
  let index := cityHealthIndex (statisticalData input) in
  if ltb index 60 then
    [ {| category := "City Health Infrastructure";
         level := if ltb index 40 then "high" else "medium";
         description := DescCityHealth index;
         impact := 10 |} ]
  else [].

(** The array [factors] just before the sort. *)
Definition pushedFactors (input : RiskCalculationInput) : list RiskFactor :=
  airQualityFactor input ++ seasonalFactor input ++ occupationFactor input
  ++ ageFactor input ++ healthConditionFactor input ++ lifestyleFactor input
  ++ workScheduleFactor input ++ crimeFactor input ++ citySafetyFactor input
  ++ cityHealthFactor input.

Definition byImpact (a b : RiskFactor) : Q := impact b - impact a.

Definition generateRiskFactors (input : RiskCalculationInput) : list RiskFactor :=
  Array_sort byImpact (pushedFactors input).

End WithCrimeStress.

(** The inputs the specification calls valid: every numeric field the score
    reads is nonnegative. *)
Record nonnegative_input (input : RiskCalculationInput) : Prop := {
  nn_age : 0 <= age (userProfile input);
  nn_aqi : 0 <= aqi (environmentalData input);
  nn_riskScore : 0 <= riskScore (occupationHazard input);
  nn_deathRate : 0 <= deathRate (statisticalData input);
  nn_ageAdjustedDeathRate : 0 <= val (ageAdjustedDeathRate (statisticalData input));
  nn_occupationDeathRate : 0 <= occupationDeathRate (statisticalData input);
  nn_crimeRate : 0 <= crimeRate (cityStats input);
  nn_stat_crimeRate : 0 <= stat_crimeRate (statisticalData input);
  nn_violentCrimeRate : 0 <= val (violentCrimeRate (statisticalData input));
  nn_safetyIndex : 0 <= val (safetyIndex (statisticalData input))
}.

(** What the calculator assumes of the imported helper: a stress impact is
    never negative ("0-10 points"). *)
Definition nonnegative_impact (calculateCrimeStressImpact : Q -> Q) : Prop :=
  forall crimeRate : Q, 0 <= crimeRate -> 0 <= calculateCrimeStressImpact crimeRate.

End RiskCalculator.

(** ** Sample data *)

Module Samples.
Import JS RiskCalculator.

(** A banded crime-stress table, standing in for the imported helper where
    a concrete run is needed. *)
Definition bandedCrimeStress (crimeRate : Q) : Q :=
  if gtb crimeRate 1000 then 10
  else if gtb crimeRate 500 then 7
  else if gtb crimeRate 300 then 5
  else if gtb crimeRate 150 then 3
  else 1.

Definition student : UserProfile :=
  {| occupation := "Student"; city := "Bangalore"; area := "";
     workShift := "Day Shift"; healthCondition := "None"; addictions := "None";
     pastSurgery := "None"; age := 22 |}.

Definition factoryWorker : UserProfile :=
  {| occupation := "Factory Worker"; city := "Delhi"; area := "";
     workShift := "Night Shift"; healthCondition := "Diabetes";
     addictions := "None"; pastSurgery := "None"; age := 65 |}.

Definition bangaloreInput : RiskCalculationInput :=
  {| userProfile := student;
     environmentalData :=
       {| env_city := "Bangalore"; aqi := 95; temperature := 27; humidity := 60;
          climateRisk := "Low"; weatherCondition := Some "Clear";
          seasonalRisks := Some []; env_timestamp := 0;
          env_source := ("Open-Meteo (Real-time)", "Estimated") |};
     statisticalData :=
       {| deathRate := 7.3; stat_crimeRate := 455.8;
          occupationHazardLevel := "low"; occupationDeathRate := 1.5;
          cityHealthIndex := 80; ageAdjustedDeathRate := Some 4.3;
          violentCrimeRate := Some 18.7; safetyIndex := Some 70 |};
     occupationHazard :=
       {| hazardLevel := "low"; hazard_deathRate := 1.5; riskScore := 10;
          preventiveMeasures := [] |};
     cityStats := {| crimeRate := 456 |} |}.

Definition delhiInput : RiskCalculationInput :=
  {| userProfile := factoryWorker;
     environmentalData :=
       {| env_city := "Delhi"; aqi := 220; temperature := 42; humidity := 40;
          climateRisk := "Critical"; weatherCondition := Some "Haze";
          seasonalRisks :=
            Some ["Extreme heat warning"; "Poor air quality - respiratory risks"];
          env_timestamp := 0;
          env_source := ("Open-Meteo (Real-time)", "AQICN (Real-time)") |};
     statisticalData :=
       {| deathRate := 7.3; stat_crimeRate := 1586.1;
          occupationHazardLevel := "high"; occupationDeathRate := 12.3;
          cityHealthIndex := 0; ageAdjustedDeathRate := Some 18.3;
          violentCrimeRate := Some 45.2; safetyIndex := Some 45 |};
     occupationHazard :=
       {| hazardLevel := "high"; hazard_deathRate := 12.3; riskScore := 75;
          preventiveMeasures := ["Wear protective equipment"] |};
     cityStats := {| crimeRate := 1586 |} |}.

End Samples.

(** ** The city health index ([lib/services/data-collector]) *)

Module CityHealth.
Import JS.

Definition aqiDeduction (aqi : Q) : Q :=
  if gtb aqi 200 then 50
  else if gtb aqi 150 then 35
  else if gtb aqi 100 then 20
  else if gtb aqi 50 then 10
  else 0.

Definition crimeDeduction (crimeRate : Q) : Q :=
  if gtb crimeRate 1000 then 30
  else if gtb crimeRate 500 then 20
  else if gtb crimeRate 300 then 10
  else if gtb crimeRate 150 then 5
  else 0.

Definition temperatureDeduction (temperature : Q) : Q :=
  if gtb temperature 40 || ltb temperature 10 then 20
  else if gtb temperature 35 || ltb temperature 15 then 10
  else 0.

Definition calculateCityHealthIndex (aqi crimeRate temperature : Q) : Q :=
  let index := 100 in
  let index := index - aqiDeduction aqi in
  let index := index - crimeDeduction crimeRate in
  let index := index - temperatureDeduction temperature in
  Math_max index 0.

(** How far a temperature lies from the middle of the band the code leaves
    without deduction: the bands [> 35 / < 15] and [> 40 / < 10] are the
    distances above 10 and above 15 from 25 degrees. *)
Definition temperatureExtremity (temperature : Q) : Q := Qabs (temperature - 25).

End CityHealth.

(** ** The planner of the analysis page ([app/dashboard/analysis/page.tsx]) *)

Module AnalysisPage.
Import JS.

Record Plan := {
  name : string;
  coverage : Q;
  premium : Q
}.

Definition calculateMonthlySavings (profile : UserProfile) (riskScore : Q) : Q :=
  let baseAmount := 2000 in
  let riskMultiplier := riskScore / 50 in
  Math_round (baseAmount * riskMultiplier).

Definition getInsurancePlan (riskScore : Q) : Plan :=
  if gtb riskScore 70 then
    {| name := "Premium Health Shield"; coverage := 1000000; premium := 8500 |}
  else if gtb riskScore 50 then
    {| name := "Comprehensive Care Plus"; coverage := 500000; premium := 5500 |}
  else
    {| name := "Essential Health Cover"; coverage := 300000; premium := 3500 |}.

(** The target as the specification words it: [round(2000 * riskScore / 50)]. *)
Definition savingsTarget (riskScore : Q) : Q :=
  Math_round (2000 * riskScore / 50).

End AnalysisPage.


(** ** The runtime the services run in

    Time is [Date.now()] in milliseconds. The network is a function chosen
    by the environment: the answer to the n-th request of a run, for the
    URL asked. A computation threads the world (cache, clock, request
    counter, event log) and either returns or throws. *)

Module Runtime.

(** URLs, one constructor per template literal of the fetchers. *)
Inductive Url :=
| UrlOpenMeteo (lat lon : Q)
| UrlAqicn (city token : string)
| UrlOpenWeatherMap (lat lon : Q) (appid : string)
| UrlWorldBank
| UrlNewsApi (query apiKey : string)
| UrlEnvironment (city : string).

Record Article := {
  article_title : string;
  article_description : option string;
  article_publishedAt : string;
  article_sourceName : string;
  article_url : string
}.

Record EnvironmentPayload := {
  ep_city : string;
  ep_aqi : Q;
  ep_temperature : Q;
  ep_humidity : Q;
  ep_timestamp : Z;
  ep_source : string * string
}.

(** Parsed response bodies, by the shapes of [lib/types/api-responses.ts]
    and the fields the fetchers read; [JOther] is any other JSON value. *)
Inductive Json :=
| JOpenMeteo (temperature_2m relative_humidity_2m : Q)
| JAqicn (status : string) (aqi : option Q)
| JOpenWeatherMap (weather_main : list string)
| JWorldBank (values : option (list (option Q)))
| JNewsApi (articles : list Article)
| JEnvironment (payload : EnvironmentPayload)
| JOther.

Inductive Message :=
| MsgText (text : string)
| MsgHttp (status : Z) (errorText : string)
| MsgFailedAfter (attempts : nat) (last : Message).

(** Thrown values: [APIError] of [api-helpers.ts], or any other [Error]
    (a [TypeError] of the network layer, an [AbortError], a [SyntaxError]
    of the JSON parser). *)
Inductive Error :=
| Undefined
| APIError (message : Message) (statusCode : option Z) (apiName : string)
    (originalError : Error)
| JsError (name : string) (message : Message).

(** [error.message]. *)
Definition messageOf (e : Error) : Message :=
  match e with
  | Undefined => MsgText "undefined"
  | APIError m _ _ _ => m
  | JsError _ m => m
  end.

(** What [fetch] does with one request. *)
Record Response := {
  status : Z;
  text : option string;
  json : option Json
}.

Inductive FetchOutcome :=
| Responded (response : Response)
| Aborted
| Failed (error : Error).

Record Exchange := {
  elapsed : Z;
  outcome : FetchOutcome
}.

(** The five result records of the fetchers, and the cache that holds
    them ([any] in the source). *)
Record ClimateData := {
  cl_city : string;
  cl_temperature : Q;
  cl_humidity : Q;
  cl_aqi : Q;
  cl_weatherCondition : string;
  cl_climateRisk : string;
  cl_seasonalRisks : list string;
  cl_timestamp : Z;
  cl_sources : string * string
}.

Record DeathRateData := {
  dr_country : string;
  dr_city : string;
  overallDeathRate : Q;
  ageAdjustedRate : Q;
  dr_year : Z;
  dr_source : string;
  dr_confidence : string
}.

Record OccupationDeathRateData := {
  od_occupation : string;
  od_deathRate : Q;
  injuryRate : Q;
  fatalityRate : Q;
  od_year : Z;
  od_source : string;
  od_confidence : string
}.

Record CrimeData := {
  cr_city : string;
  cr_crimeRate : Q;
  cr_violentCrimeRate : Q;
  propertyCrimeRate : Q;
  cr_safetyIndex : Q;
  cr_year : Z;
  cr_source : string;
  trend : string
}.

Record HealthAlert := {
  ha_title : string;
  ha_description : string;
  severity : string;
  ha_category : string;
  location : string;
  ha_date : string + Z;
  ha_source : string;
  ha_url : option string
}.

Inductive CacheValue :=
| VClimate (v : ClimateData)
| VDeathRate (v : DeathRateData)
| VOccupationDeathRate (v : OccupationDeathRateData)
| VCrime (v : CrimeData)
| VHealthAlerts (v : list HealthAlert).

Record CacheEntry := {
  data : CacheValue;
  timestamp : Z;
  ttl : Z
}.

Inductive Event :=
| EvFetch (url : Url)
| EvSleep (ms : Z).

Record World := {
  cache : gmap string CacheEntry;
  now : Z;
  requests : nat;
  events : list Event
}.

Inductive Result (A : Type) :=
| Ok (value : A)
| Throw (error : Error).
Arguments Ok {A} value.
Arguments Throw {A} error.

Definition M (A : Type) : Type := World -> Result A * World.

Definition ret {A : Type} (a : A) : M A := fun w => (Ok a, w).
Definition throw {A : Type} (e : Error) : M A := fun w => (Throw e, w).

Definition bind {A B : Type} (m : M A) (k : A -> M B) : M B :=
  fun w =>
    match m w with
    | (Ok a, w') => k a w'
    | (Throw e, w') => (Throw e, w')
    end.

(** [try { body } catch (error) { handler }]. *)
Definition try_catch {A : Type} (body : M A) (handler : Error -> M A) : M A :=
  fun w =>
    match body w with
    | (Ok a, w') => (Ok a, w')
    | (Throw e, w') => handler e w'
    end.

Definition Date_now : M Z := fun w => (Ok (now w), w).

Definition getCache : M (gmap string CacheEntry) := fun w => (Ok (cache w), w).

Definition putCache (c : gmap string CacheEntry) : M unit :=
  fun w => (Ok tt, {| cache := c; now := now w; requests := requests w;
                      events := events w |}).

(** [sleep(ms)]: the clock moves on by [ms]. *)
Definition sleep (ms : Z) : M unit :=
  fun w => (Ok tt, {| cache := cache w; now := (now w + ms)%Z;
                      requests := requests w; events := EvSleep ms :: events w |}).

(** A computation that returns whatever the world. *)
Definition never_throws {A : Type} (m : M A) : Prop :=
  forall w : World, exists (a : A) (w' : World), m w = (Ok a, w').

End Runtime.

Declare Scope js_scope.
Delimit Scope js_scope with js.
Notation "x <- m ;; k" := (Runtime.bind m (fun x => k))
  (at level 100, m at next level, right associativity) : js_scope.
Notation "m ;;; k" := (Runtime.bind m (fun _ => k))
  (at level 100, right associativity) : js_scope.

(** ** API configuration ([lib/config/api-config]) *)

Module ApiConfig.

Record APIConfig := {
  baseUrl : string;
  timeout : Z;
  retryAttempts : nat;
  retryDelay : Z;
  cacheTTL : Z;
  requiresAuth : bool
}.

Definition openMeteo : APIConfig :=
  {| baseUrl := "https://api.open-meteo.com/v1"; timeout := 10000;
     retryAttempts := 3; retryDelay := 1000; cacheTTL := 3600;
     requiresAuth := false |}.

Definition openWeatherMap : APIConfig :=
  {| baseUrl := "https://api.openweathermap.org/data/2.5"; timeout := 10000;
     retryAttempts := 3; retryDelay := 1000; cacheTTL := 3600;
     requiresAuth := true |}.

Definition aqicn : APIConfig :=
  {| baseUrl := "https://api.waqi.info"; timeout := 10000;
     retryAttempts := 3; retryDelay := 1000; cacheTTL := 3600;
     requiresAuth := true |}.

Definition worldBank : APIConfig :=
  {| baseUrl := "https://api.worldbank.org/v2"; timeout := 15000;
     retryAttempts := 3; retryDelay := 1000; cacheTTL := 86400;
     requiresAuth := false |}.

Definition newsApi : APIConfig :=
  {| baseUrl := "https://newsapi.org/v2"; timeout := 10000;
     retryAttempts := 2; retryDelay := 1000; cacheTTL := 7200;
     requiresAuth := true |}.

(** [getAPIKeys()]: the environment variables, [''] when unset. *)
Record APIKeys := {
  key_aqicn : string;
  key_openWeatherMap : string;
  key_newsApi : string;
  key_dataGovIn : string;
  key_gemini : string
}.

(** [isAPIKeyConfigured]: [!!key && key.length > 0]. *)
Definition isAPIKeyConfigured (key : string) : bool :=
  negb (String.eqb key "").

End ApiConfig.

(** ** Retry and timeout ([lib/utils/api-helpers.ts]) *)

Module ApiHelpers.
Import JS Runtime ApiConfig.
Local Open Scope js_scope.

Section WithNetwork.
Variable network : nat -> Url -> Exchange.

(** [fetchWithTimeout]: the request is sent; an abort by the timer is
    rethrown as an [APIError] with status 408, anything else as it is. An
    aborted request has taken the whole timeout. *)
Definition fetchWithTimeout (url : Url) (timeout : Z) : M Response :=
  fun w =>
    let exchange := network (requests w) url in
    let took :=
      match outcome exchange with
      | Aborted => timeout
      | _ => elapsed exchange
      end in
    let w' := {| cache := cache w; now := (now w + took)%Z;
                 requests := S (requests w);
                 events := EvFetch url :: events w |} in
    match outcome exchange with
    | Responded response => (Ok response, w')
    | Aborted =>
        (Throw (APIError (MsgText "Request timeout") (Some 408%Z) "unknown"
                  (JsError "AbortError" (MsgText "This operation was aborted"))), w')
    | Failed error => (Throw error, w')
    end.

(** [response.ok]. *)
Definition ok (response : Response) : bool :=
  (200 <=? status response)%Z && (status response <=? 299)%Z.

(** The body of the [try] block of one loop iteration. *)
Definition attempt (url : Url) (config : APIConfig) (apiName : string) : M Json :=
  response <- fetchWithTimeout url (timeout config) ;;
  if negb (ok response) then
    let errorText :=
      match text response with Some t => t | None => "Unknown error"%string end in
    throw (APIError (MsgHttp (status response) errorText)
             (Some (status response)) apiName Undefined)
  else
    match json response with
    | Some data => ret data
    | None => throw (JsError "SyntaxError" (MsgText "Unexpected token"))
    end.

(** The test that ends the loop at once: an [APIError] with a truthy
    status code that is a 4xx other than 429. *)
Definition terminal (error : Error) : bool :=
  match error with
  | APIError _ (Some statusCode) _ _ =>
      negb (statusCode =? 0)%Z
      && (400 <=? statusCode)%Z && (statusCode <? 500)%Z
      && negb (statusCode =? 429)%Z
  | _ => false
  end.

(** The [for] loop from [attempt] on, with [remaining] iterations to go
    ([attempt + remaining = retryAttempts + 1]). *)
Fixpoint retryLoop (remaining : nat) (attemptNo : nat) (lastError : Error)
    (url : Url) (config : APIConfig) (apiName : string) : M Json :=
  match remaining with
  | O =>
      throw (APIError
               (MsgFailedAfter (retryAttempts config + 1) (messageOf lastError))
               None apiName lastError)
  | S remaining' =>
      try_catch (attempt url config apiName)
        (fun error =>
           let lastError := error in
           if terminal error then throw error
           else
             (if (attemptNo <? retryAttempts config)%nat
              then
                let delay := (retryDelay config * 2 ^ Z.of_nat attemptNo)%Z in
                sleep delay
              else ret tt) ;;;
             retryLoop remaining' (S attemptNo) lastError url config apiName)
  end.

Definition fetchWithRetry (url : Url) (config : APIConfig) (apiName : string) : M Json :=
  retryLoop (S (retryAttempts config)) 0 Undefined url config apiName.

End WithNetwork.

(** What the [try] block of an iteration comes to, given the exchange the
    network answers its request with. *)
Definition tryResult (apiName : string) (exchange : Exchange) : Result Json :=
  match outcome exchange with
  | Responded response =>
      if negb (ok response) then
        Throw (APIError
                 (MsgHttp (status response)
                    (match text response with Some t => t | None => "Unknown error"%string end))
                 (Some (status response)) apiName Undefined)
      else
        match json response with
        | Some data => Ok data
        | None => Throw (JsError "SyntaxError" (MsgText "Unexpected token"))
        end
  | Aborted =>
      Throw (APIError (MsgText "Request timeout") (Some 408%Z) "unknown"
               (JsError "AbortError" (MsgText "This operation was aborted")))
  | Failed error => Throw error
  end.

(** Every external source fails: whatever is asked and whenever, the
    attempt ends in an error (no answer, a timeout, an error status, or a
    body that does not parse). *)
Definition every_request_fails (network : nat -> Url -> Exchange) : Prop :=
  forall (n : nat) (url : Url) (apiName : string),
    exists e : Error, tryResult apiName (network n url) = Throw e.

(** The error [fetchWithRetry] ends with once the attempts are used up. *)
Definition exhausted (config : APIConfig) (apiName : string) (lastError : Error) : Error :=
  APIError (MsgFailedAfter (retryAttempts config + 1) (messageOf lastError))
    None apiName lastError.

(** The events a call leaves behind when it makes [attempts] requests: a
    request, then for each further one the pause and the request. Pause
    number [i] is [retryDelay * 2^i]. *)
Fixpoint scheduleFrom (url : Url) (retryDelay : Z) (attemptNo attempts : nat)
    : list Event :=
  match attempts with
  | O => []
  | S O => [EvFetch url]
  | S attempts' =>
      EvFetch url :: EvSleep (retryDelay * 2 ^ Z.of_nat attemptNo)
        :: scheduleFrom url retryDelay (S attemptNo) attempts'
  end.

Definition schedule (url : Url) (retryDelay : Z) (attempts : nat) : list Event :=
  scheduleFrom url retryDelay 0 attempts.

End ApiHelpers.

(** ** The cache ([lib/services/cache-service]) *)

Module CacheService.
Import Runtime.
Local Open Scope js_scope.

Definition expired (now : Z) (entry : CacheEntry) : bool :=
  (now - timestamp entry >? ttl entry * 1000)%Z.

(** [get(key)]: [null] is [None]. An expired entry is deleted on the way. *)
Definition get (key : string) : M (option CacheValue) :=
  cache <- getCache ;;
  match cache !! key with
  | None => ret None
  | Some entry =>
      now <- Date_now ;;
      let age := (now - timestamp entry)%Z in
      if (age >? ttl entry * 1000)%Z then
        putCache (delete key cache) ;;;
        ret None
      else ret (Some (data entry))
  end.

Definition set (key : string) (data : CacheValue) (ttl : Z) : M unit :=
  cache <- getCache ;;
  now <- Date_now ;;
  putCache (<[key := {| data := data; timestamp := now; ttl := ttl |}]> cache).

Definition has (key : string) : M bool :=
  v <- get key ;;
  ret (match v with Some _ => true | None => false end).

Definition delete (key : string) : M unit :=
  cache <- getCache ;;
  putCache (base.delete key cache).

Definition clear : M unit := putCache ∅.

(** The periodic sweep. *)
Definition cleanup : M unit :=
  cache <- getCache ;;
  now <- Date_now ;;
  putCache (filter (fun kv => expired now (snd kv) = false) cache).

(** The map a lookup of [key] leaves behind: the map before it, without
    the entry of [key] if that has expired. *)
Definition afterLookup (key : string) (w : World) : gmap string CacheEntry :=
  match cache w !! key with
  | Some entry =>
      if expired (now w) entry then base.delete key (cache w) else cache w
  | None => cache w
  end.

Definition withLookup (key : string) (w : World) : World :=
  {| cache := afterLookup key w; now := now w; requests := requests w;
     events := events w |}.

(** A producer that leaves the cache alone, as the fetchers' producers do. *)
Definition keeps_cache {A : Type} (m : M A) : Prop :=
  forall w : World, cache (snd (m w)) = cache w.

(** [withCache(cacheKey, ttl, fetchFn)]. *)
Definition withCache (cacheKey : string) (ttl : Z) (fetchFn : M CacheValue)
    : M CacheValue :=
  cached <- get cacheKey ;;
  match cached with
  | Some cached => ret cached
  | None =>
      data <- fetchFn ;;
      set cacheKey data ttl ;;;
      ret data
  end.

End CacheService.

(** ** Sample networks *)

Module SampleNetworks.
Import Runtime ApiConfig.

Definition respond (status : Z) (body : option Json) : Exchange :=
  {| elapsed := 120;
     outcome := Responded {| status := status; text := Some "body"%string;
                             json := body |} |}.

(** Every request is answered with the same HTTP status and no usable body. *)
Definition alwaysStatus (status : Z) : nat -> Url -> Exchange :=
  fun _ _ => respond status None.

(** Every request fails in the network layer. *)
Definition unreachable : nat -> Url -> Exchange :=
  fun _ _ => {| elapsed := 30;
                outcome := Failed (JsError "TypeError" (MsgText "fetch failed")) |}.

(** Two rate-limit answers, then a good one. *)
Definition rateLimitedTwice : nat -> Url -> Exchange :=
  fun n _ =>
    if (n <? 2)%nat then respond 429 None
    else respond 200 (Some (JWorldBank (Some [None; Some 7.2]))).

Definition freshWorld : World :=
  {| cache := ∅; now := 1700000000000; requests := 0; events := [] |}.

(** A world whose cache holds one entry for the crime data of Pune, stored
    two days ago with a TTL of one day. *)
Definition staleCrime : CrimeData :=
  {| cr_city := "Pune"; cr_crimeRate := 289.4; cr_violentCrimeRate := 11.5;
     propertyCrimeRate := 277.9; cr_safetyIndex := 76; cr_year := 2023;
     cr_source := "NCRB (National Crime Records Bureau)"; trend := "stable" |}.

Definition staleWorld : World :=
  {| cache := {[ "crimeData:city:Pune"%string :=
                   {| data := VCrime staleCrime;
                      timestamp := 1700000000000 - 172800000; ttl := 86400 |} ]};
     now := 1700000000000; requests := 0; events := [] |}.

(** A producer that rejects. *)
Definition rejecting : M CacheValue :=
  throw (JsError "Error" (MsgText "upstream unavailable")).

End SampleNetworks.

(** ** The real-time fetchers ([lib/services/real-time-data-fetcher]) *)

Module RealTimeDataFetcher.
Import JS Runtime ApiConfig ApiHelpers CacheService.
Local Open Scope js_scope.

(** [generateCacheKey(prefix, params)]: the parameters sorted by name,
    each printed [name:value], joined by a bar. *)
Definition generateCacheKey (prefix : string) (params : list (string * string)) : string :=
  let sortedParams :=
    String.concat "|"
      (map (fun kv => (fst kv ++ ":" ++ snd kv)%string) (sortKeys params)) in
  (prefix ++ ":" ++ sortedParams)%string.

Definition CITY_COORDINATES (city : string) : option (Q * Q) :=
  if String.eqb city "Mumbai" then Some (19.076, 72.8777)
  else if String.eqb city "Delhi" then Some (28.7041, 77.1025)
  else if String.eqb city "Bangalore" then Some (12.9716, 77.5946)
  else if String.eqb city "Hyderabad" then Some (17.385, 78.4867)
  else if String.eqb city "Chennai" then Some (13.0827, 80.2707)
  else if String.eqb city "Kolkata" then Some (22.5726, 88.3639)
  else if String.eqb city "Pune" then Some (18.5204, 73.8567)
  else if String.eqb city "Ahmedabad" then Some (23.0225, 72.5714)
  else if String.eqb city "Jaipur" then Some (26.9124, 75.7873)
  else if String.eqb city "Lucknow" then Some (26.8467, 80.9462)
  else None.

(** [cityMultipliers[city] || 1.0]. *)
Definition cityMultiplier (city : string) : Q :=
  if String.eqb city "Mumbai" then 0.9
  else if String.eqb city "Delhi" then 1.0
  else if String.eqb city "Bangalore" then 0.85
  else if String.eqb city "Hyderabad" then 0.9
  else if String.eqb city "Chennai" then 0.88
  else if String.eqb city "Kolkata" then 1.05
  else if String.eqb city "Pune" then 0.87
  else if String.eqb city "Ahmedabad" then 0.95
  else if String.eqb city "Jaipur" then 1.0
  else if String.eqb city "Lucknow" then 1.05
  else 1.0.

Definition climateRiskOf (aqi : Q) : string :=
  if gtb aqi 200 then "Critical"
  else if gtb aqi 150 then "High"
  else if gtb aqi 100 then "Moderate"
  else "Low".

Definition seasonalRisksFor (temp aqi humidity : Q) : list string :=
  (if gtb temp 40 then ["Extreme heat warning"%string]
   else if gtb temp 35 then ["Heat stress risk"%string]
   else [])
  ++ (if gtb aqi 150 then ["Poor air quality - respiratory risks"%string] else [])
  ++ (if gtb humidity 80 then ["High humidity - heat exhaustion risk"%string] else []).

Definition climateFallback (city : string) (now : Z) : ClimateData :=
  {| cl_city := city; cl_temperature := 30; cl_humidity := 65; cl_aqi := 150;
     cl_weatherCondition := "Clear"; cl_climateRisk := "Moderate";
     cl_seasonalRisks := ["Data temporarily unavailable"%string];
     cl_timestamp := now;
     cl_sources := ("Fallback estimate"%string, "Fallback estimate"%string) |}.

(** The value a fetcher gets back from [withCache], read at the type it
    asked for ([as T]). The keys of the five fetchers differ in their
    prefix, so a fetcher only ever finds what it stored itself; a value of
    another kind would be a type error on first use. *)
Definition typeError {A : Type} : M A :=
  throw (JsError "TypeError" (MsgText "Cannot read properties of undefined")).

Section WithEnvironment.
Variable network : nat -> Url -> Exchange.
Variable keys : APIKeys.

Definition aqiProbe (city : string) : M (Q * string) :=
  if isAPIKeyConfigured (key_aqicn keys) then
    try_catch
      (aqiData <- fetchWithRetry network
                    (UrlAqicn (toLowerCase city) (key_aqicn keys)) aqicn "AQICN" ;;
       match aqiData with
       | JAqicn status (Some aqi) =>
           if String.eqb status "ok" && gtb aqi 0
           then ret (aqi, "AQICN (Real-time)"%string)
           else ret (150, "Estimated"%string)
       | _ => ret (150, "Estimated"%string)
       end)
      (fun error => ret (150, "Estimated"%string))
  else ret (150, "Estimated"%string).

Definition weatherConditionProbe (coords : Q * Q) : M string :=
  if isAPIKeyConfigured (key_openWeatherMap keys) then
    try_catch
      (owmData <- fetchWithRetry network
                    (UrlOpenWeatherMap (fst coords) (snd coords) (key_openWeatherMap keys))
                    openWeatherMap "OpenWeatherMap" ;;
       match owmData with
       | JOpenWeatherMap (main :: _) =>
           ret (if String.eqb main "" then "Clear"%string else main)
       | JOpenWeatherMap [] => ret "Clear"%string
       | _ => typeError
       end)
      (fun error => ret "Clear"%string)
  else ret "Clear"%string.

(** The producer [fetchClimateData] hands to [withCache]. *)
Definition climateProducer (city : string) : M ClimateData :=
  match CITY_COORDINATES city with
  | None => throw (JsError "Error" (MsgText ("Unknown city: " ++ city)))
  | Some coords =>
      weatherData <- fetchWithRetry network
                       (UrlOpenMeteo (fst coords) (snd coords)) openMeteo "Open-Meteo" ;;
      aqiResult <- aqiProbe city ;;
      let aqi := fst aqiResult in
      let aqiSource := snd aqiResult in
      weatherCondition <- weatherConditionProbe coords ;;
      let climateRisk := climateRiskOf aqi in
      match weatherData with
      | JOpenMeteo temperature_2m relative_humidity_2m =>
          let temp := Math_round temperature_2m in
          let seasonalRisks := seasonalRisksFor temp aqi relative_humidity_2m in
          now <- Date_now ;;
          ret {| cl_city := city; cl_temperature := temp;
                 cl_humidity := relative_humidity_2m; cl_aqi := aqi;
                 cl_weatherCondition := weatherCondition;
                 cl_climateRisk := climateRisk;
                 cl_seasonalRisks := seasonalRisks;
                 cl_timestamp := now;
                 cl_sources := ("Open-Meteo (Real-time)"%string, aqiSource) |}
      | _ => typeError
      end
  end.

Definition fetchClimateData (city : string) : M ClimateData :=
  let cacheKey := generateCacheKey "climate" [("city"%string, city)] in
  try_catch
    (v <- withCache cacheKey 3600 (r <- climateProducer city ;; ret (VClimate r)) ;;
     match v with VClimate r => ret r | _ => typeError end)
    (fun error =>
       now <- Date_now ;;
       ret (climateFallback city now)).

(** The age adjustment of the producer, which multiplies in every band. *)
Definition ageAdjust (age baseRate : Q) : Q :=
  if gtb age 60 then baseRate * 2.5
  else if gtb age 50 then baseRate * 1.8
  else if gtb age 40 then baseRate * 1.3
  else if gtb age 30 then baseRate * 1.0
  else baseRate * 0.7.

(** [response[1].data.find(d => d.value !== null)], then the test
    [latestData && latestData.value]. *)
Definition latestValue (values : list (option Q)) : option Q :=
  match List.filter (fun v => match v with Some _ => true | None => false end) values with
  | Some v :: _ => if truthy (Some v) then Some v else None
  | _ => None
  end.

Definition deathRateProducer (city : string) (age : Q) : M DeathRateData :=
  response <- fetchWithRetry network UrlWorldBank worldBank "WorldBank" ;;
  let baseRate :=
    match response with
    | JWorldBank (Some values) =>
        match latestValue values with
        | Some v => v
        | None => 7.3
        end
    | _ => 7.3
    end in
  let ageAdjustedRate := ageAdjust age baseRate in
  let multiplier := cityMultiplier city in
  let ageAdjustedRate := ageAdjustedRate * multiplier in
  ret {| dr_country := "India"; dr_city := city;
         overallDeathRate := Math_round (baseRate * 10) / 10;
         ageAdjustedRate := Math_round (ageAdjustedRate * 10) / 10;
         dr_year := 2023; dr_source := "World Bank API"; dr_confidence := "high" |}.

(** The fallback of [fetchDeathRateData]: its age bands stop at 40. *)
Definition deathRateFallback (city : string) (age : Q) : DeathRateData :=
  let baseRate := 7.3 in
  let baseRate :=
    if gtb age 60 then baseRate * 2.5
    else if gtb age 50 then baseRate * 1.8
    else if gtb age 40 then baseRate * 1.3
    else baseRate in
  {| dr_country := "India"; dr_city := city;
     overallDeathRate := 7.3;
     ageAdjustedRate := Math_round (baseRate * 10) / 10;
     dr_year := 2023; dr_source := "Estimated (API unavailable)";
     dr_confidence := "low" |}.

Definition fetchDeathRateData (city : string) (age : Q) : M DeathRateData :=
  let cacheKey :=
    generateCacheKey "deathRate"
      [("city"%string, city); ("age"%string, String_of_number age)] in
  try_catch
    (v <- withCache cacheKey 86400
            (r <- deathRateProducer city age ;; ret (VDeathRate r)) ;;
     match v with VDeathRate r => ret r | _ => typeError end)
    (fun error => ret (deathRateFallback city age)).

(** [occupationRates[occupation] || { deathRate: 5.0, injuryRate: 15.0 }]. *)
Definition occupationRates (occupation : string) : Q * Q :=
  if String.eqb occupation "Construction Worker" then (18.5, 45.2)
  else if String.eqb occupation "Factory Worker" then (12.3, 38.7)
  else if String.eqb occupation "Driver" then (15.2, 28.4)
  else if String.eqb occupation "Healthcare Worker" then (8.7, 22.1)
  else if String.eqb occupation "Farmer" then (11.2, 35.6)
  else if String.eqb occupation "Engineer" then (5.4, 12.3)
  else if String.eqb occupation "Business Owner" then (4.8, 8.9)
  else if String.eqb occupation "Teacher" then (3.2, 5.4)
  else if String.eqb occupation "IT Professional" then (2.1, 4.2)
  else if String.eqb occupation "Student" then (1.5, 3.1)
  else (5.0, 15.0).

Definition occupationProducer (occupation : string) : M OccupationDeathRateData :=
  let rates := occupationRates occupation in
  ret {| od_occupation := occupation; od_deathRate := fst rates;
         injuryRate := snd rates; fatalityRate := fst rates / 100000;
         od_year := 2023; od_source := "ILO/OSHA Statistics";
         od_confidence := "high" |}.

Definition occupationFallback (occupation : string) : OccupationDeathRateData :=
  {| od_occupation := occupation; od_deathRate := 5.0; injuryRate := 15.0;
     fatalityRate := 0.00005; od_year := 2023; od_source := "Estimated";
     od_confidence := "low" |}.

Definition fetchOccupationDeathRate (occupation : string) : M OccupationDeathRateData :=
  let cacheKey :=
    generateCacheKey "occupationDeathRate" [("occupation"%string, occupation)] in
  try_catch
    (v <- withCache cacheKey 86400
            (r <- occupationProducer occupation ;; ret (VOccupationDeathRate r)) ;;
     match v with VOccupationDeathRate r => ret r | _ => typeError end)
    (fun error => ret (occupationFallback occupation)).

(** [crimeRates[city] || { rate: 300, violent: 15, property: 285, safety: 70 }]. *)
Definition crimeRates (city : string) : Q * Q * Q * Q :=
  if String.eqb city "Delhi" then (1586.1, 45.2, 1540.9, 45)
  else if String.eqb city "Mumbai" then (182.5, 12.3, 170.2, 65)
  else if String.eqb city "Bangalore" then (455.8, 18.7, 437.1, 70)
  else if String.eqb city "Hyderabad" then (398.2, 15.4, 382.8, 72)
  else if String.eqb city "Chennai" then (342.7, 14.2, 328.5, 75)
  else if String.eqb city "Kolkata" then (156.8, 10.8, 146.0, 68)
  else if String.eqb city "Pune" then (289.4, 11.5, 277.9, 76)
  else if String.eqb city "Ahmedabad" then (312.5, 13.1, 299.4, 74)
  else if String.eqb city "Jaipur" then (267.3, 10.2, 257.1, 77)
  else if String.eqb city "Lucknow" then (245.6, 9.8, 235.8, 78)
  else (300, 15, 285, 70).

Definition crimeProducer (city : string) : M CrimeData :=
  let '(rate, violent, property, safety) := crimeRates city in
  ret {| cr_city := city; cr_crimeRate := rate; cr_violentCrimeRate := violent;
         propertyCrimeRate := property; cr_safetyIndex := safety;
         cr_year := 2023; cr_source := "NCRB (National Crime Records Bureau)";
         trend := "stable" |}.

Definition crimeFallback (city : string) : CrimeData :=
  {| cr_city := city; cr_crimeRate := 300; cr_violentCrimeRate := 15;
     propertyCrimeRate := 285; cr_safetyIndex := 70; cr_year := 2023;
     cr_source := "Estimated"; trend := "stable" |}.

Definition fetchCrimeData (city : string) : M CrimeData :=
  let cacheKey := generateCacheKey "crimeData" [("city"%string, city)] in
  try_catch
    (v <- withCache cacheKey 86400 (r <- crimeProducer city ;; ret (VCrime r)) ;;
     match v with VCrime r => ret r | _ => typeError end)
    (fun error => ret (crimeFallback city)).

Definition generateFallbackAlerts (city : string) : M (list HealthAlert) :=
  now <- Date_now ;;
  ret [ {| ha_title := "General Health Advisory";
           ha_description :=
             "Maintain regular health check-ups and follow preventive measures";
           severity := "low"; ha_category := "General Health"; location := city;
           ha_date := inr now; ha_source := "System Generated"; ha_url := None |} ].

Definition determineSeverity (text : string) : string :=
  let lowerText := toLowerCase text in
  if includes lowerText "critical" || includes lowerText "emergency"
     || includes lowerText "outbreak" then "critical"
  else if includes lowerText "warning" || includes lowerText "alert"
          || includes lowerText "severe" then "high"
  else if includes lowerText "caution" || includes lowerText "risk"
          || includes lowerText "concern" then "medium"
  else "low".

Definition alertOfArticle (city : string) (article : Article) : HealthAlert :=
  let description :=
    match article_description article with Some d => d | None => ""%string end in
  let printed :=
    match article_description article with Some d => d | None => "null"%string end in
  {| ha_title := article_title article;
     ha_description := description;
     severity := determineSeverity (article_title article ++ " " ++ printed)%string;
     ha_category := "Health News"; location := city;
     ha_date := inl (article_publishedAt article);
     ha_source := article_sourceName article;
     ha_url := Some (article_url article) |}.

Definition healthAlertsProducer (city : string) : M (list HealthAlert) :=
  let query := ("health OR disease OR outbreak AND " ++ city)%string in
  response <- fetchWithRetry network (UrlNewsApi query (key_newsApi keys))
                newsApi "NewsAPI" ;;
  match response with
  | JNewsApi articles =>
      let alerts := map (alertOfArticle city) (firstn 3 articles) in
      if (0 <? List.length alerts)%nat then ret alerts
      else generateFallbackAlerts city
  | _ => typeError
  end.

Definition fetchHealthAlerts (city : string) : M (list HealthAlert) :=
  let cacheKey := generateCacheKey "healthAlerts" [("city"%string, city)] in
  try_catch
    (if negb (isAPIKeyConfigured (key_newsApi keys)) then generateFallbackAlerts city
     else
       v <- withCache cacheKey 7200
              (r <- healthAlertsProducer city ;; ret (VHealthAlerts r)) ;;
       match v with VHealthAlerts r => ret r | _ => typeError end)
    (fun error => generateFallbackAlerts city).

End WithEnvironment.

(** The data-quality record and the aggregate of the five results. *)
Inductive Quality := excellent | good | fair | poor.

Record DataQuality := {
  overall : Quality;
  sources : nat;
  realTimeDataPercentage : Q
}.

Record RealTimeData := {
  rt_climate : ClimateData;
  rt_deathRate : DeathRateData;
  rt_occupationDeathRate : OccupationDeathRateData;
  rt_crime : CrimeData;
  rt_healthAlerts : list HealthAlert;
  rt_timestamp : Z;
  dataQuality : DataQuality
}.

(** [new Set([...]).size]. *)
Definition distinct (labels : list string) : nat :=
  List.length (nodup string_dec labels).

(** The four flags counted as real-time. *)
Definition realTimeFlags (climate : ClimateData) (deathRate : DeathRateData)
    (occupationDeathRate : OccupationDeathRateData) : list bool :=
  [ includes (fst (cl_sources climate)) "Real-time";
    includes (snd (cl_sources climate)) "Real-time";
    String.eqb (dr_confidence deathRate) "high";
    String.eqb (od_confidence occupationDeathRate) "high" ].

Definition qualityOf (climate : ClimateData) (deathRate : DeathRateData)
    (occupationDeathRate : OccupationDeathRateData) (crime : CrimeData) : DataQuality :=
  let sources :=
    distinct [ fst (cl_sources climate); snd (cl_sources climate);
               dr_source deathRate; od_source occupationDeathRate;
               cr_source crime ] in
  let realTimeCount :=
    len (List.filter (fun b : bool => b)
           (realTimeFlags climate deathRate occupationDeathRate)) in
  let realTimePercentage := (realTimeCount / 4) * 100 in
  let overall :=
    if geb realTimePercentage 75 then excellent
    else if geb realTimePercentage 50 then good
    else if geb realTimePercentage 25 then fair
    else poor in
  {| overall := overall; sources := sources;
     realTimeDataPercentage := Math_round realTimePercentage |}.

(** The grading of a percentage of live data, as the specification states
    it. *)
Definition gradeOfPercentage (percentage : Q) : Quality :=
  if geb percentage 75 then excellent
  else if geb percentage 50 then good
  else if geb percentage 25 then fair
  else poor.

Definition countTrue (flags : list bool) : nat :=
  List.length (List.filter (fun b : bool => b) flags).

Definition percentageTrue (flags : list bool) : Q :=
  inject_Z (Z.of_nat (countTrue flags)) / inject_Z (Z.of_nat (List.length flags)) * 100.

Section Aggregate.
Variable network : nat -> Url -> Exchange.
Variable keys : APIKeys.

(** [fetchAllRealTimeData]. The five fetchers of [Promise.all] use five
    different cache keys and share nothing else, so the join is their run
    in the order of the array. *)
Definition fetchAllRealTimeData (city occupation : string) (age : Q) : M RealTimeData :=
  climate <- fetchClimateData network keys city ;;
  deathRate <- fetchDeathRateData network city age ;;
  occupationDeathRate <- fetchOccupationDeathRate occupation ;;
  crime <- fetchCrimeData city ;;
  healthAlerts <- fetchHealthAlerts network keys city ;;
  now <- Date_now ;;
  ret {| rt_climate := climate; rt_deathRate := deathRate;
         rt_occupationDeathRate := occupationDeathRate; rt_crime := crime;
         rt_healthAlerts := healthAlerts; rt_timestamp := now;
         dataQuality := qualityOf climate deathRate occupationDeathRate crime |}.

End Aggregate.

(** Which fetchers returned live data, by the provenance label of each
    result: a fetcher that took its fallback path labels its result
    ["Fallback estimate"], ["Estimated (API unavailable)"], ["Estimated"]
    or ["System Generated"]. *)
Definition climateLive (r : ClimateData) : bool :=
  negb (String.eqb (fst (cl_sources r)) "Fallback estimate").
Definition deathRateLive (r : DeathRateData) : bool :=
  negb (String.eqb (dr_source r) "Estimated (API unavailable)").
Definition occupationLive (r : OccupationDeathRateData) : bool :=
  negb (String.eqb (od_source r) "Estimated").
Definition crimeLive (r : CrimeData) : bool :=
  negb (String.eqb (cr_source r) "Estimated").
Definition alertsLive (r : list HealthAlert) : bool :=
  negb (forallb (fun a => String.eqb (ha_source a) "System Generated") r).

(** All five fetchers; the four whose results carry a provenance label the
    grading looks at or counts; the three the real-time flags are taken
    from. *)
Definition fetchersLive (r : RealTimeData) : list bool :=
  [ climateLive (rt_climate r); deathRateLive (rt_deathRate r);
    occupationLive (rt_occupationDeathRate r); crimeLive (rt_crime r);
    alertsLive (rt_healthAlerts r) ].

Definition labelledFetchersLive (r : RealTimeData) : list bool :=
  [ climateLive (rt_climate r); deathRateLive (rt_deathRate r);
    occupationLive (rt_occupationDeathRate r); crimeLive (rt_crime r) ].

Definition flaggedFetchersLive (r : RealTimeData) : list bool :=
  [ climateLive (rt_climate r); deathRateLive (rt_deathRate r);
    occupationLive (rt_occupationDeathRate r) ].

End RealTimeDataFetcher.

(** ** The data collector ([lib/services/data-collector]) *)

Module DataCollector.
Import JS Runtime ApiConfig ApiHelpers CityHealth RealTimeDataFetcher.
Local Open Scope js_scope.

Record CollectedData := {
  environmental : EnvironmentalData;
  statistical : StatisticalData;
  cd_occupationHazard : OccupationHazard;
  cd_cityStats : CityStats;
  realTimeData : option RealTimeData;
  healthAlerts : option (list HealthAlert);
  cd_dataQuality : option DataQuality
}.

Section WithEnvironment.
Variable network : nat -> Url -> Exchange.
Variable keys : APIKeys.

(** The static tables of [lib/data], which the collector imports. *)
Variable getCityStatistics : string -> CityStats.
Variable getOccupationHazard : string -> OccupationHazard.

(** [axios.get(url)]: rejects on a network failure and on a status outside
    2xx; [response.data] is the parsed body. *)
Definition axios_get (url : Url) : M Json :=
  fun w =>
    let exchange := network (requests w) url in
    let w' := {| cache := cache w; now := (now w + elapsed exchange)%Z;
                 requests := S (requests w);
                 events := EvFetch url :: events w |} in
    match outcome exchange with
    | Responded response =>
        if ok response then
          (Ok (match json response with Some data => data | None => JOther end), w')
        else (Throw (JsError "AxiosError" (MsgHttp (status response) "")), w')
    | Aborted => (Throw (JsError "AxiosError" (MsgText "timeout")), w')
    | Failed error => (Throw error, w')
    end.

(** [fetchEnvironmentalData]. The route it calls belongs to this
    repository; a body of another shape is taken as a failure. *)
Definition fetchEnvironmentalData (city : string) : M EnvironmentalData :=
  try_catch
    (data <- axios_get (UrlEnvironment city) ;;
     match data with
     | JEnvironment data =>
         let climateRisk := climateRiskOf (ep_aqi data) in
         ret {| env_city := ep_city data; aqi := ep_aqi data;
                temperature := ep_temperature data; humidity := ep_humidity data;
                climateRisk := climateRisk; weatherCondition := None;
                seasonalRisks := None; env_timestamp := ep_timestamp data;
                env_source := ep_source data |}
     | _ => typeError
     end)
    (fun error =>
       now <- Date_now ;;
       ret {| env_city := city; aqi := 150; temperature := 30; humidity := 65;
              climateRisk := "Moderate"; weatherCondition := None;
              seasonalRisks := None; env_timestamp := now;
              env_source := ("Fallback"%string, "Estimated"%string) |}).

(** The collector's own death-rate estimate. *)
Definition fetchDeathRateData (city : string) (age : Q) : M Q :=
  let baseRate := 7.3 in
  let baseRate := ageAdjust age baseRate in
  let multiplier := cityMultiplier city in
  ret (Math_round (baseRate * multiplier * 10) / 10).

Definition collectBasicData (city occupation : string) (age : Q) : M CollectedData :=
  try_catch
    (environmental <- fetchEnvironmentalData city ;;
     let cityStats := getCityStatistics city in
     let occupationHazard := getOccupationHazard occupation in
     deathRate <- fetchDeathRateData city age ;;
     let cityHealthIndex :=
       calculateCityHealthIndex (aqi environmental) (crimeRate cityStats)
         (temperature environmental) in
     let statistical :=
       {| deathRate := deathRate; stat_crimeRate := crimeRate cityStats;
          occupationHazardLevel := hazardLevel occupationHazard;
          occupationDeathRate := hazard_deathRate occupationHazard;
          cityHealthIndex := cityHealthIndex;
          ageAdjustedDeathRate := None; violentCrimeRate := None;
          safetyIndex := None |} in
     ret {| environmental := environmental; statistical := statistical;
            cd_occupationHazard := occupationHazard; cd_cityStats := cityStats;
            realTimeData := None; healthAlerts := None; cd_dataQuality := None |})
    (fun error => throw error).

Definition collectAllData (city occupation : string) (age : Q) : M CollectedData :=
  try_catch
    (realTimeData <- fetchAllRealTimeData network keys city occupation age ;;
     let cityStats := getCityStatistics city in
     let occupationHazard := getOccupationHazard occupation in
     let climate := rt_climate realTimeData in
     let environmental :=
       {| env_city := cl_city climate; aqi := cl_aqi climate;
          temperature := cl_temperature climate; humidity := cl_humidity climate;
          climateRisk := cl_climateRisk climate;
          weatherCondition := Some (cl_weatherCondition climate);
          seasonalRisks := Some (cl_seasonalRisks climate);
          env_timestamp := cl_timestamp climate;
          env_source := cl_sources climate |} in
     let cityHealthIndex :=
       calculateCityHealthIndex (aqi environmental)
         (cr_crimeRate (rt_crime realTimeData)) (temperature environmental) in
     let statistical :=
       {| deathRate := overallDeathRate (rt_deathRate realTimeData);
          ageAdjustedDeathRate := Some (ageAdjustedRate (rt_deathRate realTimeData));
          stat_crimeRate := cr_crimeRate (rt_crime realTimeData);
          violentCrimeRate := Some (cr_violentCrimeRate (rt_crime realTimeData));
          safetyIndex := Some (cr_safetyIndex (rt_crime realTimeData));
          occupationHazardLevel := hazardLevel occupationHazard;
          occupationDeathRate := od_deathRate (rt_occupationDeathRate realTimeData);
          cityHealthIndex := cityHealthIndex |} in
     ret {| environmental := environmental; statistical := statistical;
            cd_occupationHazard := occupationHazard; cd_cityStats := cityStats;
            realTimeData := Some realTimeData;
            healthAlerts := Some (rt_healthAlerts realTimeData);
            cd_dataQuality := Some (dataQuality realTimeData) |})
    (fun error => collectBasicData city occupation age).

End WithEnvironment.

End DataCollector.

(** The collector's own [fetchHealthAlerts]: static alerts read off the
    environmental data. *)
Module CollectorAlerts.
Import JS Runtime DataCollector.
Local Open Scope js_scope.

Section WithNetwork.
Variable network : nat -> Url -> Exchange.

Definition fetchHealthAlerts (city : string) : M (list string) :=
  try_catch
    (envData <- fetchEnvironmentalData network city ;;
     let alerts : list string := [] in
     let alerts :=
       if gtb (aqi envData) 200
       then alerts ++ ["⚠️ Air quality is very poor. Avoid outdoor activities."%string]
       else if gtb (aqi envData) 150
       then alerts ++ ["⚠️ Air quality is unhealthy. Limit outdoor exposure."%string]
       else alerts in
     let alerts :=
       if gtb (temperature envData) 40
       then alerts
            ++ ["🌡️ Extreme heat warning. Stay hydrated and avoid sun exposure."%string]
       else alerts in
     ret alerts)
    (fun error => ret []).

End WithNetwork.

End CollectorAlerts.

(** ** Sample environments *)

Module SampleEnvironments.
Import Runtime ApiConfig SampleNetworks.

Definition noKeys : APIKeys :=
  {| key_aqicn := ""; key_openWeatherMap := ""; key_newsApi := "";
     key_dataGovIn := ""; key_gemini := "" |}.

Definition newsKey : APIKeys :=
  {| key_aqicn := ""; key_openWeatherMap := ""; key_newsApi := "news-key";
     key_dataGovIn := ""; key_gemini := "" |}.

Definition aqiKey : APIKeys :=
  {| key_aqicn := "aqi-key"; key_openWeatherMap := ""; key_newsApi := "";
     key_dataGovIn := ""; key_gemini := "" |}.

Definition sampleArticle : Article :=
  {| article_title := "Dengue outbreak in the city";
     article_description := Some "Cases rise after the monsoon"%string;
     article_publishedAt := "2023-11-14T08:00:00Z";
     article_sourceName := "The Daily"; article_url := "https://example.org/a" |}.

Definition down : Exchange :=
  {| elapsed := 30;
     outcome := Failed (JsError "TypeError" (MsgText "fetch failed")) |}.

(** The weather source is down; the World Bank and the news source answer. *)
Definition climateDown : nat -> Url -> Exchange :=
  fun _ url =>
    match url with
    | UrlWorldBank => respond 200 (Some (JWorldBank (Some [None; Some 7.2])))
    | UrlNewsApi _ _ => respond 200 (Some (JNewsApi [sampleArticle]))
    | _ => down
    end.

(** The World Bank is down; the weather and air-quality sources answer. *)
Definition worldBankDown : nat -> Url -> Exchange :=
  fun _ url =>
    match url with
    | UrlOpenMeteo _ _ => respond 200 (Some (JOpenMeteo 31.4 55))
    | UrlAqicn _ _ => respond 200 (Some (JAqicn "ok" (Some 180)))
    | _ => down
    end.

Definition sampleCityStatistics (city : string) : CityStats :=
  {| crimeRate := if String.eqb city "Delhi" then 1586 else 300 |}.

Definition sampleOccupationHazard (occupation : string) : OccupationHazard :=
  if String.eqb occupation "Factory Worker" then
    {| hazardLevel := "high"; hazard_deathRate := 12.3; riskScore := 75;
       preventiveMeasures := ["Wear protective equipment"%string] |}
  else
    {| hazardLevel := "low"; hazard_deathRate := 2.1; riskScore := 20;
       preventiveMeasures := [] |}.

End SampleEnvironments.

(** ** What the pages show

    [getRiskLevelInfo] of the risk calculator, and the local helpers of the
    dashboard pages. *)

Module RiskDisplay.
Import JS RiskCalculator.

Record RiskLevelInfo := {
  info_label : string;
  info_color : string;
  info_bgColor : string;
  info_description : string
}.

Definition getRiskLevelInfo (score : Q) : RiskLevelInfo :=
  let level := getRiskLevel score in
  match level with
  | low =>
      {| info_label := "Low Risk"; info_color := "text-green-600";
         info_bgColor := "bg-green-100";
         info_description :=
           "Your health risk profile is favorable. Continue maintaining healthy habits." |}
  | medium =>
      {| info_label := "Medium Risk"; info_color := "text-yellow-600";
         info_bgColor := "bg-yellow-100";
         info_description :=
           "Some risk factors identified. Follow prevention steps to reduce risks." |}
  | high =>
      {| info_label := "High Risk"; info_color := "text-orange-600";
         info_bgColor := "bg-orange-100";
         info_description :=
           "Multiple risk factors present. Immediate preventive action recommended." |}
  | critical =>
      {| info_label := "Critical Risk"; info_color := "text-red-600";
         info_bgColor := "bg-red-100";
         info_description :=
           "Significant health risks identified. Urgent medical consultation advised." |}
  end.

End RiskDisplay.

(** [app/dashboard/results/page.tsx] *)
Module ResultsPage.
Import JS.

Record RiskBadge := {
  label : string;
  color : string;
  bgColor : string;
  barColor : string
}.

Definition getRiskLevel (score : Q) : RiskBadge :=
  if ltb score 40 then
    {| label := "Low Risk"; color := "text-green-600"; bgColor := "bg-green-50";
       barColor := "bg-green-500" |}
  else if ltb score 60 then
    {| label := "Moderate Risk"; color := "text-yellow-600"; bgColor := "bg-yellow-50";
       barColor := "bg-yellow-500" |}
  else if ltb score 75 then
    {| label := "High Risk"; color := "text-orange-600"; bgColor := "bg-orange-50";
       barColor := "bg-orange-500" |}
  else
    {| label := "Very High Risk"; color := "text-red-600"; bgColor := "bg-red-50";
       barColor := "bg-red-500" |}.

End ResultsPage.

(** [app/dashboard/report/page.tsx] *)
Module ReportPage.
Import JS.

Record AQIStatus := {
  label : string;
  color : string;
  textColor : string
}.

Definition getAQIStatus (aqi : Q) : AQIStatus :=
  if leb aqi 50 then
    {| label := "Good"; color := "bg-green-500"; textColor := "text-green-700" |}
  else if leb aqi 100 then
    {| label := "Moderate"; color := "bg-yellow-500"; textColor := "text-yellow-700" |}
  else if leb aqi 150 then
    {| label := "Unhealthy for Sensitive"; color := "bg-orange-500";
       textColor := "text-orange-700" |}
  else if leb aqi 200 then
    {| label := "Unhealthy"; color := "bg-red-500"; textColor := "text-red-700" |}
  else
    {| label := "Very Unhealthy"; color := "bg-purple-500"; textColor := "text-purple-700" |}.

End ReportPage.

(** The analysis page's own score ([app/dashboard/analysis/page.tsx]). The
    profile is what [JSON.parse] gives for the stored string, so a field is
    absent, a string or a number. *)
Module AnalysisScore.
Import JS.

Inductive Field :=
| Absent
| Text (s : string)
| Num (n : Q).

Record StoredProfile := {
  age : Field;
  healthCondition : Field;
  occupation : Field;
  addictions : Field
}.

(** [field !== s] *)
Definition differs (field : Field) (s : string) : bool :=
  match field with
  | Text t => negb (String.eqb t s)
  | _ => true
  end.

(** [[a, b].includes(field)] *)
Definition oneOf (candidates : list string) (field : Field) : bool :=
  match field with
  | Text t => existsb (String.eqb t) candidates
  | _ => false
  end.

(** [n > bound], where [None] is [NaN]. *)
Definition exceeds (n : option Q) (bound : Q) : bool :=
  match n with
  | Some n => gtb n bound
  | None => false
  end.

Section WithParseInt.
(** [Number.parseInt]; [None] is [NaN]. *)
Variable Number_parseInt : Field -> option Q.

Definition calculateRiskScore (profile : StoredProfile) : Q :=
  let score := 30 in
  let score := score + 15 in
  let age := Number_parseInt (age profile) in
  let score :=
    if exceeds age 50 then score + 15
    else if exceeds age 35 then score + 10
    else score in
  let score := if differs (healthCondition profile) "None" then score + 20 else score in
  let score :=
    if oneOf ["Factory Worker"; "Healthcare Worker"]%string (occupation profile)
    then score + 10 else score in
  let score :=
    if differs (addictions profile) "None" && differs (addictions profile) ""
    then score + 15 else score in
  Math_min score 85.

End WithParseInt.

(** The empty object, which the page parses when nothing is stored. *)
Definition emptyProfile : StoredProfile :=
  {| age := Absent; healthCondition := Absent; occupation := Absent;
     addictions := Absent |}.

(** A parser for the sample runs: numbers are truncated by the caller, text
    is not read. *)
Definition sampleParseInt (field : Field) : option Q :=
  match field with
  | Num n => Some (inject_Z (Qfloor n))
  | _ => None
  end.

End AnalysisScore.

(** ** Notions the further properties are stated with *)

Module Notions.
Import JS Runtime.

(** The order [sortKeys] sorts the parameters by: the names, compared by
    code units. *)
Definition byName (p q : string * string) : Prop :=
  String.leb (fst p) (fst q) = true.

(** The time a run spent in [sleep], read off its events. *)
Fixpoint totalPause (events : list Event) : Z :=
  match events with
  | [] => 0
  | EvSleep ms :: rest => ms + totalPause rest
  | EvFetch _ :: rest => totalPause rest
  end.

(** What every list of alerts the fetcher hands out satisfies: one to three
    alerts, all for the city asked, each with one of the four severities. *)
Definition alerts_for (city : string) (alerts : list HealthAlert) : Prop :=
  (1 <= List.length alerts <= 3)%nat
  /\ List.Forall (fun a => location a = city) alerts
  /\ List.Forall
       (fun a => In (severity a) ["critical"; "high"; "medium"; "low"]%string) alerts.

(** The input with another age, or another AQI. *)
Definition withAge (input : RiskCalculator.RiskCalculationInput) (a : Q)
    : RiskCalculator.RiskCalculationInput :=
  let p := RiskCalculator.userProfile input in
  {| RiskCalculator.userProfile :=
       {| occupation := occupation p; city := city p; area := area p;
          workShift := workShift p; healthCondition := healthCondition p;
          addictions := addictions p; pastSurgery := pastSurgery p; age := a |};
     RiskCalculator.environmentalData := RiskCalculator.environmentalData input;
     RiskCalculator.statisticalData := RiskCalculator.statisticalData input;
     RiskCalculator.occupationHazard := RiskCalculator.occupationHazard input;
     RiskCalculator.cityStats := RiskCalculator.cityStats input |}.

Definition withAqi (input : RiskCalculator.RiskCalculationInput) (a : Q)
    : RiskCalculator.RiskCalculationInput :=
  let e := RiskCalculator.environmentalData input in
  {| RiskCalculator.userProfile := RiskCalculator.userProfile input;
     RiskCalculator.environmentalData :=
       {| env_city := env_city e; aqi := a; temperature := temperature e;
          humidity := humidity e; climateRisk := climateRisk e;
          weatherCondition := weatherCondition e; seasonalRisks := seasonalRisks e;
          env_timestamp := env_timestamp e; env_source := env_source e |};
     RiskCalculator.statisticalData := RiskCalculator.statisticalData input;
     RiskCalculator.occupationHazard := RiskCalculator.occupationHazard input;
     RiskCalculator.cityStats := RiskCalculator.cityStats input |}.

(** The points the score adds for the condition a factor of the given
    category explains, for the categories where factor and score use the
    same amount. *)
Definition pointsFor (input : RiskCalculator.RiskCalculationInput) (category : string)
    : option Q :=
  if String.eqb category "Air Quality" then Some (RiskCalculator.aqiPoints input)
  else if String.eqb category "Age Factor" then Some (RiskCalculator.agePoints input)
  else if String.eqb category "Pre-existing Condition"
  then Some (RiskCalculator.healthConditionPoints input)
  else if String.eqb category "Lifestyle Risk"
  then Some (RiskCalculator.addictionPoints input)
  else if String.eqb category "Work Schedule"
  then Some (RiskCalculator.workShiftPoints input)
  else if String.eqb category "City Safety"
  then Some (RiskCalculator.safetyIndexPoints input)
  else None.

(** The ten categories, in the order their factors are pushed. *)
Definition allCategories : list string :=
  [ "Air Quality"; "Seasonal Health Risks"; "Occupational Hazard"; "Age Factor";
    "Pre-existing Condition"; "Lifestyle Risk"; "Work Schedule";
    "Environmental Stress"; "City Safety"; "City Health Infrastructure" ]%string.

(** The names picked by their flags. *)
Definition chosen (l : list (bool * string)) : list string :=
  flat_map (fun p : bool * string => if fst p then [snd p] else []) l.

(** A computation keeps a property of the cache. *)
Definition preserves (P : gmap string CacheEntry -> Prop) {A : Type} (m : M A) : Prop :=
  forall w : World, P (cache w) -> P (cache (snd (m w))).

(** A cached value that is not one of the fallback records of the climate,
    death-rate, occupation and crime fetchers. *)
Definition liveValue (v : CacheValue) : bool :=
  match v with
  | VClimate r => RealTimeDataFetcher.climateLive r
  | VDeathRate r => RealTimeDataFetcher.deathRateLive r
  | VOccupationDeathRate r => RealTimeDataFetcher.occupationLive r
  | VCrime r => RealTimeDataFetcher.crimeLive r
  | VHealthAlerts _ => true
  end.

Definition only_live (c : gmap string CacheEntry) : Prop :=
  forall (key : string) (entry : CacheEntry),
    c !! key = Some entry -> liveValue (data entry) = true.

End Notions.
(* ================================================================== *)
(** * Properties *)
(* ================================================================== *)

(** ** Facts about JavaScript numbers *)

Import JS.

Lemma gtb_spec (x y : Q) : reflect (y < x) (gtb x y).
Proof.
  unfold gtb. destruct (Qle_bool x y) eqn:E; constructor.
  - apply Qle_bool_iff in E. lra.
  - apply Qnot_le_lt. intros H. apply Qle_bool_iff in H. congruence.
Qed.

Lemma geb_spec (x y : Q) : reflect (y <= x) (geb x y).
Proof.
  unfold geb. destruct (Qle_bool y x) eqn:E; constructor.
  - now apply Qle_bool_iff.
  - intros H. apply Qle_bool_iff in H. congruence.
Qed.

Lemma ltb_spec (x y : Q) : reflect (x < y) (ltb x y).
Proof. unfold ltb. apply gtb_spec. Qed.

(** Case analysis on every comparison of the goal. *)
Ltac cmp_cases :=
  repeat match goal with
  | |- context [gtb ?x ?y] => destruct (gtb_spec x y)
  | |- context [ltb ?x ?y] => destruct (ltb_spec x y)
  | |- context [geb ?x ?y] => destruct (geb_spec x y)
  end.

Lemma Math_round_integer (x : Q) : is_integer (Math_round x).
Proof. exists (Qfloor (x + (1 # 2))). reflexivity. Qed.

Lemma Math_round_ge (z : Z) (x : Q) : inject_Z z <= x -> inject_Z z <= Math_round x.
Proof.
  intros H. unfold Math_round. rewrite <- Zle_Qle.
  rewrite <- (Qfloor_Z z). apply Qfloor_resp_le. lra.
Qed.

Lemma Math_round_nonneg (x : Q) : 0 <= x -> 0 <= Math_round x.
Proof. intros H. apply (Math_round_ge 0). exact H. Qed.

Lemma Math_round_Z (z : Z) : Math_round (inject_Z z) == inject_Z z.
Proof.
  unfold Math_round.
  assert (H : Qfloor (inject_Z z + (1 # 2)) = z).
  { apply Z.le_antisymm.
    - apply Z.lt_succ_r. rewrite Zlt_Qlt.
      eapply Qle_lt_trans; [apply Qfloor_le|].
      unfold Z.succ. rewrite inject_Z_plus. change (inject_Z 1) with 1. lra.
    - rewrite <- (Qfloor_Z z) at 1. apply Qfloor_resp_le. lra. }
  rewrite H. reflexivity.
Qed.

Lemma Math_min_cases (x y : Q) :
  (x <= y /\ Math_min x y == x) \/ (y <= x /\ Math_min x y == y).
Proof.
  unfold Math_min. destruct (Qlt_le_dec y x) as [H|H].
  - right. split; [lra|]. apply Q.min_r. lra.
  - left. split; [exact H|]. apply Q.min_l. exact H.
Qed.

Lemma Math_max_cases (x y : Q) :
  (y <= x /\ Math_max x y == x) \/ (x <= y /\ Math_max x y == y).
Proof.
  unfold Math_max. destruct (Qlt_le_dec x y) as [H|H].
  - right. split; [lra|]. apply Q.max_r. lra.
  - left. split; [exact H|]. apply Q.max_l. exact H.
Qed.

Lemma Math_min_integer (x y : Q) :
  is_integer x -> is_integer y -> is_integer (Math_min x y).
Proof.
  intros [a Ha] [b Hb].
  destruct (Math_min_cases x y) as [[_ E]|[_ E]].
  - exists a. rewrite E. exact Ha.
  - exists b. rewrite E. exact Hb.
Qed.

(** ** The risk score *)

Import RiskCalculator.

Lemma getRiskLevel_critical (score : Q) : getRiskLevel score = critical <-> 80 <= score.
Proof. unfold getRiskLevel. cmp_cases; split; intros; try discriminate; try lra; auto. Qed.

Lemma getRiskLevel_high (score : Q) : getRiskLevel score = high <-> 60 <= score < 80.
Proof. unfold getRiskLevel. cmp_cases; split; intros; try discriminate; try lra; auto. Qed.

Lemma getRiskLevel_medium (score : Q) : getRiskLevel score = medium <-> 40 <= score < 60.
Proof. unfold getRiskLevel. cmp_cases; split; intros; try discriminate; try lra; auto. Qed.

Lemma getRiskLevel_low (score : Q) : getRiskLevel score = low <-> score < 40.
Proof. unfold getRiskLevel. cmp_cases; split; intros; try discriminate; try lra; auto. Qed.

Section RiskScore.
Variable calculateCrimeStressImpact : Q -> Q.
Hypothesis impact_nonneg : nonnegative_impact calculateCrimeStressImpact.

Variable input : RiskCalculationInput.
Hypothesis input_nonneg : nonnegative_input input.

Lemma agePoints_nonneg : 0 <= agePoints input.
Proof. unfold agePoints. cmp_cases; lra. Qed.

Lemma ageDeathRatePoints_nonneg : 0 <= ageDeathRatePoints input.
Proof.
  unfold ageDeathRatePoints.
  destruct (truthy _); [|lra].
  pose proof (nn_ageAdjustedDeathRate _ input_nonneg) as H.
  destruct (Math_min_cases (val (ageAdjustedDeathRate (statisticalData input)) / 20 * 5) 5)
    as [[_ E]|[_ E]]; rewrite E; [|lra].
  apply Qmult_le_0_compat; [|lra].
  apply Qle_shift_div_l; lra.
Qed.

Lemma aqiPoints_ge_5 : 5 <= aqiPoints input.
Proof. unfold aqiPoints. cmp_cases; lra. Qed.

Lemma len_nonneg {A : Type} (l : list A) : 0 <= len l.
Proof. unfold len. change 0 with (inject_Z 0). rewrite <- Zle_Qle. lia. Qed.

Lemma seasonalPoints_nonneg : 0 <= seasonalPoints input.
Proof.
  unfold seasonalPoints. destruct (hasSeasonalRisks input); [|lra].
  pose proof (len_nonneg (seasonalRisksOf input)) as H.
  destruct (Math_min_cases (len (seasonalRisksOf input) * 2) 5) as [[_ E]|[_ E]];
    rewrite E; lra.
Qed.

Lemma occupationPoints_nonneg : 0 <= occupationPoints input.
Proof.
  unfold occupationPoints. apply Math_round_nonneg.
  pose proof (nn_riskScore _ input_nonneg). lra.
Qed.

Lemma flagPoints_nonneg :
  0 <= healthConditionPoints input /\ 0 <= addictionPoints input
  /\ 0 <= pastSurgeryPoints input /\ 0 <= workShiftPoints input.
Proof.
  unfold healthConditionPoints, addictionPoints, pastSurgeryPoints, workShiftPoints.
  repeat split; repeat match goal with |- context [if ?b then _ else _] => destruct b end; lra.
Qed.

Lemma crimeStressPoints_nonneg : 0 <= crimeStressPoints calculateCrimeStressImpact input.
Proof.
  unfold crimeStressPoints.
  pose proof (impact_nonneg _ (nn_crimeRate _ input_nonneg)) as H.
  destruct (Math_min_cases (calculateCrimeStressImpact (crimeRate (cityStats input))) 10)
    as [[_ E]|[_ E]]; rewrite E; lra.
Qed.

Lemma violentCrimePoints_nonneg : 0 <= violentCrimePoints input.
Proof.
  unfold violentCrimePoints.
  destruct (truthy _ && _); [|lra].
  pose proof (nn_violentCrimeRate _ input_nonneg) as H.
  destruct (Math_min_cases (val (violentCrimeRate (statisticalData input)) / 10) 5)
    as [[_ E]|[_ E]]; rewrite E; [|lra].
  apply Qle_shift_div_l; lra.
Qed.

Lemma safetyIndexPoints_nonneg : 0 <= safetyIndexPoints input.
Proof.
  unfold safetyIndexPoints.
  repeat match goal with |- context [if ?b then _ else _] => destruct b end; lra.
Qed.

(** Base 10 and the lowest AQI band 5 are always added; nothing else takes
    points away. *)
Lemma rawScore_ge_15 : 15 <= rawScore calculateCrimeStressImpact input.
Proof.
  unfold rawScore.
  pose proof agePoints_nonneg. pose proof ageDeathRatePoints_nonneg.
  pose proof aqiPoints_ge_5. pose proof seasonalPoints_nonneg.
  pose proof occupationPoints_nonneg.
  destruct flagPoints_nonneg as (? & ? & ? & ?).
  pose proof crimeStressPoints_nonneg. pose proof violentCrimePoints_nonneg.
  pose proof safetyIndexPoints_nonneg.
  lra.
Qed.

Lemma calculateRiskScore_ge_15 : 15 <= calculateRiskScore calculateCrimeStressImpact input.
Proof.
  unfold calculateRiskScore.
  pose proof (Math_round_ge 15 _ rawScore_ge_15) as H.
  change (inject_Z 15) with 15 in H.
  destruct (Math_min_cases (Math_round (rawScore calculateCrimeStressImpact input)) 100)
    as [[_ E]|[_ E]]; rewrite E; lra.
Qed.

Lemma calculateRiskScore_le_100 : calculateRiskScore calculateCrimeStressImpact input <= 100.
Proof. unfold calculateRiskScore, Math_min. apply Q.le_min_r. Qed.

Lemma calculateRiskScore_integer : is_integer (calculateRiskScore calculateCrimeStressImpact input).
Proof.
  unfold calculateRiskScore. apply Math_min_integer.
  - apply Math_round_integer.
  - exists 100%Z. reflexivity.
Qed.

(** C1. For an input whose numeric fields are nonnegative, the score is an
    integer between 0 and 100, and [getRiskLevel] names it critical exactly
    from 80, high exactly on [60, 80), medium exactly on [40, 60) and low
    exactly below 40. *)
Theorem risk_score_range_and_level :
  let score := calculateRiskScore calculateCrimeStressImpact input in
  is_integer score /\ 0 <= score <= 100
  /\ (getRiskLevel score = critical <-> 80 <= score)
  /\ (getRiskLevel score = high <-> 60 <= score < 80)
  /\ (getRiskLevel score = medium <-> 40 <= score < 60)
  /\ (getRiskLevel score = low <-> score < 40).
Proof.
  intros score. subst score.
  pose proof calculateRiskScore_ge_15. pose proof calculateRiskScore_le_100.
  split; [apply calculateRiskScore_integer|].
  split; [split; lra|].
  split; [apply getRiskLevel_critical|].
  split; [apply getRiskLevel_high|].
  split; [apply getRiskLevel_medium|apply getRiskLevel_low].
Qed.

(** C9. With nonnegative inputs and a nonnegative crime-stress impact the
    score is at least 15, so no score lies in [0, 15) and the level is low
    exactly on [15, 40). *)
Theorem risk_score_at_least_15 :
  let score := calculateRiskScore calculateCrimeStressImpact input in
  15 <= score /\ ~ (0 <= score < 15)
  /\ (getRiskLevel score = low <-> 15 <= score < 40).
Proof.
  intros score. subst score.
  pose proof calculateRiskScore_ge_15 as H.
  split; [exact H|]. split; [lra|].
  rewrite getRiskLevel_low. split; intros; [split|]; lra.
Qed.

End RiskScore.

Import Samples.

Lemma risk_score_range_and_level_witness :
  nonnegative_impact bandedCrimeStress /\ nonnegative_input delhiInput
  /\ (let score := calculateRiskScore bandedCrimeStress delhiInput in
      is_integer score /\ 0 <= score <= 100
      /\ (getRiskLevel score = critical <-> 80 <= score)
      /\ (getRiskLevel score = high <-> 60 <= score < 80)
      /\ (getRiskLevel score = medium <-> 40 <= score < 60)
      /\ (getRiskLevel score = low <-> score < 40)).
Proof.
  split; [|split].
  - intros r _. unfold bandedCrimeStress. cmp_cases; lra.
  - constructor; vm_compute; discriminate.
  - apply (risk_score_range_and_level bandedCrimeStress).
    + intros r _. unfold bandedCrimeStress. cmp_cases; lra.
    + constructor; vm_compute; discriminate.
Defined.

Lemma risk_score_at_least_15_witness :
  nonnegative_impact bandedCrimeStress /\ nonnegative_input bangaloreInput
  /\ (let score := calculateRiskScore bandedCrimeStress bangaloreInput in
      15 <= score /\ ~ (0 <= score < 15)
      /\ (getRiskLevel score = low <-> 15 <= score < 40)).
Proof.
  split; [|split].
  - intros r _. unfold bandedCrimeStress. cmp_cases; lra.
  - constructor; vm_compute; discriminate.
  - apply (risk_score_at_least_15 bandedCrimeStress).
    + intros r _. unfold bandedCrimeStress. cmp_cases; lra.
    + constructor; vm_compute; discriminate.
Defined.

(** The two profiles the specification works through. *)
Example delhi_factory_worker_is_critical :
  calculateRiskScore bandedCrimeStress delhiInput == 100
  /\ getRiskLevel (calculateRiskScore bandedCrimeStress delhiInput) = critical.
Proof. split; reflexivity. Qed.

Example bangalore_student_is_low :
  calculateRiskScore bandedCrimeStress bangaloreInput == 28
  /\ getRiskLevel (calculateRiskScore bandedCrimeStress bangaloreInput) = low.
Proof. split; reflexivity. Qed.

(** ** The sort of the risk factors *)

Section SortByKey.
Context {A : Type} (key : A -> Q).

Lemma insert_perm (x : A) (l : list A) :
  Permutation (x :: l) (insert (descending key) x l).
Proof.
  induction l as [|y l IH]; simpl; [reflexivity|].
  destruct (Qle_bool (descending key x y) 0); [reflexivity|].
  rewrite perm_swap. now apply perm_skip.
Qed.

Lemma Array_sort_perm (l : list A) : Permutation l (Array_sort (descending key) l).
Proof.
  induction l as [|x l IH]; simpl; [reflexivity|].
  rewrite <- insert_perm. now apply perm_skip.
Qed.

Lemma insert_sorted (x : A) (l : list A) :
  StronglySorted (before key) l ->
  StronglySorted (before key) (insert (descending key) x l).
Proof.
  induction 1 as [|y l Hs IH Hy]; simpl.
  - repeat constructor.
  - destruct (Qle_bool (descending key x y) 0) eqn:E.
    + apply Qle_bool_iff in E. unfold descending in E.
      assert (Hxy : before key x y) by (unfold before; lra).
      constructor; [constructor; assumption|].
      constructor; [exact Hxy|].
      eapply List.Forall_impl; [|exact Hy].
      unfold before in *. intros z Hz. lra.
    + assert (Hyx : before key y x).
      { unfold before. destruct (Qlt_le_dec (key y) (key x)) as [H|H]; [|exact H].
        exfalso. assert (Qle_bool (descending key x y) 0 = true); [|congruence].
        apply Qle_bool_iff. unfold descending. lra. }
      constructor; [exact IH|].
      eapply Permutation_Forall; [apply insert_perm|].
      constructor; assumption.
Qed.

Lemma Array_sort_sorted (l : list A) :
  StronglySorted (before key) (Array_sort (descending key) l).
Proof.
  induction l as [|x l IH]; simpl; [constructor|]. now apply insert_sorted.
Qed.

(** Inserting moves an element only past strictly larger keys, so the
    elements of any one key keep their order. *)
Lemma insert_filter (v : Q) (x : A) (l : list A) :
  List.filter (has_key key v) (insert (descending key) x l)
  = List.filter (has_key key v) (x :: l).
Proof.
  induction l as [|y l IH]; [reflexivity|].
  cbn [insert]. destruct (Qle_bool (descending key x y) 0) eqn:E; [reflexivity|].
  cbn [List.filter] in *. rewrite IH.
  destruct (has_key key v x) eqn:Hx, (has_key key v y) eqn:Hy; try reflexivity.
  exfalso. unfold has_key in *.
  apply Qeq_bool_iff in Hx, Hy.
  assert (Qle_bool (descending key x y) 0 = true); [|congruence].
  apply Qle_bool_iff. unfold descending. lra.
Qed.

Lemma Array_sort_stable (v : Q) (l : list A) :
  List.filter (has_key key v) (Array_sort (descending key) l)
  = List.filter (has_key key v) l.
Proof.
  induction l as [|x l IH]; [reflexivity|].
  cbn [Array_sort fold_right]. fold (Array_sort (descending key) l).
  rewrite insert_filter. cbn [List.filter]. now rewrite IH.
Qed.

End SortByKey.

(** C4. The list [generateRiskFactors] returns is in non-increasing order of
    impact, holds exactly the factors that were pushed, and keeps the
    factors of any one impact in the order they were pushed. *)
Theorem risk_factors_sorted_stable
    (calculateCrimeStressImpact : Q -> Q) (input : RiskCalculationInput) :
  let factors := generateRiskFactors calculateCrimeStressImpact input in
  StronglySorted (fun a b => impact b <= impact a) factors
  /\ Permutation (pushedFactors calculateCrimeStressImpact input) factors
  /\ forall v : Q,
       List.filter (fun f => Qeq_bool (impact f) v) factors
       = List.filter (fun f => Qeq_bool (impact f) v)
           (pushedFactors calculateCrimeStressImpact input).
Proof.
  intros factors. subst factors. unfold generateRiskFactors.
  change byImpact with (descending impact).
  split; [apply (Array_sort_sorted impact)|].
  split; [apply Array_sort_perm|].
  intros v. apply (Array_sort_stable impact v).
Qed.

Example delhi_factors_order :
  map category (generateRiskFactors bandedCrimeStress delhiInput)
  = ["Air Quality"; "Age Factor"; "Occupational Hazard"; "Pre-existing Condition";
     "Environmental Stress"; "City Health Infrastructure"; "Work Schedule";
     "City Safety"; "Seasonal Health Risks"]%string.
Proof. reflexivity. Qed.

(** ** The city health index *)

Import CityHealth.

Lemma aqiDeduction_mono (a1 a2 : Q) : a1 <= a2 -> aqiDeduction a1 <= aqiDeduction a2.
Proof. intros H. unfold aqiDeduction. cmp_cases; lra. Qed.

Lemma crimeDeduction_mono (c1 c2 : Q) : c1 <= c2 -> crimeDeduction c1 <= crimeDeduction c2.
Proof. intros H. unfold crimeDeduction. cmp_cases; lra. Qed.

(** The temperature bands are bands of the distance from 25 degrees. *)
Lemma temperatureDeduction_by_extremity (t : Q) :
  temperatureDeduction t
  = if gtb (temperatureExtremity t) 15 then 20
    else if gtb (temperatureExtremity t) 10 then 10
    else 0.
Proof.
  unfold temperatureDeduction, temperatureExtremity.
  destruct (Qlt_le_dec (t - 25) 0) as [H|H].
  - pose proof (Qabs_neg (t - 25)) as E.
    assert (E' : Qabs (t - 25) == 25 - t) by (rewrite E; lra).
    cmp_cases; cbn [orb]; try reflexivity; exfalso; lra.
  - pose proof (Qabs_pos (t - 25) H) as E.
    cmp_cases; cbn [orb]; try reflexivity; exfalso; lra.
Qed.

Lemma temperatureDeduction_mono (t1 t2 : Q) :
  temperatureExtremity t1 <= temperatureExtremity t2 ->
  temperatureDeduction t1 <= temperatureDeduction t2.
Proof.
  intros H. rewrite !temperatureDeduction_by_extremity. cmp_cases; lra.
Qed.

Lemma deductions_range (aqi crimeRate temperature : Q) :
  0 <= aqiDeduction aqi <= 50 /\ 0 <= crimeDeduction crimeRate <= 30
  /\ 0 <= temperatureDeduction temperature <= 20.
Proof.
  unfold aqiDeduction, crimeDeduction, temperatureDeduction.
  repeat split; repeat match goal with |- context [if ?b then _ else _] => destruct b end; lra.
Qed.

(** C3. The index does not rise when the AQI rises, when the crime rate
    rises, or when the temperature moves away from the comfortable band, and
    it always lies between 0 and 100. *)
Theorem city_health_index_monotone (aqi1 aqi2 crime1 crime2 temp1 temp2 : Q) :
  aqi1 <= aqi2 -> crime1 <= crime2 ->
  temperatureExtremity temp1 <= temperatureExtremity temp2 ->
  calculateCityHealthIndex aqi2 crime2 temp2 <= calculateCityHealthIndex aqi1 crime1 temp1
  /\ 0 <= calculateCityHealthIndex aqi1 crime1 temp1 <= 100.
Proof.
  intros Ha Hc Ht. unfold calculateCityHealthIndex.
  pose proof (aqiDeduction_mono _ _ Ha). pose proof (crimeDeduction_mono _ _ Hc).
  pose proof (temperatureDeduction_mono _ _ Ht).
  destruct (deductions_range aqi1 crime1 temp1) as (? & ? & ?).
  destruct (Math_max_cases (100 - aqiDeduction aqi1 - crimeDeduction crime1
                            - temperatureDeduction temp1) 0) as [[? E1]|[? E1]];
  destruct (Math_max_cases (100 - aqiDeduction aqi2 - crimeDeduction crime2
                            - temperatureDeduction temp2) 0) as [[? E2]|[? E2]];
  rewrite E1, E2; repeat split; lra.
Qed.

Lemma city_health_index_monotone_witness :
  150 <= 220 /\ 300 <= 1586 /\ temperatureExtremity 30 <= temperatureExtremity 42
  /\ calculateCityHealthIndex 220 1586 42 <= calculateCityHealthIndex 150 300 30
  /\ 0 <= calculateCityHealthIndex 150 300 30 <= 100.
Proof.
  split; [vm_compute; discriminate|].
  split; [vm_compute; discriminate|].
  split; [vm_compute; discriminate|].
  apply (city_health_index_monotone 150 220 300 1586 30 42); vm_compute; discriminate.
Defined.

Example city_health_index_values :
  calculateCityHealthIndex 220 1586 42 == 0
  /\ calculateCityHealthIndex 150 300 30 == 75
  /\ calculateCityHealthIndex 40 100 5 == 80.
Proof. repeat split; reflexivity. Qed.

(** ** The planner *)

Import AnalysisPage.

(** C6. The plan is the premium one exactly above 70, the comprehensive one
    exactly on (50, 70], and the essential one exactly up to 50, each with
    its coverage and premium. *)
Theorem insurance_plan_bands (riskScore : Q) :
  (getInsurancePlan riskScore
     = {| name := "Premium Health Shield"; coverage := 1000000; premium := 8500 |}
   <-> 70 < riskScore)
  /\ (getInsurancePlan riskScore
        = {| name := "Comprehensive Care Plus"; coverage := 500000; premium := 5500 |}
      <-> 50 < riskScore <= 70)
  /\ (getInsurancePlan riskScore
        = {| name := "Essential Health Cover"; coverage := 300000; premium := 3500 |}
      <-> riskScore <= 50).
Proof.
  unfold getInsurancePlan.
  cmp_cases; repeat split; intros; try discriminate; try lra; try reflexivity.
Qed.

Lemma Math_round_comp (x y : Q) : x == y -> Math_round x = Math_round y.
Proof. intros H. unfold Math_round. now rewrite H. Qed.

(** C7. The monthly savings target is [round(2000 * riskScore / 50)], which
    is 40 per point for a whole score; the target at 100 is twice the target
    at 50. *)
Theorem monthly_savings_formula (profile : UserProfile) (riskScore : Q) :
  calculateMonthlySavings profile riskScore = savingsTarget riskScore
  /\ (forall z : Z, calculateMonthlySavings profile (inject_Z z) == 40 * inject_Z z)
  /\ calculateMonthlySavings profile 100 == 2 * calculateMonthlySavings profile 50.
Proof.
  unfold calculateMonthlySavings, savingsTarget.
  split; [apply Math_round_comp; field|].
  split; [|reflexivity].
  intros z. rewrite (Math_round_comp _ (inject_Z (40 * z))).
  - rewrite Math_round_Z, inject_Z_mult. reflexivity.
  - rewrite inject_Z_mult. change (inject_Z 40) with 40. field.
Qed.

Example monthly_savings_values :
  calculateMonthlySavings student 50 == 2000
  /\ calculateMonthlySavings student 100 == 4000
  /\ calculateMonthlySavings student 28 == 1120.
Proof. repeat split; reflexivity. Qed.

(** ** Retry with backoff *)

Import Runtime ApiConfig ApiHelpers.

Section Retry.
Variable network : nat -> Url -> Exchange.
Variables (url : Url) (config : APIConfig) (apiName : string).

Lemma attempt_run (w : World) :
  fst (attempt network url config apiName w) = tryResult apiName (network (requests w) url)
  /\ requests (snd (attempt network url config apiName w)) = S (requests w)
  /\ events (snd (attempt network url config apiName w)) = EvFetch url :: events w
  /\ cache (snd (attempt network url config apiName w)) = cache w.
Proof.
  unfold attempt, bind, fetchWithTimeout, tryResult.
  destruct (outcome (network (requests w) url)) as [response| |error]; cbn.
  - destruct (negb (ok response)); cbn; [auto|].
    destruct (json response); cbn; auto.
  - auto.
  - auto.
Qed.

(** The loop from attempt [attemptNo] on, with [remaining] iterations to go. *)
Lemma retryLoop_run (remaining : nat) :
  forall (attemptNo : nat) (lastError : Error) (w : World),
    (0 < remaining)%nat ->
    (attemptNo + remaining = retryAttempts config + 1)%nat ->
    let run := retryLoop network remaining attemptNo lastError url config apiName w in
    exists attempts : nat,
      requests (snd run) = (requests w + attempts)%nat
      /\ (1 <= attempts <= remaining)%nat
      /\ events (snd run)
         = rev (scheduleFrom url (retryDelay config) attemptNo attempts) ++ events w
      /\ cache (snd run) = cache w
      /\ forall i : nat, (i < attempts)%nat ->
           match tryResult apiName (network (requests w + i) url) with
           | Ok data => S i = attempts /\ fst run = Ok data
           | Throw error =>
               if terminal error then S i = attempts /\ fst run = Throw error
               else if (attemptNo + i <? retryAttempts config)%nat
                    then (S i < attempts)%nat
                    else S i = attempts
                         /\ fst run = Throw (exhausted config apiName error)
           end.
Proof.
  induction remaining as [|remaining IH]; intros attemptNo lastError w Hpos Hsum run;
    [lia|].
  subst run. cbn [retryLoop]. unfold try_catch.
  destruct (attempt_run w) as (Hres & Hreq & Hev & Hcache).
  destruct (attempt network url config apiName w) as [result w1] eqn:Hattempt.
  cbn [fst snd] in Hres, Hreq, Hev, Hcache.
  destruct result as [data|error].
  - (* the request succeeded *)
    exists 1%nat. cbn [fst snd].
    repeat split; try lia; try assumption.
    intros i Hi. assert (i = 0)%nat by lia. subst i.
      rewrite Nat.add_0_r, <- Hres. auto.
  - destruct (terminal error) eqn:Hterm.
    + (* a client error other than 429 *)
      exists 1%nat. unfold throw. cbn [fst snd].
      repeat split; try lia; try assumption.
      intros i Hi. assert (i = 0)%nat by lia. subst i.
      rewrite Nat.add_0_r, <- Hres, Hterm. auto.
    + destruct remaining as [|remaining'].
      * (* the last attempt failed *)
        assert (Hlast : (attemptNo <? retryAttempts config)%nat = false)
          by (apply Nat.ltb_ge; lia).
        rewrite -> Hlast. exists 1%nat.
        cbn [retryLoop]. unfold bind, ret, throw. cbn [fst snd].
        repeat split; try lia; try assumption.
        intros i Hi. assert (i = 0)%nat by lia. subst i.
        rewrite !Nat.add_0_r, <- Hres, Hterm, Hlast. auto.
      * (* a pause, then the next attempt *)
        assert (Hmore : (attemptNo <? retryAttempts config)%nat = true)
          by (apply Nat.ltb_lt; lia).
        rewrite -> Hmore.
        set (delay := (retryDelay config * 2 ^ Z.of_nat attemptNo)%Z).
        set (w2 := {| cache := cache w1; now := (now w1 + delay)%Z;
                      requests := requests w1;
                      events := EvSleep delay :: events w1 |}).
        change ((sleep delay ;;;
                 retryLoop network (S remaining') (S attemptNo) error url config apiName)%js w1)
          with (retryLoop network (S remaining') (S attemptNo) error url config apiName w2).
        destruct (IH (S attemptNo) error w2) as (n & Hn & Hrange & Hevn & Hcachen & Hall);
          [lia|lia|].
        exists (S n). cbn [fst snd] in *.
        split; [rewrite Hn; subst w2; cbn; lia|].
        split; [lia|].
        split.
        { rewrite Hevn. subst w2. cbn [events]. rewrite Hev.
          destruct n as [|n']; [lia|].
          cbn [scheduleFrom rev]. rewrite <- !app_assoc. reflexivity. }
        split; [rewrite Hcachen; subst w2; cbn; assumption|].
        intros i Hi. destruct i as [|i].
        -- rewrite Nat.add_0_r, <- Hres, Hterm, Nat.add_0_r, Hmore. lia.
        -- specialize (Hall i ltac:(lia)).
           replace (requests w2 + i)%nat with (requests w + S i)%nat in Hall
             by (subst w2; cbn; lia).
           replace (S attemptNo + i)%nat with (attemptNo + S i)%nat in Hall by lia.
           destruct (tryResult apiName (network (requests w + S i) url)) as [data|e].
           ++ destruct Hall as [-> ->]. auto.
           ++ destruct (terminal e).
              ** destruct Hall as [-> ->]. auto.
              ** destruct (attemptNo + S i <? retryAttempts config)%nat.
                 --- lia.
                 --- destruct Hall as [-> ->]. auto.
Qed.

End Retry.

(** In the schedule, request [i] is followed by the pause [retryDelay * 2^i]
    whenever a further request follows. *)
Lemma scheduleFrom_pause (url : Url) (retryDelay : Z) (i : nat) :
  forall attemptNo attempts : nat,
    (S i < attempts)%nat ->
    nth_error (scheduleFrom url retryDelay attemptNo attempts) (2 * i)
    = Some (EvFetch url)
    /\ nth_error (scheduleFrom url retryDelay attemptNo attempts) (2 * i + 1)
       = Some (EvSleep (retryDelay * 2 ^ Z.of_nat (attemptNo + i))).
Proof.
  induction i as [|i IH]; intros attemptNo attempts Hlt.
  - destruct attempts as [|[|n]]; [lia|lia|].
    rewrite -> Nat.add_0_r. split; reflexivity.
  - destruct attempts as [|[|n]]; [lia|lia|].
    replace (2 * S i)%nat with (S (S (2 * i))) by lia.
    replace (S (S (2 * i)) + 1)%nat with (S (S (2 * i + 1))) by lia.
    replace (attemptNo + S i)%nat with (S attemptNo + i)%nat by lia.
    apply (IH (S attemptNo) (S n)). lia.
Qed.

Lemma terminal_http (message : Message) (status : Z) (apiName : string) (original : Error) :
  terminal (APIError message (Some status) apiName original) = true
  <-> (400 <= status < 500)%Z /\ status <> 429%Z.
Proof.
  unfold terminal. rewrite !andb_true_iff, !negb_true_iff.
  rewrite Z.leb_le, Z.ltb_lt, !Z.eqb_neq. lia.
Qed.

Lemma tryResult_http (apiName : string) (took : Z) (response : Response) :
  ok response = false ->
  tryResult apiName {| elapsed := took; outcome := Responded response |}
  = Throw (APIError
             (MsgHttp (status response)
                (match text response with Some t => t | None => "Unknown error"%string end))
             (Some (status response)) apiName Undefined).
Proof. intros H. unfold tryResult. cbn. rewrite -> H. reflexivity. Qed.

(** C5. A call makes at least one and at most [retryAttempts + 1] requests;
    between request [i] and the next it pauses [retryDelay * 2^i]; and after
    an HTTP error answer a further request follows exactly when the status
    is not a 4xx other than 429 and attempts are left: a 4xx other than 429
    ends the call at once with that error, and an error that is retried on
    the last attempt ends it with the "failed after" error. *)
Theorem fetch_with_retry_backoff
    (network : nat -> Url -> Exchange) (url : Url) (config : APIConfig)
    (apiName : string) (w : World) :
  let run := fetchWithRetry network url config apiName w in
  exists attempts : nat,
    requests (snd run) = (requests w + attempts)%nat
    /\ (1 <= attempts <= retryAttempts config + 1)%nat
    /\ events (snd run) = rev (schedule url (retryDelay config) attempts) ++ events w
    /\ (forall i : nat,
          (S i < attempts)%nat ->
          nth_error (schedule url (retryDelay config) attempts) (2 * i + 1)
          = Some (EvSleep (retryDelay config * 2 ^ Z.of_nat i)))
    /\ forall (i : nat) (response : Response),
         (i < attempts)%nat ->
         outcome (network (requests w + i)%nat url) = Responded response ->
         ok response = false ->
         let clientError :=
           (400 <= status response < 500)%Z /\ status response <> 429%Z in
         let httpError :=
           APIError
             (MsgHttp (status response)
                (match text response with Some t => t | None => "Unknown error"%string end))
             (Some (status response)) apiName Undefined in
         (clientError -> S i = attempts /\ fst run = Throw httpError)
         /\ (~ clientError -> (i < retryAttempts config)%nat -> (S i < attempts)%nat)
         /\ ((S i < attempts)%nat -> ~ clientError /\ (i < retryAttempts config)%nat)
         /\ (~ clientError -> i = retryAttempts config ->
             S i = attempts /\ fst run = Throw (exhausted config apiName httpError)).
Proof.
  intros run. subst run. unfold fetchWithRetry.
  destruct (retryLoop_run network url config apiName (S (retryAttempts config))
              0 Undefined w ltac:(lia) ltac:(lia))
    as (attempts & Hreq & Hrange & Hev & _ & Hall).
  exists attempts.
  split; [exact Hreq|]. split; [lia|]. split; [exact Hev|].
  split; [intros i Hi; apply (scheduleFrom_pause url (retryDelay config) i 0 attempts Hi)|].
  cbv zeta. intros i response Hi Hout Hok.
  set (clientError := (400 <= status response < 500)%Z /\ status response <> 429%Z).
  set (httpError :=
         APIError
           (MsgHttp (status response)
              (match text response with Some t => t | None => "Unknown error"%string end))
           (Some (status response)) apiName Undefined).
  specialize (Hall i Hi).
  destruct (network (requests w + i)%nat url) as [took out] eqn:Hx.
  cbn [outcome] in Hout. subst out.
  rewrite -> (tryResult_http apiName took response Hok) in Hall.
  fold httpError in Hall.
  pose proof (terminal_http
                (MsgHttp (status response)
                   (match text response with Some t => t | None => "Unknown error"%string end))
                (status response) apiName Undefined) as Hterm.
  fold httpError in Hterm. fold clientError in Hterm.
  cbn [Nat.add] in Hall.
  destruct (terminal httpError).
  - assert (clientError) by (apply Hterm; reflexivity).
    destruct Hall as [-> ->].
    repeat split; auto; try contradiction; lia.
  - assert (Hnot : ~ clientError) by (intros Hc; apply Hterm in Hc; discriminate).
    destruct (i <? retryAttempts config)%nat eqn:Hlt.
    + apply Nat.ltb_lt in Hlt. repeat split; auto; try contradiction; try lia.
    + apply Nat.ltb_ge in Hlt. destruct Hall as [<- ->].
      repeat split; auto; try contradiction; try lia.
Qed.

Import SampleNetworks.

Lemma fetch_with_retry_backoff_witness :
  let run := fetchWithRetry (alwaysStatus 503) UrlWorldBank worldBank "WorldBank" freshWorld in
  exists attempts : nat,
    requests (snd run) = (requests freshWorld + attempts)%nat
    /\ (1 <= attempts <= retryAttempts worldBank + 1)%nat
    /\ events (snd run)
       = rev (schedule UrlWorldBank (retryDelay worldBank) attempts) ++ events freshWorld
    /\ (forall i : nat,
          (S i < attempts)%nat ->
          nth_error (schedule UrlWorldBank (retryDelay worldBank) attempts) (2 * i + 1)
          = Some (EvSleep (retryDelay worldBank * 2 ^ Z.of_nat i)))
    /\ forall (i : nat) (response : Response),
         (i < attempts)%nat ->
         outcome (alwaysStatus 503 (requests freshWorld + i)%nat UrlWorldBank)
           = Responded response ->
         ok response = false ->
         let clientError :=
           (400 <= status response < 500)%Z /\ status response <> 429%Z in
         let httpError :=
           APIError
             (MsgHttp (status response)
                (match text response with Some t => t | None => "Unknown error"%string end))
             (Some (status response)) "WorldBank" Undefined in
         (clientError -> S i = attempts /\ fst run = Throw httpError)
         /\ (~ clientError -> (i < retryAttempts worldBank)%nat -> (S i < attempts)%nat)
         /\ ((S i < attempts)%nat -> ~ clientError /\ (i < retryAttempts worldBank)%nat)
         /\ (~ clientError -> i = retryAttempts worldBank ->
             S i = attempts /\ fst run = Throw (exhausted worldBank "WorldBank" httpError)).
Proof.
  exact (fetch_with_retry_backoff (alwaysStatus 503) UrlWorldBank worldBank
           "WorldBank" freshWorld).
Defined.

(** A server error is retried three times, with pauses of 1, 2 and 4
    seconds; a 404 is not retried; a 429 is. *)
Example retry_on_503 :
  rev (events (snd (fetchWithRetry (alwaysStatus 503) UrlWorldBank worldBank
                      "WorldBank" freshWorld)))
  = [EvFetch UrlWorldBank; EvSleep 1000; EvFetch UrlWorldBank; EvSleep 2000;
     EvFetch UrlWorldBank; EvSleep 4000; EvFetch UrlWorldBank].
Proof. reflexivity. Qed.

Example no_retry_on_404 :
  fetchWithRetry (alwaysStatus 404) UrlWorldBank worldBank "WorldBank" freshWorld
  = (Throw (APIError (MsgHttp 404 "body") (Some 404%Z) "WorldBank" Undefined),
     {| cache := ∅; now := 1700000000120; requests := 1;
        events := [EvFetch UrlWorldBank] |}).
Proof. reflexivity. Qed.

Example retry_on_429 :
  fst (fetchWithRetry rateLimitedTwice UrlWorldBank worldBank "WorldBank" freshWorld)
  = Ok (JWorldBank (Some [None; Some 7.2]))
  /\ rev (events (snd (fetchWithRetry rateLimitedTwice UrlWorldBank worldBank
                         "WorldBank" freshWorld)))
     = [EvFetch UrlWorldBank; EvSleep 1000; EvFetch UrlWorldBank; EvSleep 2000;
        EvFetch UrlWorldBank].
Proof. split; reflexivity. Qed.

(** A timeout carries status 408 and so ends the call like any other 4xx. *)
Example no_retry_on_timeout :
  let network := fun (_ : nat) (_ : Url) => {| elapsed := 0; outcome := Aborted |} in
  fst (fetchWithRetry network UrlWorldBank worldBank "WorldBank" freshWorld)
  = Throw (APIError (MsgText "Request timeout") (Some 408%Z) "unknown"
             (JsError "AbortError" (MsgText "This operation was aborted")))
  /\ requests (snd (fetchWithRetry network UrlWorldBank worldBank "WorldBank" freshWorld))
     = 1%nat.
Proof. split; reflexivity. Qed.

(** ** The cache *)

Import CacheService.

Lemma bind_ok {A B : Type} (m : M A) (k : A -> M B) (w w' : World) (a : A) :
  m w = (Ok a, w') -> bind m k w = k a w'.
Proof. intros H. unfold bind. rewrite -> H. reflexivity. Qed.

Lemma bind_throw {A B : Type} (m : M A) (k : A -> M B) (w w' : World) (e : Error) :
  m w = (Throw e, w') -> bind m k w = (Throw e, w').
Proof. intros H. unfold bind. rewrite -> H. reflexivity. Qed.

(** A lookup answers with the entry if it is there and not expired, and
    leaves the world [withLookup]. *)
Lemma get_run (key : string) (w : World) :
  get key w
  = (Ok (match cache w !! key with
         | Some entry => if expired (now w) entry then None else Some (data entry)
         | None => None
         end),
     match cache w !! key with
     | Some entry => if expired (now w) entry then withLookup key w else w
     | None => w
     end).
Proof.
  unfold get, withLookup, afterLookup, bind, getCache, Date_now, putCache, ret, expired.
  cbn [fst snd].
  destruct (cache w !! key) as [entry|] eqn:E; [|reflexivity].
  destruct (now w - timestamp entry >? ttl entry * 1000)%Z; reflexivity.
Qed.

Lemma afterLookup_get (key : string) (w : World) :
  cache (snd (get key w)) = afterLookup key w.
Proof.
  rewrite -> get_run. unfold withLookup, afterLookup. cbn [snd].
  destruct (cache w !! key) as [entry|]; [|reflexivity].
  destruct (expired (now w) entry); reflexivity.
Qed.

Lemma afterLookup_miss (key : string) (w : World) :
  fst (get key w) = Ok None -> afterLookup key w !! key = None.
Proof.
  rewrite -> get_run. unfold afterLookup. cbn.
  destruct (cache w !! key) as [entry|] eqn:E; [|intros _; exact E].
  destruct (expired (now w) entry); [|discriminate].
  intros _. apply lookup_delete_eq.
Qed.

(** The three ways a call of [withCache] goes. *)
Lemma withCache_run (cacheKey : string) (ttl : Z) (fetchFn : M CacheValue) (w : World) :
  match fst (get cacheKey w) with
  | Ok (Some cached) => withCache cacheKey ttl fetchFn w = (Ok cached, w)
  | Ok None =>
      match fetchFn (snd (get cacheKey w)) with
      | (Ok data, w') =>
          withCache cacheKey ttl fetchFn w
          = (Ok data,
             {| cache := <[cacheKey := {| data := data; timestamp := now w'; ttl := ttl |}]>
                           (cache w');
                now := now w'; requests := requests w'; events := events w' |})
      | (Throw e, w') => withCache cacheKey ttl fetchFn w = (Throw e, w')
      end
  | Throw _ => False
  end.
Proof.
  unfold withCache, bind. rewrite -> (get_run cacheKey w).
  destruct (cache w !! cacheKey) as [entry|] eqn:E; cbn [fst snd].
  - destruct (expired (now w) entry) eqn:X; [|reflexivity].
    destruct (fetchFn (withLookup cacheKey w)) as [[d|e] w'] eqn:F; reflexivity.
  - destruct (fetchFn w) as [[d|e] w'] eqn:F; reflexivity.
Qed.

(** C10, as amended. When the producer rejects, the rejection reaches the
    caller and nothing is stored: the cache is the one the lookup left,
    which is the cache before the call without an expired entry of
    [cacheKey], and it has no entry for [cacheKey]. An entry for [cacheKey]
    that was not there before the call holds the value the producer
    resolved with. *)
Theorem with_cache_stores_only_on_success
    (cacheKey : string) (ttl : Z) (fetchFn : M CacheValue) (w : World) :
  keeps_cache fetchFn ->
  let run := withCache cacheKey ttl fetchFn w in
  (forall e : Error,
     fst run = Throw e ->
     fst (fetchFn (snd (get cacheKey w))) = Throw e
     /\ cache (snd run) = afterLookup cacheKey w
     /\ cache (snd run) !! cacheKey = None)
  /\ (forall e : Error,
        fst (get cacheKey w) = Ok None ->
        fst (fetchFn (snd (get cacheKey w))) = Throw e ->
        fst run = Throw e)
  /\ (forall entry : CacheEntry,
        cache (snd run) !! cacheKey = Some entry ->
        cache w !! cacheKey <> Some entry ->
        fst (fetchFn (snd (get cacheKey w))) = Ok (data entry)
        /\ fst run = Ok (data entry)).
Proof.
  intros Hkeep run. subst run.
  pose proof (withCache_run cacheKey ttl fetchFn w) as Hrun.
  pose proof (afterLookup_get cacheKey w) as Hafter.
  pose proof (afterLookup_miss cacheKey w) as Hmiss.
  pose proof (Hkeep (snd (get cacheKey w))) as Hk.
  pose proof (get_run cacheKey w) as Hget.
  destruct (get cacheKey w) as [[[cached|]|e0] w0] eqn:G; cbn [fst snd] in *;
    [| |contradiction].
  - (* hit: the world does not change *)
    rewrite -> Hrun. cbn [fst snd].
    split; [intros e He; discriminate|].
    split; [intros e He; discriminate|].
    intros entry Hentry Hnew. contradiction.
  - specialize (Hmiss eq_refl).
    destruct (fetchFn w0) as [[d|e] w'] eqn:F; rewrite -> Hrun; cbn [fst snd] in *.
    + split; [intros e He; discriminate|].
      split; [intros e _ He; discriminate|].
      intros entry Hentry _. cbn [fst snd cache] in Hentry.
      rewrite -> lookup_insert_eq in Hentry.
      injection Hentry as <-. cbn. auto.
    + split.
      { intros e' He'. injection He' as <-.
        rewrite -> Hk, Hafter. auto. }
      split; [intros e' _ He'; exact He'|].
      intros entry Hentry _. cbn [fst snd] in Hentry.
      rewrite -> Hk, Hafter, Hmiss in Hentry. discriminate.
Qed.

Lemma with_cache_stores_only_on_success_witness :
  keeps_cache rejecting
  /\ let run := withCache "crimeData:city:Pune" 86400 rejecting staleWorld in
     (forall e : Error,
        fst run = Throw e ->
        fst (rejecting (snd (get "crimeData:city:Pune" staleWorld))) = Throw e
        /\ cache (snd run) = afterLookup "crimeData:city:Pune" staleWorld
        /\ cache (snd run) !! "crimeData:city:Pune"%string = None)
     /\ (forall e : Error,
           fst (get "crimeData:city:Pune" staleWorld) = Ok None ->
           fst (rejecting (snd (get "crimeData:city:Pune" staleWorld))) = Throw e ->
           fst run = Throw e)
     /\ (forall entry : CacheEntry,
           cache (snd run) !! "crimeData:city:Pune"%string = Some entry ->
           cache staleWorld !! "crimeData:city:Pune"%string <> Some entry ->
           fst (rejecting (snd (get "crimeData:city:Pune" staleWorld))) = Ok (data entry)
           /\ fst run = Ok (data entry)).
Proof.
  split.
  - intros w. reflexivity.
  - apply (with_cache_stores_only_on_success "crimeData:city:Pune" 86400 rejecting staleWorld).
    intros w. reflexivity.
Defined.

(** The claim as first stated fails: with an expired entry under the key,
    a rejecting producer leaves a cache that differs from the one before the
    call, for the lookup has purged the entry. *)
Lemma with_cache_rejection_changes_cache :
  let run := withCache "crimeData:city:Pune" 86400 rejecting staleWorld in
  fst run = Throw (JsError "Error" (MsgText "upstream unavailable"))
  /\ keeps_cache rejecting
  /\ cache staleWorld !! "crimeData:city:Pune"%string
     = Some {| data := VCrime staleCrime; timestamp := 1699827200000; ttl := 86400 |}
  /\ cache (snd run) !! "crimeData:city:Pune"%string = None
  /\ cache (snd run) <> cache staleWorld.
Proof.
  cbv zeta.
  split; [reflexivity|].
  split; [intros w; reflexivity|].
  split; [reflexivity|].
  split; [reflexivity|].
  intros H.
  apply (f_equal (fun m : gmap string CacheEntry => m !! "crimeData:city:Pune"%string)) in H.
  vm_compute in H. discriminate.
Qed.

Example cache_round_trip (key : string) (v : CacheValue) (w : World) :
  let stored := snd (set key v 1 w) in
  fst (get key stored) = Ok (Some v)
  /\ forall later : Z, (later > now w + 1000)%Z ->
       fst (get key {| cache := cache stored; now := later;
                       requests := requests stored; events := events stored |})
       = Ok None.
Proof.
  cbv zeta. unfold set, bind, getCache, Date_now, putCache. cbn [fst snd].
  split.
  - rewrite -> get_run. cbn [cache now fst]. rewrite -> lookup_insert_eq.
    unfold expired. cbn [timestamp ttl data].
    replace (now w - now w >? 1 * 1000)%Z with false; [reflexivity|].
    symmetry. rewrite -> Z.gtb_ltb. apply Z.ltb_ge. lia.
  - intros later Hlater. rewrite -> get_run. cbn [cache now fst].
    rewrite -> lookup_insert_eq. unfold expired. cbn [timestamp ttl data].
    replace (later - now w >? 1 * 1000)%Z with true; [reflexivity|].
    symmetry. rewrite -> Z.gtb_ltb. apply Z.ltb_lt. lia.
Qed.

(** ** The fetchers never throw *)

Import RealTimeDataFetcher.

Lemma never_throws_ret {A : Type} (a : A) : never_throws (ret a).
Proof. intros w. exists a, w. reflexivity. Qed.

Lemma never_throws_bind {A B : Type} (m : M A) (k : A -> M B) :
  never_throws m -> (forall a : A, never_throws (k a)) -> never_throws (bind m k).
Proof.
  intros Hm Hk w. destruct (Hm w) as (a & w' & E).
  destruct (Hk a w') as (b & w'' & E').
  exists b, w''. rewrite -> (bind_ok _ _ _ _ _ E). exact E'.
Qed.

Lemma never_throws_try_catch {A : Type} (body : M A) (handler : Error -> M A) :
  (forall e : Error, never_throws (handler e)) -> never_throws (try_catch body handler).
Proof.
  intros Hh w. unfold try_catch.
  destruct (body w) as [[a|e] w'].
  - exists a, w'. reflexivity.
  - apply Hh.
Qed.

Lemma never_throws_Date_now : never_throws Date_now.
Proof. intros w. exists (now w), w. reflexivity. Qed.

Lemma generateFallbackAlerts_never_throws (city : string) :
  never_throws (generateFallbackAlerts city).
Proof.
  unfold generateFallbackAlerts. apply never_throws_bind.
  - apply never_throws_Date_now.
  - intros now. apply never_throws_ret.
Qed.

Section FetchersTotal.
Variable network : nat -> Url -> Exchange.
Variable keys : APIKeys.

Lemma fetchClimateData_never_throws (city : string) :
  never_throws (fetchClimateData network keys city).
Proof.
  unfold fetchClimateData. apply never_throws_try_catch. intros e.
  apply never_throws_bind; [apply never_throws_Date_now|].
  intros now. apply never_throws_ret.
Qed.

Lemma fetchDeathRateData_never_throws (city : string) (age : Q) :
  never_throws (fetchDeathRateData network city age).
Proof.
  unfold fetchDeathRateData. apply never_throws_try_catch. intros e.
  apply never_throws_ret.
Qed.

Lemma fetchOccupationDeathRate_never_throws (occupation : string) :
  never_throws (fetchOccupationDeathRate occupation).
Proof.
  unfold fetchOccupationDeathRate. apply never_throws_try_catch. intros e.
  apply never_throws_ret.
Qed.

Lemma fetchCrimeData_never_throws (city : string) : never_throws (fetchCrimeData city).
Proof.
  unfold fetchCrimeData. apply never_throws_try_catch. intros e.
  apply never_throws_ret.
Qed.

Lemma fetchHealthAlerts_never_throws (city : string) :
  never_throws (fetchHealthAlerts network keys city).
Proof.
  unfold fetchHealthAlerts. apply never_throws_try_catch. intros e.
  apply generateFallbackAlerts_never_throws.
Qed.

(** The aggregate returns, and its quality record is [qualityOf] of the
    four results it grades. *)
Lemma fetchAllRealTimeData_run (city occupation : string) (age : Q) (w : World) :
  exists (r : RealTimeData) (w' : World),
    fetchAllRealTimeData network keys city occupation age w = (Ok r, w')
    /\ dataQuality r
       = qualityOf (rt_climate r) (rt_deathRate r) (rt_occupationDeathRate r) (rt_crime r).
Proof.
  unfold fetchAllRealTimeData.
  destruct (fetchClimateData_never_throws city w) as (climate & w1 & E1).
  destruct (fetchDeathRateData_never_throws city age w1) as (deathRate & w2 & E2).
  destruct (fetchOccupationDeathRate_never_throws occupation w2) as (occ & w3 & E3).
  destruct (fetchCrimeData_never_throws city w3) as (crime & w4 & E4).
  destruct (fetchHealthAlerts_never_throws city w4) as (alerts & w5 & E5).
  rewrite -> (bind_ok _ _ _ _ _ E1), (bind_ok _ _ _ _ _ E2), (bind_ok _ _ _ _ _ E3),
    (bind_ok _ _ _ _ _ E4), (bind_ok _ _ _ _ _ E5).
  eexists _, w5. split; reflexivity.
Qed.

End FetchersTotal.

(** The grading of the four flags, case by case. *)
Lemma qualityOf_graded (climate : ClimateData) (deathRate : DeathRateData)
    (occupationDeathRate : OccupationDeathRateData) (crime : CrimeData) :
  let flags := realTimeFlags climate deathRate occupationDeathRate in
  let quality := qualityOf climate deathRate occupationDeathRate crime in
  List.length flags = 4%nat
  /\ overall quality = gradeOfPercentage (percentageTrue flags)
  /\ (overall quality = excellent <-> (3 <= countTrue flags)%nat)
  /\ (overall quality = good <-> countTrue flags = 2%nat)
  /\ (overall quality = fair <-> countTrue flags = 1%nat)
  /\ (overall quality = poor <-> countTrue flags = 0%nat)
  /\ realTimeDataPercentage quality == percentageTrue flags.
Proof.
  unfold qualityOf, realTimeFlags.
  generalize (includes (fst (cl_sources climate)) "Real-time")
             (includes (snd (cl_sources climate)) "Real-time")
             (String.eqb (dr_confidence deathRate) "high")
             (String.eqb (od_confidence occupationDeathRate) "high").
  intros b1 b2 b3 b4.
  destruct b1, b2, b3, b4; vm_compute;
    repeat split; intros; try discriminate; try reflexivity; try lia.
Qed.

Import SampleEnvironments.

(** C8, as amended. The aggregate always returns, and its grade is the
    grade of the share of four flags that are on: the weather label and the
    AQI label of the climate result contain "Real-time", the death-rate
    result and the occupation result have confidence "high". Three or four
    flags give excellent, two good, one fair, none poor. The crime and
    health-alert results have no flag. The source count is the number of
    distinct labels among the weather, AQI, death-rate, occupation and crime
    labels. *)
Theorem data_quality_from_real_time_flags
    (network : nat -> Url -> Exchange) (keys : APIKeys)
    (city occupation : string) (age : Q) (w : World) :
  exists (r : RealTimeData) (w' : World),
    fetchAllRealTimeData network keys city occupation age w = (Ok r, w')
    /\ let flags :=
         realTimeFlags (rt_climate r) (rt_deathRate r) (rt_occupationDeathRate r) in
       let quality := dataQuality r in
       flags = [ includes (fst (cl_sources (rt_climate r))) "Real-time";
                 includes (snd (cl_sources (rt_climate r))) "Real-time";
                 String.eqb (dr_confidence (rt_deathRate r)) "high";
                 String.eqb (od_confidence (rt_occupationDeathRate r)) "high" ]
       /\ overall quality = gradeOfPercentage (percentageTrue flags)
       /\ (overall quality = excellent <-> (3 <= countTrue flags)%nat)
       /\ (overall quality = good <-> countTrue flags = 2%nat)
       /\ (overall quality = fair <-> countTrue flags = 1%nat)
       /\ (overall quality = poor <-> countTrue flags = 0%nat)
       /\ realTimeDataPercentage quality == percentageTrue flags
       /\ sources quality
          = distinct [ fst (cl_sources (rt_climate r)); snd (cl_sources (rt_climate r));
                       dr_source (rt_deathRate r);
                       od_source (rt_occupationDeathRate r);
                       cr_source (rt_crime r) ].
Proof.
  destruct (fetchAllRealTimeData_run network keys city occupation age w)
    as (r & w' & Hrun & Hq).
  exists r, w'. split; [exact Hrun|]. cbv zeta. rewrite -> Hq.
  destruct (qualityOf_graded (rt_climate r) (rt_deathRate r)
              (rt_occupationDeathRate r) (rt_crime r))
    as (_ & Hgrade & Hex & Hgood & Hfair & Hpoor & Hpct).
  repeat split; try assumption; try apply Hex; try apply Hgood; try apply Hfair;
    try apply Hpoor.
Qed.

(** The claim as first stated fails. With the weather source down and every
    other fetcher live, four of the five fetchers, and three of the four
    whose labels are looked at, returned live data, which the stated bands
    grade excellent; the aggregate reports good. With the World Bank down and
    the climate fetcher fully live, two of the three flagged fetchers
    returned live data, which the stated bands grade good; the aggregate
    reports excellent. *)
Lemma data_quality_is_not_the_share_of_live_fetchers :
  match fst (fetchAllRealTimeData climateDown newsKey "Delhi" "Factory Worker" 65
               freshWorld),
        fst (fetchAllRealTimeData worldBankDown aqiKey "Delhi" "Factory Worker" 65
               freshWorld) with
  | Ok r1, Ok r2 =>
      fetchersLive r1 = [false; true; true; true; true]
      /\ gradeOfPercentage (percentageTrue (fetchersLive r1)) = excellent
      /\ gradeOfPercentage (percentageTrue (labelledFetchersLive r1)) = excellent
      /\ overall (dataQuality r1) = good
      /\ flaggedFetchersLive r2 = [true; false; true]
      /\ gradeOfPercentage (percentageTrue (flaggedFetchersLive r2)) = good
      /\ overall (dataQuality r2) = excellent
  | _, _ => False
  end.
Proof. vm_compute. repeat split. Qed.

(** ** When every external source fails *)

Import DataCollector.

Section AllSourcesFail.
Variable network : nat -> Url -> Exchange.
Variable keys : APIKeys.
Hypothesis all_fail : every_request_fails network.

Lemma fetchWithRetry_throws (url : Url) (config : APIConfig) (apiName : string) (w : World) :
  exists (e : Error) (w' : World),
    fetchWithRetry network url config apiName w = (Throw e, w')
    /\ cache w' = cache w.
Proof.
  unfold fetchWithRetry.
  destruct (retryLoop_run network url config apiName (S (retryAttempts config))
              0 Undefined w ltac:(lia) ltac:(lia))
    as (attempts & _ & Hrange & _ & Hcache & Hall).
  destruct (retryLoop network (S (retryAttempts config)) 0 Undefined url config apiName w)
    as [result w'] eqn:Hrun.
  cbn [fst snd] in *.
  destruct attempts as [|last]; [lia|].
  specialize (Hall last ltac:(lia)).
  destruct (all_fail (requests w + last)%nat url apiName) as (e & He).
  rewrite -> He in Hall.
  destruct (terminal e).
  - destruct Hall as [_ ->]. eauto.
  - destruct (0 + last <? retryAttempts config)%nat; [lia|].
    destruct Hall as [_ ->]. eauto.
Qed.

Lemma climateProducer_throws (city : string) (w : World) :
  exists (e : Error) (w' : World),
    climateProducer network keys city w = (Throw e, w') /\ cache w' = cache w.
Proof.
  unfold climateProducer.
  destruct (CITY_COORDINATES city) as [coords|].
  - destruct (fetchWithRetry_throws (UrlOpenMeteo (fst coords) (snd coords))
                openMeteo "Open-Meteo" w) as (e & w' & E & Hc).
    exists e, w'. rewrite -> (bind_throw _ _ _ _ _ E). auto.
  - eexists _, w. split; reflexivity.
Qed.

Lemma deathRateProducer_throws (city : string) (age : Q) (w : World) :
  exists (e : Error) (w' : World),
    deathRateProducer network city age w = (Throw e, w') /\ cache w' = cache w.
Proof.
  unfold deathRateProducer.
  destruct (fetchWithRetry_throws UrlWorldBank worldBank "WorldBank" w)
    as (e & w' & E & Hc).
  exists e, w'. rewrite -> (bind_throw _ _ _ _ _ E). auto.
Qed.

Lemma healthAlertsProducer_throws (city : string) (w : World) :
  exists (e : Error) (w' : World),
    healthAlertsProducer network keys city w = (Throw e, w') /\ cache w' = cache w.
Proof.
  unfold healthAlertsProducer.
  destruct (fetchWithRetry_throws
              (UrlNewsApi ("health OR disease OR outbreak AND " ++ city)%string
                 (key_newsApi keys)) newsApi "NewsAPI" w) as (e & w' & E & Hc).
  exists e, w'. rewrite -> (bind_throw _ _ _ _ _ E). auto.
Qed.

End AllSourcesFail.

(** A miss whose producer rejects stores nothing; a miss whose producer
    resolves stores the value. *)
Lemma withCache_miss_throw (key : string) (ttl : Z) (fetchFn : M CacheValue)
    (w w' : World) (e : Error) :
  cache w !! key = None -> fetchFn w = (Throw e, w') ->
  withCache key ttl fetchFn w = (Throw e, w').
Proof.
  intros Hmiss Hf. unfold withCache, bind. rewrite -> (get_run key w), Hmiss, Hf.
  reflexivity.
Qed.

Lemma withCache_miss_ok (key : string) (ttl : Z) (fetchFn : M CacheValue)
    (w w' : World) (v : CacheValue) :
  cache w !! key = None -> fetchFn w = (Ok v, w') ->
  withCache key ttl fetchFn w
  = (Ok v, {| cache := <[key := {| data := v; timestamp := now w'; ttl := ttl |}]> (cache w');
              now := now w'; requests := requests w'; events := events w' |}).
Proof.
  intros Hmiss Hf. unfold withCache, bind. rewrite -> (get_run key w), Hmiss, Hf.
  reflexivity.
Qed.

Lemma try_catch_throw {A : Type} (body : M A) (handler : Error -> M A)
    (w w' : World) (e : Error) :
  body w = (Throw e, w') -> try_catch body handler w = handler e w'.
Proof. intros H. unfold try_catch. rewrite -> H. reflexivity. Qed.

Lemma try_catch_ok {A : Type} (body : M A) (handler : Error -> M A)
    (w w' : World) (a : A) :
  body w = (Ok a, w') -> try_catch body handler w = (Ok a, w').
Proof. intros H. unfold try_catch. rewrite -> H. reflexivity. Qed.

(** The cache keys of the fetchers. *)
Lemma climateKey (city : string) :
  generateCacheKey "climate" [("city"%string, city)] = ("climate:city:" ++ city)%string.
Proof. reflexivity. Qed.

Lemma occupationKey (occupation : string) :
  generateCacheKey "occupationDeathRate" [("occupation"%string, occupation)]
  = ("occupationDeathRate:occupation:" ++ occupation)%string.
Proof. reflexivity. Qed.

Lemma crimeKey (city : string) :
  generateCacheKey "crimeData" [("city"%string, city)] = ("crimeData:city:" ++ city)%string.
Proof. reflexivity. Qed.

Lemma healthAlertsKey (city : string) :
  generateCacheKey "healthAlerts" [("city"%string, city)]
  = ("healthAlerts:city:" ++ city)%string.
Proof. reflexivity. Qed.

(** The parameters are sorted by name, so [age] comes before [city]. *)
Lemma deathRateKey (city : string) (age : Q) :
  generateCacheKey "deathRate" [("city"%string, city); ("age"%string, String_of_number age)]
  = ("deathRate:" ++ ("age:" ++ String_of_number age) ++ "|" ++ ("city:" ++ city))%string.
Proof. reflexivity. Qed.

Section AllSourcesFailFetchers.
Variable network : nat -> Url -> Exchange.
Variable keys : APIKeys.
Hypothesis all_fail : every_request_fails network.

Lemma fetchClimateData_fallback (city : string) (w : World) :
  cache w !! generateCacheKey "climate" [("city"%string, city)] = None ->
  exists w' : World,
    fetchClimateData network keys city w = (Ok (climateFallback city (now w')), w')
    /\ cache w' = cache w.
Proof.
  intros Hmiss. unfold fetchClimateData.
  destruct (climateProducer_throws network keys all_fail city w) as (e & w' & E & Hc).
  exists w'. split; [|exact Hc].
  erewrite try_catch_throw; [reflexivity|].
  apply bind_throw. apply withCache_miss_throw; [exact Hmiss|].
  apply bind_throw. exact E.
Qed.

Lemma fetchDeathRateData_fallback (city : string) (age : Q) (w : World) :
  cache w !! generateCacheKey "deathRate"
               [("city"%string, city); ("age"%string, String_of_number age)] = None ->
  exists w' : World,
    RealTimeDataFetcher.fetchDeathRateData network city age w
    = (Ok (deathRateFallback city age), w')
    /\ cache w' = cache w.
Proof.
  intros Hmiss. unfold RealTimeDataFetcher.fetchDeathRateData.
  destruct (deathRateProducer_throws network all_fail city age w) as (e & w' & E & Hc).
  exists w'. split; [|exact Hc].
  erewrite try_catch_throw; [reflexivity|].
  apply bind_throw. apply withCache_miss_throw; [exact Hmiss|].
  apply bind_throw. exact E.
Qed.

Lemma fetchHealthAlerts_fallback (city : string) (w : World) :
  cache w !! generateCacheKey "healthAlerts" [("city"%string, city)] = None ->
  exists w' : World,
    fst (fetchHealthAlerts network keys city w) = fst (generateFallbackAlerts city w')
    /\ snd (fetchHealthAlerts network keys city w) = w'
    /\ cache w' = cache w.
Proof.
  intros Hmiss. unfold fetchHealthAlerts.
  destruct (isAPIKeyConfigured (key_newsApi keys)); cbn [negb].
  - destruct (healthAlertsProducer_throws network keys all_fail city w)
      as (e & w' & E & Hc).
    exists w'. erewrite try_catch_throw.
    + split; [reflexivity|]. split; [|exact Hc].
      destruct (generateFallbackAlerts_never_throws city w') as (a & w'' & G).
      unfold generateFallbackAlerts, bind, Date_now, ret. reflexivity.
    + apply bind_throw. apply withCache_miss_throw; [exact Hmiss|].
      apply bind_throw. exact E.
  - exists w. split; [|split]; [| |reflexivity].
    + unfold try_catch, generateFallbackAlerts, bind, Date_now, ret. reflexivity.
    + unfold try_catch, generateFallbackAlerts, bind, Date_now, ret. reflexivity.
Qed.

End AllSourcesFailFetchers.

(** The two static fetchers on a miss: the table entry, stored. *)
Lemma fetchOccupationDeathRate_miss (occupation : string) (w : World) :
  cache w !! generateCacheKey "occupationDeathRate" [("occupation"%string, occupation)]
  = None ->
  exists r : OccupationDeathRateData,
    fst (occupationProducer occupation w) = Ok r
    /\ fetchOccupationDeathRate occupation w
       = (Ok r,
          {| cache := <[generateCacheKey "occupationDeathRate"
                          [("occupation"%string, occupation)]
                        := {| data := VOccupationDeathRate r; timestamp := now w;
                              ttl := 86400 |}]> (cache w);
             now := now w; requests := requests w; events := events w |}).
Proof.
  intros Hmiss.
  assert (Hp : exists r, occupationProducer occupation w = (Ok r, w))
    by (eexists; reflexivity).
  destruct Hp as (r & Hp). exists r. split; [rewrite -> Hp; reflexivity|].
  unfold fetchOccupationDeathRate. apply try_catch_ok.
  assert (Hf : (r <- occupationProducer occupation ;; ret (VOccupationDeathRate r))%js w
               = (Ok (VOccupationDeathRate r), w))
    by (rewrite -> (bind_ok _ _ _ _ _ Hp); reflexivity).
  rewrite -> (bind_ok _ _ _ _ _
                (withCache_miss_ok _ 86400 _ w w (VOccupationDeathRate r) Hmiss Hf)).
  reflexivity.
Qed.

Lemma fetchCrimeData_miss (city : string) (w : World) :
  cache w !! generateCacheKey "crimeData" [("city"%string, city)] = None ->
  exists r : CrimeData,
    fst (crimeProducer city w) = Ok r
    /\ fetchCrimeData city w
       = (Ok r,
          {| cache := <[generateCacheKey "crimeData" [("city"%string, city)]
                        := {| data := VCrime r; timestamp := now w; ttl := 86400 |}]>
                        (cache w);
             now := now w; requests := requests w; events := events w |}).
Proof.
  intros Hmiss.
  assert (Hp : exists r, crimeProducer city w = (Ok r, w)).
  { unfold crimeProducer. destruct (crimeRates city) as [[[rate violent] property] safety].
    eexists. reflexivity. }
  destruct Hp as (r & Hp). exists r. split; [rewrite -> Hp; reflexivity|].
  unfold fetchCrimeData. apply try_catch_ok.
  assert (Hf : (r <- crimeProducer city ;; ret (VCrime r))%js w = (Ok (VCrime r), w))
    by (rewrite -> (bind_ok _ _ _ _ _ Hp); reflexivity).
  rewrite -> (bind_ok _ _ _ _ _ (withCache_miss_ok _ 86400 _ w w (VCrime r) Hmiss Hf)).
  reflexivity.
Qed.

Lemma occupationKey_ne_crimeKey (occupation city : string) :
  generateCacheKey "occupationDeathRate" [("occupation"%string, occupation)]
  <> generateCacheKey "crimeData" [("city"%string, city)].
Proof. rewrite -> occupationKey, crimeKey. cbn [append]. discriminate. Qed.

Lemma occupationKey_ne_healthAlertsKey (occupation city : string) :
  generateCacheKey "occupationDeathRate" [("occupation"%string, occupation)]
  <> generateCacheKey "healthAlerts" [("city"%string, city)].
Proof. rewrite -> occupationKey, healthAlertsKey. cbn [append]. discriminate. Qed.

Lemma crimeKey_ne_healthAlertsKey (city city' : string) :
  generateCacheKey "crimeData" [("city"%string, city)]
  <> generateCacheKey "healthAlerts" [("city"%string, city')].
Proof. rewrite -> crimeKey, healthAlertsKey. cbn [append]. discriminate. Qed.

(** The aggregate when every source fails and the cache is empty: the
    climate and death-rate results are the fallbacks, the two static tables
    still answer, the alerts are the generated advisory. *)
Lemma fetchAllRealTimeData_all_fail
    (network : nat -> Url -> Exchange) (keys : APIKeys)
    (city occupation : string) (age : Q) (w : World) :
  every_request_fails network -> cache w = ∅ ->
  exists (r : RealTimeData) (w' : World) (t1 t2 : Z),
    fetchAllRealTimeData network keys city occupation age w = (Ok r, w')
    /\ rt_climate r = climateFallback city t1
    /\ rt_deathRate r = deathRateFallback city age
    /\ fst (occupationProducer occupation w) = Ok (rt_occupationDeathRate r)
    /\ fst (crimeProducer city w) = Ok (rt_crime r)
    /\ fst (generateFallbackAlerts city
              {| cache := ∅; now := t2; requests := 0; events := [] |})
       = Ok (rt_healthAlerts r)
    /\ dataQuality r
       = qualityOf (rt_climate r) (rt_deathRate r) (rt_occupationDeathRate r) (rt_crime r).
Proof.
  intros Hfail Hempty. unfold fetchAllRealTimeData.
  destruct (fetchClimateData_fallback network keys Hfail city w) as (w1 & E1 & C1);
    [rewrite -> Hempty; apply lookup_empty|].
  destruct (fetchDeathRateData_fallback network Hfail city age w1) as (w2 & E2 & C2);
    [rewrite -> C1, Hempty; apply lookup_empty|].
  destruct (fetchOccupationDeathRate_miss occupation w2) as (occ & Hocc & E3);
    [rewrite -> C2, C1, Hempty; apply lookup_empty|].
  match type of E3 with _ = (_, ?w) => set (w3 := w) in * end.
  destruct (fetchCrimeData_miss city w3) as (crime & Hcrime & E4).
  { subst w3. cbn [cache]. rewrite -> lookup_insert_ne
      by apply occupationKey_ne_crimeKey.
    rewrite -> C2, C1, Hempty. apply lookup_empty. }
  match type of E4 with _ = (_, ?w) => set (w4 := w) in * end.
  destruct (fetchHealthAlerts_fallback network keys Hfail city w4) as (w5 & F5 & S5 & C5).
  { subst w4 w3. cbn [cache].
    rewrite -> lookup_insert_ne by apply crimeKey_ne_healthAlertsKey.
    rewrite -> lookup_insert_ne by apply occupationKey_ne_healthAlertsKey.
    rewrite -> C2, C1, Hempty. apply lookup_empty. }
  destruct (fetchHealthAlerts network keys city w4) as [alerts w5'] eqn:E5.
  cbn [fst snd] in F5, S5. subst w5'.
  unfold generateFallbackAlerts, bind, Date_now, ret in F5. cbn [fst] in F5. subst alerts.
  rewrite -> (bind_ok _ _ _ _ _ E1), (bind_ok _ _ _ _ _ E2), (bind_ok _ _ _ _ _ E3),
    (bind_ok _ _ _ _ _ E4), (bind_ok _ _ _ _ _ E5).
  eexists _, w5, (now w1), (now w5).
  split; [reflexivity|]. cbn [rt_climate rt_deathRate rt_occupationDeathRate rt_crime
                              rt_healthAlerts].
  split; [reflexivity|]. split; [reflexivity|].
  split; [exact Hocc|]. split; [|split; reflexivity].
  unfold crimeProducer in *.
  destruct (crimeRates city) as [[[rate violent] property] safety]. exact Hcrime.
Qed.

(** C2, as amended. When every external source fails and the cache is
    empty, the collector returns: the environmental part holds the climate
    fallback, the death rate is the national estimate, the occupation and
    crime figures come from the static tables, whose fetchers cannot fail,
    the alerts are the generated advisory, and the quality record is there.
    As the occupation fetcher still reports confidence "high", one flag of
    four is on and [overall] is fair. *)
Theorem all_sources_fail_still_returns
    (network : nat -> Url -> Exchange) (keys : APIKeys)
    (getCityStatistics : string -> CityStats)
    (getOccupationHazard : string -> OccupationHazard)
    (city occupation : string) (age : Q) (w : World) :
  every_request_fails network -> cache w = ∅ ->
  exists (r : CollectedData) (w' : World),
    collectAllData network keys getCityStatistics getOccupationHazard
      city occupation age w = (Ok r, w')
    /\ aqi (environmental r) = 150
    /\ temperature (environmental r) = 30
    /\ humidity (environmental r) = 65
    /\ climateRisk (environmental r) = "Moderate"%string
    /\ env_source (environmental r)
       = ("Fallback estimate"%string, "Fallback estimate"%string)
    /\ deathRate (statistical r) = 7.3
    /\ ageAdjustedDeathRate (statistical r)
       = Some (ageAdjustedRate (deathRateFallback city age))
    /\ occupationDeathRate (statistical r) = fst (occupationRates occupation)
    /\ cityHealthIndex (statistical r)
       = CityHealth.calculateCityHealthIndex 150 (stat_crimeRate (statistical r)) 30
    /\ cd_occupationHazard r = getOccupationHazard occupation
    /\ cd_cityStats r = getCityStatistics city
    /\ option_map (map ha_source) (healthAlerts r) = Some ["System Generated"%string]
    /\ cd_dataQuality r
       = Some {| overall := fair; sources := 4; realTimeDataPercentage := 25 |}.
Proof.
  intros Hfail Hempty.
  destruct (fetchAllRealTimeData_all_fail network keys city occupation age w Hfail Hempty)
    as (rt & w' & t1 & t2 & Hrun & Hclimate & Hdeath & Hocc & Hcrime & Halerts & Hq).
  unfold occupationProducer, ret in Hocc. cbn [fst] in Hocc. injection Hocc as Hocc.
  unfold crimeProducer in Hcrime.
  destruct (crimeRates city) as [[[rate violent] property] safety].
  unfold ret in Hcrime. cbn [fst] in Hcrime. injection Hcrime as Hcrime.
  unfold generateFallbackAlerts, bind, Date_now, ret in Halerts. cbn [fst now] in Halerts.
  injection Halerts as Halerts.
  eexists _, w'. split.
  { unfold collectAllData. apply try_catch_ok.
    rewrite -> (bind_ok _ _ _ _ _ Hrun). reflexivity. }
  cbn [environmental statistical cd_occupationHazard cd_cityStats healthAlerts
       cd_dataQuality aqi temperature humidity climateRisk env_source deathRate
       ageAdjustedDeathRate occupationDeathRate cityHealthIndex stat_crimeRate].
  rewrite -> Hq. rewrite <- Hocc, <- Hcrime, <- Halerts, Hclimate, Hdeath.
  repeat split.
Qed.

Lemma all_sources_fail_still_returns_witness :
  every_request_fails unreachable /\ cache freshWorld = ∅
  /\ exists (r : CollectedData) (w' : World),
       collectAllData unreachable noKeys sampleCityStatistics sampleOccupationHazard
         "Delhi" "Factory Worker" 65 freshWorld = (Ok r, w')
       /\ aqi (environmental r) = 150
       /\ temperature (environmental r) = 30
       /\ humidity (environmental r) = 65
       /\ climateRisk (environmental r) = "Moderate"%string
       /\ env_source (environmental r)
          = ("Fallback estimate"%string, "Fallback estimate"%string)
       /\ deathRate (statistical r) = 7.3
       /\ ageAdjustedDeathRate (statistical r)
          = Some (ageAdjustedRate (deathRateFallback "Delhi" 65))
       /\ occupationDeathRate (statistical r) = fst (occupationRates "Factory Worker")
       /\ cityHealthIndex (statistical r)
          = CityHealth.calculateCityHealthIndex 150 (stat_crimeRate (statistical r)) 30
       /\ cd_occupationHazard r = sampleOccupationHazard "Factory Worker"
       /\ cd_cityStats r = sampleCityStatistics "Delhi"
       /\ option_map (map ha_source) (healthAlerts r) = Some ["System Generated"%string]
       /\ cd_dataQuality r
          = Some {| overall := fair; sources := 4; realTimeDataPercentage := 25 |}.
Proof.
  split; [|split].
  - intros n url apiName. eexists. reflexivity.
  - reflexivity.
  - apply (all_sources_fail_still_returns unreachable noKeys sampleCityStatistics
             sampleOccupationHazard "Delhi" "Factory Worker" 65 freshWorld).
    + intros n url apiName. eexists. reflexivity.
    + reflexivity.
Defined.

(** The claim as first stated fails: with every request failing and an
    empty cache the collector returns, the climate and death-rate fetchers
    have taken their fallbacks, and [overall] is fair, not poor. *)
Lemma all_sources_fail_is_not_poor :
  every_request_fails unreachable
  /\ match collectAllData unreachable noKeys sampleCityStatistics sampleOccupationHazard
             "Delhi" "Factory Worker" 65 freshWorld with
     | (Ok r, w') =>
         option_map fetchersLive (realTimeData r)
         = Some [false; false; true; true; false]
         /\ option_map overall (cd_dataQuality r) = Some fair
         /\ option_map overall (cd_dataQuality r) <> Some poor
         /\ requests w' = 8%nat
     | (Throw _, _) => False
     end.
Proof.
  split.
  - intros n url apiName. eexists. reflexivity.
  - vm_compute. repeat split. discriminate.
Qed.

(** Where poor would come from: the four graded results all being the
    fallback records. The occupation fetcher reads a table and has no
    request to fail, so on an empty cache its result is never the fallback. *)
Lemma quality_of_fallbacks (city occupation : string) (age : Q) (t : Z) :
  overall (qualityOf (climateFallback city t) (deathRateFallback city age)
             (occupationFallback occupation) (crimeFallback city)) = poor.
Proof. reflexivity. Qed.

Lemma occupation_fetcher_is_live (occupation : string) (w : World) :
  cache w = ∅ ->
  exists (r : OccupationDeathRateData) (w' : World),
    fetchOccupationDeathRate occupation w = (Ok r, w')
    /\ od_confidence r = "high"%string
    /\ od_source r = "ILO/OSHA Statistics"%string.
Proof.
  intros Hempty.
  destruct (fetchOccupationDeathRate_miss occupation w) as (r & Hr & E);
    [rewrite -> Hempty; apply lookup_empty|].
  unfold occupationProducer, ret in Hr. cbn [fst] in Hr. injection Hr as <-.
  eexists _, _. split; [exact E|]. split; reflexivity.
Qed.

(** Whatever the network and the cache, the collector returns. *)
Lemma collectAllData_never_throws
    (network : nat -> Url -> Exchange) (keys : APIKeys)
    (getCityStatistics : string -> CityStats)
    (getOccupationHazard : string -> OccupationHazard)
    (city occupation : string) (age : Q) :
  never_throws (collectAllData network keys getCityStatistics getOccupationHazard
                  city occupation age).
Proof.
  intros w. unfold collectAllData.
  destruct (fetchAllRealTimeData_run network keys city occupation age w)
    as (rt & w' & Hrun & _).
  eexists _, w'. apply try_catch_ok.
  rewrite -> (bind_ok _ _ _ _ _ Hrun). reflexivity.
Qed.

(* ================================================================== *)
(** * Further properties of the services *)
(* ================================================================== *)

Import Notions.

(** ** The cache: round trip, isolation, sweep *)

Lemma set_run (key : string) (v : CacheValue) (ttl : Z) (w : World) :
  set key v ttl w
  = (Ok tt, {| cache := <[key := {| data := v; timestamp := now w; ttl := ttl |}]> (cache w);
               now := now w; requests := requests w; events := events w |}).
Proof. reflexivity. Qed.

(** X1. A value stored with [set] is what [get] returns for as long as no
    more than [ttl] seconds have passed; after that [get] returns null and
    removes the entry. *)
Theorem cache_set_then_get (key : string) (v : CacheValue) (ttl : Z) (w later : World) :
  cache later = cache (snd (set key v ttl w)) ->
  ((now later - now w <= ttl * 1000)%Z -> get key later = (Ok (Some v), later))
  /\ ((now later - now w > ttl * 1000)%Z ->
      fst (get key later) = Ok None
      /\ cache (snd (get key later)) = base.delete key (cache later)).
Proof.
  intros Hcache. rewrite -> set_run in Hcache. cbn [snd cache] in Hcache.
  assert (Hlook : cache later !! key
                  = Some {| data := v; timestamp := now w; ttl := ttl |})
    by (rewrite -> Hcache; apply lookup_insert_eq).
  rewrite -> (get_run key later), Hlook. unfold expired. cbn [timestamp Runtime.ttl data].
  split; intros Htime.
  - replace (now later - now w >? ttl * 1000)%Z with false; [reflexivity|].
    symmetry. rewrite -> Z.gtb_ltb. apply Z.ltb_ge. lia.
  - replace (now later - now w >? ttl * 1000)%Z with true.
    + cbn [fst snd]. split; [reflexivity|].
      unfold withLookup, afterLookup. cbn [cache]. rewrite -> Hlook.
      unfold expired. cbn [timestamp Runtime.ttl].
      replace (now later - now w >? ttl * 1000)%Z with true; [reflexivity|].
      symmetry. rewrite -> Z.gtb_ltb. apply Z.ltb_lt. lia.
    + symmetry. rewrite -> Z.gtb_ltb. apply Z.ltb_lt. lia.
Qed.

Lemma cache_set_then_get_witness :
  let later := {| cache := cache (snd (set "k" (VCrime staleCrime) 60 freshWorld));
                  now := now freshWorld + 1000; requests := 0; events := [] |} in
  cache later = cache (snd (set "k" (VCrime staleCrime) 60 freshWorld))
  /\ ((now later - now freshWorld <= 60 * 1000)%Z ->
      get "k" later = (Ok (Some (VCrime staleCrime)), later))
  /\ ((now later - now freshWorld > 60 * 1000)%Z ->
      fst (get "k" later) = Ok None
      /\ cache (snd (get "k" later)) = base.delete "k"%string (cache later)).
Proof.
  cbv zeta. split; [reflexivity|].
  apply (cache_set_then_get "k" (VCrime staleCrime) 60 freshWorld). reflexivity.
Defined.

(** What [get] answers depends on the entry under the key and the clock
    only. *)
Lemma get_answer (key : string) (w w' : World) :
  cache w !! key = cache w' !! key -> now w = now w' ->
  fst (get key w) = fst (get key w').
Proof.
  intros Hk Hn. rewrite -> !get_run, Hk, Hn.
  destruct (cache w' !! key) as [entry|]; [|reflexivity].
  destruct (expired (now w') entry); reflexivity.
Qed.

(** X2. [set], [delete] and a lookup of one key leave the answers for every
    other key as they were; after [delete] the key itself is absent. *)
Theorem cache_keys_are_independent
    (key other : string) (v : CacheValue) (ttl : Z) (w : World) :
  key <> other ->
  fst (get other (snd (set key v ttl w))) = fst (get other w)
  /\ fst (get other (snd (CacheService.delete key w))) = fst (get other w)
  /\ fst (get other (snd (get key w))) = fst (get other w)
  /\ fst (has key (snd (CacheService.delete key w))) = Ok false.
Proof.
  intros Hne.
  split; [|split; [|split]].
  - apply get_answer; [|reflexivity].
    rewrite -> set_run. cbn [snd cache]. apply lookup_insert_ne. exact Hne.
  - apply get_answer; [|reflexivity].
    unfold CacheService.delete, bind, getCache, putCache. cbn [snd cache].
    apply lookup_delete_ne. exact Hne.
  - apply get_answer.
    + rewrite -> afterLookup_get. unfold afterLookup.
      destruct (cache w !! key) as [entry|]; [|reflexivity].
      destruct (expired (now w) entry); [|reflexivity].
      apply lookup_delete_ne. exact Hne.
    + rewrite -> get_run. destruct (cache w !! key) as [entry|]; [|reflexivity].
      destruct (expired (now w) entry); reflexivity.
  - unfold has, bind. rewrite -> get_run.
    unfold CacheService.delete, bind, getCache, putCache. cbn [snd cache fst].
    rewrite -> lookup_delete_eq. reflexivity.
Qed.

Lemma cache_keys_are_independent_witness :
  "crimeData:city:Pune"%string <> "climate:city:Pune"%string
  /\ fst (get "climate:city:Pune"
            (snd (set "crimeData:city:Pune" (VCrime staleCrime) 60 staleWorld)))
     = fst (get "climate:city:Pune" staleWorld)
  /\ fst (get "climate:city:Pune"
            (snd (CacheService.delete "crimeData:city:Pune" staleWorld)))
     = fst (get "climate:city:Pune" staleWorld)
  /\ fst (get "climate:city:Pune" (snd (get "crimeData:city:Pune" staleWorld)))
     = fst (get "climate:city:Pune" staleWorld)
  /\ fst (has "crimeData:city:Pune"
            (snd (CacheService.delete "crimeData:city:Pune" staleWorld))) = Ok false.
Proof.
  split; [discriminate|].
  apply (cache_keys_are_independent "crimeData:city:Pune" "climate:city:Pune"
           (VCrime staleCrime) 60 staleWorld).
  discriminate.
Defined.

(** X3. The sweep removes exactly the expired entries, and no lookup can
    tell that it ran. *)
Theorem cleanup_removes_exactly_the_expired (w : World) :
  let swept := snd (cleanup w) in
  fst (cleanup w) = Ok tt
  /\ now swept = now w
  /\ (forall (key : string) (entry : CacheEntry),
        cache swept !! key = Some entry
        <-> cache w !! key = Some entry /\ expired (now w) entry = false)
  /\ (forall key : string, fst (get key swept) = fst (get key w)).
Proof.
  cbv zeta. unfold cleanup, bind, getCache, Date_now, putCache. cbn [fst snd cache now].
  split; [reflexivity|]. split; [reflexivity|].
  assert (Hfilter : forall key entry,
            filter (fun kv : string * CacheEntry => expired (now w) kv.2 = false) (cache w)
              !! key = Some entry
            <-> cache w !! key = Some entry /\ expired (now w) entry = false).
  { intros key entry. rewrite -> map_lookup_filter_Some. reflexivity. }
  split; [exact Hfilter|].
  intros key. rewrite -> !get_run. cbn [cache now].
  destruct (cache w !! key) as [entry|] eqn:E.
  - destruct (expired (now w) entry) eqn:X.
    + destruct (filter _ (cache w) !! key) as [entry'|] eqn:F; [|reflexivity].
      apply Hfilter in F. destruct F as [F1 F2].
      rewrite -> E in F1. injection F1 as <-. congruence.
    + assert (F : filter (fun kv : string * CacheEntry => expired (now w) kv.2 = false)
                    (cache w) !! key = Some entry) by (apply Hfilter; auto).
      rewrite -> F, X. reflexivity.
  - destruct (filter _ (cache w) !! key) as [entry'|] eqn:F; [|reflexivity].
    apply Hfilter in F. destruct F as [F1 _]. congruence.
Qed.

(** ** Cache keys do not depend on the order of the parameters *)

Lemma ascii_compare_refl (a : ascii) : Ascii.compare a a = Eq.
Proof. unfold Ascii.compare. apply N.compare_refl. Qed.

Lemma ascii_compare_lt_trans (a b c : ascii) :
  Ascii.compare a b = Lt -> Ascii.compare b c = Lt -> Ascii.compare a c = Lt.
Proof.
  unfold Ascii.compare. rewrite -> !N.compare_lt_iff. apply N.lt_trans.
Qed.

Lemma string_compare_lt_trans (s1 : string) :
  forall s2 s3 : string,
    String.compare s1 s2 = Lt -> String.compare s2 s3 = Lt -> String.compare s1 s3 = Lt.
Proof.
  induction s1 as [|a s1 IH]; intros [|b s2] [|c s3]; cbn; try discriminate; auto.
  destruct (Ascii.compare a b) eqn:Hab; try discriminate;
    destruct (Ascii.compare b c) eqn:Hbc; try discriminate; intros H1 H2.
  - apply Ascii.compare_eq_iff in Hab, Hbc. subst.
    rewrite -> ascii_compare_refl. eauto.
  - apply Ascii.compare_eq_iff in Hab. subst. rewrite -> Hbc. reflexivity.
  - apply Ascii.compare_eq_iff in Hbc. subst. rewrite -> Hab. reflexivity.
  - rewrite -> (ascii_compare_lt_trans a b c Hab Hbc). reflexivity.
Qed.

Lemma string_compare_refl (s : string) : String.compare s s = Eq.
Proof.
  induction s as [|a s IH]; cbn; [reflexivity|].
  rewrite -> ascii_compare_refl. exact IH.
Qed.

Lemma string_leb_trans (s1 s2 s3 : string) :
  String.leb s1 s2 = true -> String.leb s2 s3 = true -> String.leb s1 s3 = true.
Proof.
  unfold String.leb.
  destruct (String.compare s1 s2) eqn:H12; try discriminate;
    destruct (String.compare s2 s3) eqn:H23; try discriminate; intros _ _.
  - apply String.compare_eq_iff in H12, H23. subst.
    rewrite -> string_compare_refl. reflexivity.
  - apply String.compare_eq_iff in H12. subst. rewrite -> H23. reflexivity.
  - apply String.compare_eq_iff in H23. subst. rewrite -> H12. reflexivity.
  - rewrite -> (string_compare_lt_trans s1 s2 s3 H12 H23). reflexivity.
Qed.

Lemma insertKey_perm (k : string * string) (l : list (string * string)) :
  Permutation (k :: l) (insertKey k l).
Proof.
  induction l as [|k' l IH]; cbn; [reflexivity|].
  destruct (String.leb (fst k) (fst k')); [reflexivity|].
  rewrite -> perm_swap. now apply perm_skip.
Qed.

Lemma sortKeys_perm (l : list (string * string)) : Permutation l (sortKeys l).
Proof.
  induction l as [|k l IH]; cbn; [reflexivity|].
  rewrite <- insertKey_perm. now apply perm_skip.
Qed.

Lemma insertKey_sorted (k : string * string) (l : list (string * string)) :
  StronglySorted byName l -> StronglySorted byName (insertKey k l).
Proof.
  induction 1 as [|k' l Hs IH Hk']; cbn.
  - repeat constructor.
  - destruct (String.leb (fst k) (fst k')) eqn:E.
    + constructor; [constructor; assumption|].
      constructor; [exact E|].
      eapply List.Forall_impl; [|exact Hk'].
      intros q Hq. unfold byName in *. eapply string_leb_trans; eassumption.
    + constructor; [exact IH|].
      eapply Permutation_Forall; [apply insertKey_perm|].
      constructor; [|exact Hk'].
      unfold byName. destruct (String.leb_total (fst k) (fst k')); congruence.
Qed.

Lemma sortKeys_sorted (l : list (string * string)) : StronglySorted byName (sortKeys l).
Proof.
  induction l as [|k l IH]; cbn; [constructor|]. now apply insertKey_sorted.
Qed.

Lemma same_name_same_parameter (l : list (string * string)) (p q : string * string) :
  List.NoDup (map fst l) -> In p l -> In q l -> fst p = fst q -> p = q.
Proof.
  induction l as [|k l IH]; cbn; [contradiction|].
  intros Hnd Hp Hq Hname. apply List.NoDup_cons_iff in Hnd. destruct Hnd as [Hk Hnd].
  destruct Hp as [->|Hp], Hq as [->|Hq]; auto.
  - exfalso. apply Hk. rewrite -> Hname. apply in_map. exact Hq.
  - exfalso. apply Hk. rewrite <- Hname. apply in_map. exact Hp.
Qed.

(** A list sorted by name is determined by its elements, when no two of
    them share a name. *)
Lemma sorted_by_name_unique (l1 : list (string * string)) :
  forall l2 : list (string * string),
    (forall p q, In p l1 -> In q l2 -> byName p q -> byName q p -> p = q) ->
    StronglySorted byName l1 -> StronglySorted byName l2 ->
    Permutation l1 l2 -> l1 = l2.
Proof.
  induction l1 as [|x1 l1 IH]; intros l2 Hanti Hs1 Hs2 Hperm.
  - symmetry. apply Permutation_nil. exact Hperm.
  - destruct l2 as [|x2 l2].
    { symmetry in Hperm. apply Permutation_nil in Hperm. discriminate. }
    inversion Hs1 as [|? ? Hs1' Hall1]; subst.
    inversion Hs2 as [|? ? Hs2' Hall2]; subst.
    assert (Hx : x1 = x2).
    { assert (H2 : In x2 (x1 :: l1))
        by (eapply Permutation_in; [symmetry; exact Hperm|left; reflexivity]).
      assert (H1 : In x1 (x2 :: l2))
        by (eapply Permutation_in; [exact Hperm|left; reflexivity]).
      destruct H2 as [H2|H2]; [exact H2|].
      destruct H1 as [H1|H1]; [symmetry; exact H1|].
      apply Hanti; [left; reflexivity|left; reflexivity| |].
      - rewrite -> List.Forall_forall in Hall1. apply Hall1. exact H2.
      - rewrite -> List.Forall_forall in Hall2. apply Hall2. exact H1. }
    subst x2. f_equal. apply IH; auto.
    + intros p q Hp Hq. apply Hanti; right; assumption.
    + eapply Permutation_cons_inv. exact Hperm.
Qed.

(** X4. [generateCacheKey] gives the same key whatever the order in which
    the parameters are written, for parameters of different names (as the
    properties of an object are). *)
Theorem cache_key_ignores_parameter_order
    (prefix : string) (params params' : list (string * string)) :
  List.NoDup (map fst params) -> Permutation params params' ->
  generateCacheKey prefix params = generateCacheKey prefix params'.
Proof.
  intros Hnd Hperm. unfold generateCacheKey.
  assert (Hsame : sortKeys params = sortKeys params').
  { apply sorted_by_name_unique.
    - intros p q Hp Hq Hpq Hqp.
      apply (same_name_same_parameter params); auto.
      + eapply Permutation_in; [symmetry; apply sortKeys_perm|exact Hp].
      + eapply Permutation_in; [symmetry; exact Hperm|].
        eapply Permutation_in; [symmetry; apply sortKeys_perm|exact Hq].
      + apply String.leb_antisym; assumption.
    - apply sortKeys_sorted.
    - apply sortKeys_sorted.
    - rewrite <- !sortKeys_perm. exact Hperm. }
  rewrite -> Hsame. reflexivity.
Qed.

Lemma cache_key_ignores_parameter_order_witness :
  List.NoDup (map fst [("city", "Delhi"); ("age", "65")]%string)
  /\ Permutation [("city", "Delhi"); ("age", "65")]%string
       [("age", "65"); ("city", "Delhi")]%string
  /\ generateCacheKey "deathRate" [("city", "Delhi"); ("age", "65")]%string
     = generateCacheKey "deathRate" [("age", "65"); ("city", "Delhi")]%string.
Proof.
  assert (Hnd : List.NoDup (map fst [("city", "Delhi"); ("age", "65")]%string)).
  { cbn. constructor; [|constructor; [|constructor]]; cbn; intuition discriminate. }
  split; [exact Hnd|]. split; [apply perm_swap|].
  apply (cache_key_ignores_parameter_order "deathRate"
           [("city", "Delhi"); ("age", "65")]%string
           [("age", "65"); ("city", "Delhi")]%string Hnd).
  apply perm_swap.
Defined.

Example death_rate_key :
  generateCacheKey "deathRate" [("city", "Delhi"); ("age", String_of_number 65)]%string
  = "deathRate:age:65|city:Delhi"%string.
Proof. reflexivity. Qed.

(** ** Computations that leave the cache alone *)

Lemma bind_inv_ok {A B : Type} (m : M A) (k : A -> M B) (w w2 : World) (b : B) :
  bind m k w = (Ok b, w2) ->
  exists (a : A) (w1 : World), m w = (Ok a, w1) /\ k a w1 = (Ok b, w2).
Proof.
  unfold bind. destruct (m w) as [[a|e] w1]; [|discriminate].
  intros H. exists a, w1. auto.
Qed.

Lemma keeps_cache_ret {A : Type} (a : A) : keeps_cache (ret a).
Proof. intros w. reflexivity. Qed.

Lemma keeps_cache_throw {A : Type} (e : Error) : keeps_cache (@throw A e).
Proof. intros w. reflexivity. Qed.

Lemma keeps_cache_Date_now : keeps_cache Date_now.
Proof. intros w. reflexivity. Qed.

Lemma keeps_cache_bind {A B : Type} (m : M A) (k : A -> M B) :
  keeps_cache m -> (forall a : A, keeps_cache (k a)) -> keeps_cache (bind m k).
Proof.
  intros Hm Hk w. unfold bind. specialize (Hm w).
  destruct (m w) as [[a|e] w1]; cbn [snd] in *; [|exact Hm].
  rewrite -> (Hk a w1). exact Hm.
Qed.

Lemma keeps_cache_try_catch {A : Type} (body : M A) (handler : Error -> M A) :
  keeps_cache body -> (forall e : Error, keeps_cache (handler e)) ->
  keeps_cache (try_catch body handler).
Proof.
  intros Hb Hh w. unfold try_catch. specialize (Hb w).
  destruct (body w) as [[a|e] w1]; cbn [snd] in *; [exact Hb|].
  rewrite -> (Hh e w1). exact Hb.
Qed.

Lemma keeps_cache_typeError {A : Type} : keeps_cache (@typeError A).
Proof. intros w. reflexivity. Qed.

Lemma fetchWithRetry_keeps_cache
    (network : nat -> Url -> Exchange) (url : Url) (config : APIConfig) (apiName : string) :
  keeps_cache (fetchWithRetry network url config apiName).
Proof.
  intros w. unfold fetchWithRetry.
  destruct (retryLoop_run network url config apiName (S (retryAttempts config))
              0 Undefined w ltac:(lia) ltac:(lia))
    as (attempts & _ & _ & _ & Hcache & _).
  exact Hcache.
Qed.

Lemma generateFallbackAlerts_keeps_cache (city : string) :
  keeps_cache (generateFallbackAlerts city).
Proof.
  unfold generateFallbackAlerts. apply keeps_cache_bind.
  - apply keeps_cache_Date_now.
  - intros now. apply keeps_cache_ret.
Qed.

Section ProducersKeepCache.
Variable network : nat -> Url -> Exchange.
Variable keys : APIKeys.

Lemma aqiProbe_keeps_cache (city : string) : keeps_cache (aqiProbe network keys city).
Proof.
  unfold aqiProbe. destruct (isAPIKeyConfigured (key_aqicn keys));
    [|apply keeps_cache_ret].
  apply keeps_cache_try_catch; [|intros e; apply keeps_cache_ret].
  apply keeps_cache_bind; [apply fetchWithRetry_keeps_cache|].
  intros [ | status [aqi|] | | | | | ]; try apply keeps_cache_ret.
  destruct (String.eqb status "ok" && gtb aqi 0); apply keeps_cache_ret.
Qed.

Lemma weatherConditionProbe_keeps_cache (coords : Q * Q) :
  keeps_cache (weatherConditionProbe network keys coords).
Proof.
  unfold weatherConditionProbe. destruct (isAPIKeyConfigured (key_openWeatherMap keys));
    [|apply keeps_cache_ret].
  apply keeps_cache_try_catch; [|intros e; apply keeps_cache_ret].
  apply keeps_cache_bind; [apply fetchWithRetry_keeps_cache|].
  intros [ | | [|main rest] | | | | ];
    try apply keeps_cache_ret; apply keeps_cache_typeError.
Qed.

Lemma climateProducer_keeps_cache (city : string) :
  keeps_cache (climateProducer network keys city).
Proof.
  unfold climateProducer. destruct (CITY_COORDINATES city) as [coords|];
    [|apply keeps_cache_throw].
  apply keeps_cache_bind; [apply fetchWithRetry_keeps_cache|]. intros weatherData.
  apply keeps_cache_bind; [apply aqiProbe_keeps_cache|]. intros aqiResult.
  apply keeps_cache_bind; [apply weatherConditionProbe_keeps_cache|]. intros condition.
  destruct weatherData; try apply keeps_cache_typeError.
  apply keeps_cache_bind; [apply keeps_cache_Date_now|].
  intros now. apply keeps_cache_ret.
Qed.

Lemma deathRateProducer_keeps_cache (city : string) (age : Q) :
  keeps_cache (deathRateProducer network city age).
Proof.
  unfold deathRateProducer.
  apply keeps_cache_bind; [apply fetchWithRetry_keeps_cache|].
  intros response. apply keeps_cache_ret.
Qed.

Lemma healthAlertsProducer_keeps_cache (city : string) :
  keeps_cache (healthAlertsProducer network keys city).
Proof.
  unfold healthAlertsProducer.
  apply keeps_cache_bind; [apply fetchWithRetry_keeps_cache|].
  intros response. destruct response; try apply keeps_cache_typeError.
  destruct (0 <? _)%nat; [apply keeps_cache_ret|apply generateFallbackAlerts_keeps_cache].
Qed.

End ProducersKeepCache.

Lemma try_catch_inv_ok {A : Type} (body : M A) (handler : Error -> M A)
    (w w2 : World) (a : A) :
  try_catch body handler w = (Ok a, w2) ->
  body w = (Ok a, w2)
  \/ exists (e : Error) (w1 : World), body w = (Throw e, w1) /\ handler e w1 = (Ok a, w2).
Proof.
  unfold try_catch. destruct (body w) as [[a'|e] w1]; intros H.
  - left. exact H.
  - right. exists e, w1. auto.
Qed.

(** ** What the climate fetcher returns *)

Section ClimateResults.
Variable network : nat -> Url -> Exchange.
Variable keys : APIKeys.

(** The AQI the producer settles on is positive: a reading is taken only
    if it is, and the estimate is 150. *)
Lemma aqiProbe_result (city : string) (w w' : World) (aqi : Q) (label : string) :
  aqiProbe network keys city w = (Ok (aqi, label), w') ->
  0 < aqi
  /\ (label = "AQICN (Real-time)"%string
      \/ (label = "Estimated"%string /\ aqi = 150)).
Proof.
  assert (Hestimate : forall w0 : World,
            @ret (Q * string) (150, "Estimated"%string) w0 = (Ok (aqi, label), w') ->
            0 < aqi /\ (label = "AQICN (Real-time)"%string
                        \/ (label = "Estimated"%string /\ aqi = 150))).
  { intros w0 H. unfold ret in H. injection H as <- <- _. split; [reflexivity|auto]. }
  unfold aqiProbe. destruct (isAPIKeyConfigured (key_aqicn keys)); [|apply Hestimate].
  intros H. apply try_catch_inv_ok in H.
  destruct H as [H|(e & w1 & _ & H)]; [|apply (Hestimate w1 H)].
  apply bind_inv_ok in H. destruct H as (aqiData & w1 & _ & H).
  destruct aqiData as [ | status [reading|] | | | | | ]; try apply (Hestimate w1 H).
  destruct (String.eqb status "ok" && gtb reading 0) eqn:Hok; [|apply (Hestimate w1 H)].
  unfold ret in H. injection H as <- <- _.
  apply andb_true_iff in Hok. destruct Hok as [_ Hpos].
  destruct (gtb_spec reading 0); [|discriminate]. auto.
Qed.

Lemma climateProducer_result (city : string) (w w' : World) (r : ClimateData) :
  climateProducer network keys city w = (Ok r, w') ->
  fst (cl_sources r) = "Open-Meteo (Real-time)"%string
  /\ (snd (cl_sources r) = "AQICN (Real-time)"%string
      \/ (snd (cl_sources r) = "Estimated"%string /\ cl_aqi r = 150))
  /\ 0 < cl_aqi r
  /\ cl_climateRisk r = climateRiskOf (cl_aqi r)
  /\ cl_seasonalRisks r = seasonalRisksFor (cl_temperature r) (cl_aqi r) (cl_humidity r)
  /\ is_integer (cl_temperature r)
  /\ cl_city r = city.
Proof.
  unfold climateProducer. destruct (CITY_COORDINATES city) as [coords|]; [|discriminate].
  intros H.
  apply bind_inv_ok in H. destruct H as (weatherData & w1 & _ & H).
  apply bind_inv_ok in H. destruct H as ([aqi label] & w2 & Haqi & H).
  apply bind_inv_ok in H. destruct H as (condition & w3 & _ & H).
  destruct (aqiProbe_result city w1 w2 aqi label Haqi) as [Hpos Hlabel].
  destruct weatherData as [temperature_2m humidity| | | | | | ]; try discriminate.
  apply bind_inv_ok in H. destruct H as (now & w4 & _ & H).
  unfold ret in H. injection H as <- _. cbn.
  repeat split; auto. apply Math_round_integer.
Qed.


End ClimateResults.


Example delhi_climate_live :
  fst (fetchClimateData worldBankDown aqiKey "Delhi" freshWorld)
  = Ok {| cl_city := "Delhi"; cl_temperature := 31; cl_humidity := 55; cl_aqi := 180;
          cl_weatherCondition := "Clear"; cl_climateRisk := "High";
          cl_seasonalRisks := ["Poor air quality - respiratory risks"%string];
          cl_timestamp := 1700000000240;
          cl_sources := ("Open-Meteo (Real-time)"%string, "AQICN (Real-time)"%string) |}.
Proof. reflexivity. Qed.

(** ** Fallback records never reach the cache *)

Lemma keeps_cache_preserves (P : gmap string CacheEntry -> Prop) {A : Type} (m : M A) :
  keeps_cache m -> preserves P m.
Proof. intros Hk w HP. rewrite -> (Hk w). exact HP. Qed.

Lemma preserves_bind (P : gmap string CacheEntry -> Prop) {A B : Type}
    (m : M A) (k : A -> M B) :
  preserves P m -> (forall a : A, preserves P (k a)) -> preserves P (bind m k).
Proof.
  intros Hm Hk w HP. unfold bind. specialize (Hm w HP).
  destruct (m w) as [[a|e] w1]; cbn [snd] in *; [|exact Hm].
  apply (Hk a w1 Hm).
Qed.

Lemma preserves_try_catch (P : gmap string CacheEntry -> Prop) {A : Type}
    (body : M A) (handler : Error -> M A) :
  preserves P body -> (forall e : Error, preserves P (handler e)) ->
  preserves P (try_catch body handler).
Proof.
  intros Hb Hh w HP. unfold try_catch. specialize (Hb w HP).
  destruct (body w) as [[a|e] w1]; cbn [snd] in *; [exact Hb|].
  apply (Hh e w1 Hb).
Qed.

Lemma only_live_afterLookup (key : string) (w : World) :
  only_live (cache w) -> only_live (afterLookup key w).
Proof.
  intros Hlive. unfold afterLookup.
  destruct (cache w !! key) as [entry|]; [|exact Hlive].
  destruct (expired (now w) entry); [|exact Hlive].
  intros k e Hk. apply lookup_delete_Some in Hk. destruct Hk as [_ Hk].
  apply (Hlive k e Hk).
Qed.

Lemma withCache_preserves_only_live (key : string) (ttl : Z) (fetchFn : M CacheValue) :
  keeps_cache fetchFn ->
  (forall (w0 w1 : World) (v : CacheValue), fetchFn w0 = (Ok v, w1) -> liveValue v = true) ->
  preserves only_live (withCache key ttl fetchFn).
Proof.
  intros Hkeep Hval w Hlive.
  pose proof (withCache_run key ttl fetchFn w) as Hrun.
  pose proof (afterLookup_get key w) as Hafter.
  pose proof (only_live_afterLookup key w Hlive) as Hlive'.
  destruct (fst (get key w)) as [[cached|]|e0]; [| |contradiction].
  - rewrite -> Hrun. exact Hlive.
  - pose proof (Hkeep (snd (get key w))) as Hk.
    destruct (fetchFn (snd (get key w))) as [[v|e] w1] eqn:Hf;
      rewrite -> Hrun; cbn [snd cache] in *.
    + intros k entry Hlook. destruct (decide (key = k)) as [<-|Hne].
      * rewrite -> lookup_insert_eq in Hlook. injection Hlook as <-. cbn [data].
        apply (Hval _ _ _ Hf).
      * rewrite -> lookup_insert_ne in Hlook by exact Hne.
        rewrite -> Hk, Hafter in Hlook. apply (Hlive' k entry Hlook).
    + rewrite -> Hk, Hafter. exact Hlive'.
Qed.

Section OnlyLive.
Variable network : nat -> Url -> Exchange.
Variable keys : APIKeys.

Lemma fetchClimateData_preserves_only_live (city : string) :
  preserves only_live (fetchClimateData network keys city).
Proof.
  unfold fetchClimateData. apply preserves_try_catch.
  - apply preserves_bind.
    + apply withCache_preserves_only_live.
      * apply keeps_cache_bind; [apply climateProducer_keeps_cache|].
        intros r. apply keeps_cache_ret.
      * intros w0 w1 v H. apply bind_inv_ok in H. destruct H as (r & w2 & Hp & Hret).
        unfold ret in Hret. injection Hret as <- _.
        destruct (climateProducer_result network keys city _ _ r Hp) as (Hweather & _).
        cbn. unfold climateLive. rewrite -> Hweather. reflexivity.
    + intros [r| | | | ]; apply keeps_cache_preserves;
        try apply keeps_cache_typeError; apply keeps_cache_ret.
  - intros e. apply keeps_cache_preserves.
    apply keeps_cache_bind; [apply keeps_cache_Date_now|]. intros now. apply keeps_cache_ret.
Qed.

Lemma fetchDeathRateData_preserves_only_live (city : string) (age : Q) :
  preserves only_live (RealTimeDataFetcher.fetchDeathRateData network city age).
Proof.
  unfold RealTimeDataFetcher.fetchDeathRateData. apply preserves_try_catch.
  - apply preserves_bind.
    + apply withCache_preserves_only_live.
      * apply keeps_cache_bind; [apply deathRateProducer_keeps_cache|].
        intros r. apply keeps_cache_ret.
      * intros w0 w1 v H. apply bind_inv_ok in H. destruct H as (r & w2 & Hp & Hret).
        unfold ret in Hret. injection Hret as <- _.
        unfold deathRateProducer in Hp. apply bind_inv_ok in Hp.
        destruct Hp as (response & w3 & _ & Hp). unfold ret in Hp. injection Hp as <- _.
        reflexivity.
    + intros [ |r| | | ]; apply keeps_cache_preserves;
        try apply keeps_cache_typeError; apply keeps_cache_ret.
  - intros e. apply keeps_cache_preserves. apply keeps_cache_ret.
Qed.

Lemma fetchOccupationDeathRate_preserves_only_live (occupation : string) :
  preserves only_live (fetchOccupationDeathRate occupation).
Proof.
  unfold fetchOccupationDeathRate. apply preserves_try_catch.
  - apply preserves_bind.
    + apply withCache_preserves_only_live.
      * intros w. reflexivity.
      * intros w0 w1 v H. unfold bind, occupationProducer, ret in H.
        injection H as <- _. reflexivity.
    + intros [ | |r| | ]; apply keeps_cache_preserves;
        try apply keeps_cache_typeError; apply keeps_cache_ret.
  - intros e. apply keeps_cache_preserves. apply keeps_cache_ret.
Qed.

Lemma fetchCrimeData_preserves_only_live (city : string) :
  preserves only_live (fetchCrimeData city).
Proof.
  unfold fetchCrimeData. apply preserves_try_catch.
  - apply preserves_bind.
    + apply withCache_preserves_only_live.
      * intros w. unfold bind, crimeProducer.
        destruct (crimeRates city) as [[[rate violent] property] safety]. reflexivity.
      * intros w0 w1 v H. unfold bind, crimeProducer in H.
        destruct (crimeRates city) as [[[rate violent] property] safety].
        unfold ret in H. injection H as <- _. reflexivity.
    + intros [ | | |r| ]; apply keeps_cache_preserves;
        try apply keeps_cache_typeError; apply keeps_cache_ret.
  - intros e. apply keeps_cache_preserves. apply keeps_cache_ret.
Qed.

Lemma fetchHealthAlerts_preserves_only_live (city : string) :
  preserves only_live (fetchHealthAlerts network keys city).
Proof.
  unfold fetchHealthAlerts. apply preserves_try_catch.
  - destruct (negb (isAPIKeyConfigured (key_newsApi keys))).
    + apply keeps_cache_preserves. apply generateFallbackAlerts_keeps_cache.
    + apply preserves_bind.
      * apply withCache_preserves_only_live.
        -- apply keeps_cache_bind; [apply healthAlertsProducer_keeps_cache|].
           intros r. apply keeps_cache_ret.
        -- intros w0 w1 v H. apply bind_inv_ok in H. destruct H as (r & w2 & _ & Hret).
           unfold ret in Hret. injection Hret as <- _. reflexivity.
      * intros [ | | | |r]; apply keeps_cache_preserves;
          try apply keeps_cache_typeError; apply keeps_cache_ret.
  - intros e. apply keeps_cache_preserves. apply generateFallbackAlerts_keeps_cache.
Qed.

Lemma fetchAllRealTimeData_preserves_only_live (city occupation : string) (age : Q) :
  preserves only_live (fetchAllRealTimeData network keys city occupation age).
Proof.
  unfold fetchAllRealTimeData.
  apply preserves_bind; [apply fetchClimateData_preserves_only_live|]. intros climate.
  apply preserves_bind; [apply fetchDeathRateData_preserves_only_live|]. intros deathRate.
  apply preserves_bind; [apply fetchOccupationDeathRate_preserves_only_live|]. intros occ.
  apply preserves_bind; [apply fetchCrimeData_preserves_only_live|]. intros crime.
  apply preserves_bind; [apply fetchHealthAlerts_preserves_only_live|]. intros alerts.
  apply keeps_cache_preserves.
  apply keeps_cache_bind; [apply keeps_cache_Date_now|]. intros now. apply keeps_cache_ret.
Qed.

End OnlyLive.

Section CollectorCache.
Variable network : nat -> Url -> Exchange.
Variable keys : APIKeys.
Variable getCityStatistics : string -> CityStats.
Variable getOccupationHazard : string -> OccupationHazard.

Lemma axios_get_keeps_cache (url : Url) : keeps_cache (axios_get network url).
Proof.
  intros w. unfold axios_get.
  destruct (outcome (network (requests w) url)) as [response| |e]; try reflexivity.
  destruct (ok response); reflexivity.
Qed.

Lemma fetchEnvironmentalData_keeps_cache (city : string) :
  keeps_cache (fetchEnvironmentalData network city).
Proof.
  unfold fetchEnvironmentalData. apply keeps_cache_try_catch.
  - apply keeps_cache_bind; [apply axios_get_keeps_cache|].
    intros data. destruct data; try apply keeps_cache_typeError. apply keeps_cache_ret.
  - intros e. apply keeps_cache_bind; [apply keeps_cache_Date_now|].
    intros now. apply keeps_cache_ret.
Qed.

Lemma collectBasicData_keeps_cache (city occupation : string) (age : Q) :
  keeps_cache (collectBasicData network getCityStatistics getOccupationHazard
                 city occupation age).
Proof.
  unfold collectBasicData. apply keeps_cache_try_catch.
  - apply keeps_cache_bind; [apply fetchEnvironmentalData_keeps_cache|]. intros env.
    apply keeps_cache_bind; [apply keeps_cache_ret|]. intros rate. apply keeps_cache_ret.
  - intros e. apply keeps_cache_throw.
Qed.

(** X6. The collector never writes a fallback record of the climate,
    death-rate, occupation or crime fetcher into the cache: a cache that
    holds none before a collection holds none after it, whatever the
    network did. A failed source is therefore asked again on the next call. *)
Theorem fallbacks_are_never_cached (city occupation : string) (age : Q) (w : World) :
  only_live (cache w) ->
  only_live (cache (snd (fetchAllRealTimeData network keys city occupation age w)))
  /\ only_live (cache (snd (collectAllData network keys getCityStatistics
                              getOccupationHazard city occupation age w))).
Proof.
  intros Hlive. split.
  - apply fetchAllRealTimeData_preserves_only_live. exact Hlive.
  - revert w Hlive. change (preserves only_live
      (collectAllData network keys getCityStatistics getOccupationHazard
         city occupation age)).
    unfold collectAllData. apply preserves_try_catch.
    + apply preserves_bind; [apply fetchAllRealTimeData_preserves_only_live|].
      intros rt. apply keeps_cache_preserves. apply keeps_cache_ret.
    + intros e. apply keeps_cache_preserves. apply collectBasicData_keeps_cache.
Qed.

End CollectorCache.

Lemma fallbacks_are_never_cached_witness :
  only_live (cache freshWorld)
  /\ only_live (cache (snd (fetchAllRealTimeData climateDown newsKey
                              "Delhi" "Factory Worker" 65 freshWorld)))
  /\ only_live (cache (snd (collectAllData climateDown newsKey sampleCityStatistics
                              sampleOccupationHazard "Delhi" "Factory Worker" 65
                              freshWorld))).
Proof.
  assert (H : only_live (cache freshWorld)).
  { intros key entry Hlook. cbn in Hlook. rewrite -> lookup_empty in Hlook. discriminate. }
  split; [exact H|].
  apply (fallbacks_are_never_cached climateDown newsKey sampleCityStatistics
           sampleOccupationHazard "Delhi" "Factory Worker" 65 freshWorld H).
Defined.

Example cache_after_climate_failure :
  let c := cache (snd (fetchAllRealTimeData climateDown newsKey
                         "Delhi" "Factory Worker" 65 freshWorld)) in
  c !! "climate:city:Delhi"%string = None
  /\ (data <$> c !! "deathRate:age:65|city:Delhi"%string)
     = Some (VDeathRate
               {| dr_country := "India"; dr_city := "Delhi"; overallDeathRate := 7.2;
                  ageAdjustedRate := 18.0; dr_year := 2023;
                  dr_source := "World Bank API"; dr_confidence := "high" |})
  /\ size c = 4%nat.
Proof. vm_compute. repeat split. Qed.

(** ** A value fetched once is served from the cache *)

(** X7. After a call of [withCache] that missed and whose producer
    resolved, a further call for the same key within the TTL returns the
    same value, does not run its producer and changes nothing. *)
Theorem with_cache_repeat_is_a_hit
    (key : string) (ttl ttl' : Z) (fetchFn again : M CacheValue)
    (w w1 w2 : World) (d : CacheValue) :
  fst (get key w) = Ok None ->
  withCache key ttl fetchFn w = (Ok d, w1) ->
  cache w2 = cache w1 ->
  (now w2 - now w1 <= ttl * 1000)%Z ->
  withCache key ttl' again w2 = (Ok d, w2).
Proof.
  intros Hmiss Hfirst Hcache Htime.
  pose proof (withCache_run key ttl fetchFn w) as Hrun. rewrite -> Hmiss in Hrun.
  destruct (fetchFn (snd (get key w))) as [[d'|e] w'];
    rewrite -> Hrun in Hfirst; [|discriminate].
  injection Hfirst as <- <-. cbn [cache now] in *.
  pose proof (withCache_run key ttl' again w2) as Hrun2.
  rewrite -> (get_run key w2), Hcache, lookup_insert_eq in Hrun2.
  unfold expired in Hrun2. cbn [timestamp Runtime.ttl data fst] in Hrun2.
  replace (now w2 - now w' >? ttl * 1000)%Z with false in Hrun2; [exact Hrun2|].
  symmetry. rewrite -> Z.gtb_ltb. apply Z.ltb_ge. lia.
Qed.

Lemma with_cache_repeat_is_a_hit_witness :
  let producer := (r <- crimeProducer "Pune" ;; ret (VCrime r))%js in
  let first := withCache "crimeData:city:Pune" 86400 producer staleWorld in
  fst (get "crimeData:city:Pune" staleWorld) = Ok None
  /\ first = (Ok (VCrime staleCrime), snd first)
  /\ (now (snd first) - now (snd first) <= 86400 * 1000)%Z
  /\ withCache "crimeData:city:Pune" 3600 rejecting (snd first)
     = (Ok (VCrime staleCrime), snd first).
Proof.
  cbv zeta. split; [reflexivity|]. split; [reflexivity|]. split; [lia|].
  apply (with_cache_repeat_is_a_hit "crimeData:city:Pune" 86400 3600
           (r <- crimeProducer "Pune" ;; ret (VCrime r))%js rejecting staleWorld
           (snd (withCache "crimeData:city:Pune" 86400
                   (r <- crimeProducer "Pune" ;; ret (VCrime r))%js staleWorld))
           (snd (withCache "crimeData:city:Pune" 86400
                   (r <- crimeProducer "Pune" ;; ret (VCrime r))%js staleWorld))
           (VCrime staleCrime)).
  - reflexivity.
  - reflexivity.
  - reflexivity.
  - lia.
Defined.

(** ** Retry: total pause, first success, timeouts *)

Lemma totalPause_app (l1 l2 : list Event) :
  totalPause (l1 ++ l2) = (totalPause l1 + totalPause l2)%Z.
Proof.
  induction l1 as [|[url|ms] l1 IH]; cbn [app totalPause]; [reflexivity|exact IH|].
  rewrite -> IH. lia.
Qed.

Lemma totalPause_rev (l : list Event) : totalPause (rev l) = totalPause l.
Proof.
  induction l as [|[url|ms] l IH]; cbn [rev]; [reflexivity| |];
    rewrite -> totalPause_app, IH; cbn [totalPause]; lia.
Qed.

Lemma totalPause_scheduleFrom (url : Url) (retryDelay : Z) (attempts : nat) :
  forall attemptNo : nat,
    totalPause (scheduleFrom url retryDelay attemptNo (S attempts))
    = (retryDelay * 2 ^ Z.of_nat attemptNo * (2 ^ Z.of_nat attempts - 1))%Z.
Proof.
  induction attempts as [|attempts IH]; intros attemptNo.
  - cbn. lia.
  - change (scheduleFrom url retryDelay attemptNo (S (S attempts)))
      with (EvFetch url :: EvSleep (retryDelay * 2 ^ Z.of_nat attemptNo)
              :: scheduleFrom url retryDelay (S attemptNo) (S attempts)).
    cbn [totalPause]. rewrite -> IH.
    rewrite -> !Nat2Z.inj_succ, !Z.pow_succ_r by lia. ring.
Qed.

(** X8. The pauses of a call add up to [retryDelay * (2^(n-1) - 1)] when it
    makes [n] requests, so to at most [retryDelay * (2^retryAttempts - 1)]:
    7 seconds for the configured 3 retries of 1 second. *)
Theorem backoff_total_pause
    (network : nat -> Url -> Exchange) (url : Url) (config : APIConfig)
    (apiName : string) (w : World) :
  let run := fetchWithRetry network url config apiName w in
  let attempts := (requests (snd run) - requests w)%nat in
  totalPause (events (snd run))
  = (totalPause (events w)
     + retryDelay config * (2 ^ Z.of_nat (attempts - 1) - 1))%Z
  /\ ((0 <= retryDelay config)%Z ->
      (totalPause (events (snd run)) - totalPause (events w)
       <= retryDelay config * (2 ^ Z.of_nat (retryAttempts config) - 1))%Z).
Proof.
  cbv zeta. unfold fetchWithRetry.
  destruct (retryLoop_run network url config apiName (S (retryAttempts config))
              0 Undefined w ltac:(lia) ltac:(lia))
    as (attempts & Hreq & Hrange & Hev & _ & _).
  rewrite -> Hreq, Hev, totalPause_app, totalPause_rev.
  replace (requests w + attempts - requests w)%nat with attempts by lia.
  destruct attempts as [|n]; [lia|].
  rewrite -> totalPause_scheduleFrom. cbn [Nat.sub]. rewrite -> Nat.sub_0_r.
  change (2 ^ Z.of_nat 0)%Z with 1%Z.
  split; [lia|]. intros Hdelay.
  assert (Hpow : (2 ^ Z.of_nat n <= 2 ^ Z.of_nat (retryAttempts config))%Z)
    by (apply Z.pow_le_mono_r; lia).
  nia.
Qed.

Example open_meteo_gives_up_after_7_seconds :
  let run := fetchWithRetry unreachable (UrlOpenMeteo 28.7041 77.1025) openMeteo
               "Open-Meteo" freshWorld in
  totalPause (events (snd run)) = 7000%Z /\ requests (snd run) = 4%nat.
Proof. split; reflexivity. Qed.

(** X9. If attempt [j] is answered well, every earlier attempt failed with
    an error that is retried, and [j] is within the allowed retries, the call
    returns the data of attempt [j] after exactly [j + 1] requests. *)
Theorem first_success_is_returned
    (network : nat -> Url -> Exchange) (url : Url) (config : APIConfig)
    (apiName : string) (w : World) (j : nat) (data : Json) :
  (j <= retryAttempts config)%nat ->
  tryResult apiName (network (requests w + j)%nat url) = Ok data ->
  (forall i : nat, (i < j)%nat ->
     exists e : Error,
       tryResult apiName (network (requests w + i)%nat url) = Throw e
       /\ terminal e = false) ->
  fst (fetchWithRetry network url config apiName w) = Ok data
  /\ requests (snd (fetchWithRetry network url config apiName w))
     = (requests w + j + 1)%nat.
Proof.
  intros Hj Hok Hearlier. unfold fetchWithRetry.
  destruct (retryLoop_run network url config apiName (S (retryAttempts config))
              0 Undefined w ltac:(lia) ltac:(lia))
    as (attempts & Hreq & Hrange & _ & _ & Hall).
  assert (Hgt : (j < attempts)%nat).
  { destruct (Nat.lt_ge_cases j attempts) as [H|H]; [exact H|exfalso].
    destruct attempts as [|last]; [lia|].
    specialize (Hall last ltac:(lia)).
    destruct (Hearlier last ltac:(lia)) as (e & He & Hterm).
    rewrite -> He, Hterm in Hall. cbn [Nat.add] in Hall.
    replace (last <? retryAttempts config)%nat with true in Hall; [lia|].
    symmetry. apply Nat.ltb_lt. lia. }
  specialize (Hall j Hgt). rewrite -> Hok in Hall. destruct Hall as [Hlast Hres].
  split; [exact Hres|]. rewrite -> Hreq. lia.
Qed.

Lemma first_success_is_returned_witness :
  (2 <= retryAttempts worldBank)%nat
  /\ tryResult "WorldBank" (rateLimitedTwice (requests freshWorld + 2)%nat UrlWorldBank)
     = Ok (JWorldBank (Some [None; Some 7.2]))
  /\ fst (fetchWithRetry rateLimitedTwice UrlWorldBank worldBank "WorldBank" freshWorld)
     = Ok (JWorldBank (Some [None; Some 7.2]))
  /\ requests (snd (fetchWithRetry rateLimitedTwice UrlWorldBank worldBank "WorldBank"
                      freshWorld))
     = (requests freshWorld + 2 + 1)%nat.
Proof.
  split; [cbn; lia|]. split; [reflexivity|].
  apply (first_success_is_returned rateLimitedTwice UrlWorldBank worldBank "WorldBank"
           freshWorld 2 (JWorldBank (Some [None; Some 7.2]))).
  - cbn. lia.
  - reflexivity.
  - intros i Hi. destruct i as [|[|i]]; [| |lia]; eexists; split; reflexivity.
Defined.

(** X10. A request that runs into the timeout is not retried: the abort is
    rethrown with status 408, which the retry loop takes for a client error,
    so the call ends after that one request, without a pause, however many
    retries are configured. *)
Theorem timeout_is_not_retried
    (network : nat -> Url -> Exchange) (url : Url) (config : APIConfig)
    (apiName : string) (w : World) :
  outcome (network (requests w) url) = Aborted ->
  fetchWithRetry network url config apiName w
  = (Throw (APIError (MsgText "Request timeout") (Some 408%Z) "unknown"
              (JsError "AbortError" (MsgText "This operation was aborted"))),
     {| cache := cache w; now := (now w + timeout config)%Z;
        requests := S (requests w); events := EvFetch url :: events w |}).
Proof.
  intros Habort. unfold fetchWithRetry. cbn [retryLoop].
  unfold try_catch, attempt, bind, fetchWithTimeout. rewrite -> Habort. reflexivity.
Qed.

Lemma timeout_is_not_retried_witness :
  let network := fun (_ : nat) (_ : Url) => {| elapsed := 0; outcome := Aborted |} in
  outcome (network (requests freshWorld) UrlWorldBank) = Aborted
  /\ fetchWithRetry network UrlWorldBank worldBank "WorldBank" freshWorld
     = (Throw (APIError (MsgText "Request timeout") (Some 408%Z) "unknown"
                 (JsError "AbortError" (MsgText "This operation was aborted"))),
        {| cache := cache freshWorld; now := (now freshWorld + timeout worldBank)%Z;
           requests := S (requests freshWorld);
           events := EvFetch UrlWorldBank :: events freshWorld |}).
Proof.
  cbv zeta. split; [reflexivity|].
  apply (timeout_is_not_retried
           (fun (_ : nat) (_ : Url) => {| elapsed := 0; outcome := Aborted |})
           UrlWorldBank worldBank "WorldBank" freshWorld).
  reflexivity.
Defined.

(** ** Health alerts *)

Lemma determineSeverity_level (text : string) :
  In (determineSeverity text) ["critical"; "high"; "medium"; "low"]%string.
Proof.
  unfold determineSeverity.
  repeat match goal with |- context [if ?b then _ else _] => destruct b end;
    cbn; auto.
Qed.

Lemma generateFallbackAlerts_run (city : string) (w : World) :
  generateFallbackAlerts city w
  = (Ok [ {| ha_title := "General Health Advisory";
             ha_description :=
               "Maintain regular health check-ups and follow preventive measures";
             severity := "low"; ha_category := "General Health"; location := city;
             ha_date := inr (now w); ha_source := "System Generated";
             ha_url := None |} ], w).
Proof. reflexivity. Qed.

Section HealthAlerts.
Variable network : nat -> Url -> Exchange.
Variable keys : APIKeys.

Lemma fallback_alerts_for (city : string) (t : Z) :
  alerts_for city
    [ {| ha_title := "General Health Advisory";
         ha_description :=
           "Maintain regular health check-ups and follow preventive measures";
         severity := "low"; ha_category := "General Health"; location := city;
         ha_date := inr t; ha_source := "System Generated"; ha_url := None |} ].
Proof.
  unfold alerts_for. cbn [List.length].
  split; [lia|]. split.
  - constructor; [reflexivity|constructor].
  - constructor; [cbn; auto|constructor].
Qed.

Lemma healthAlertsProducer_result (city : string) (w w' : World) (alerts : list HealthAlert) :
  healthAlertsProducer network keys city w = (Ok alerts, w') -> alerts_for city alerts.
Proof.
  unfold healthAlertsProducer. intros H.
  apply bind_inv_ok in H. destruct H as (response & w1 & _ & H).
  destruct response as [ | | | |articles| | ]; try discriminate.
  destruct (0 <? List.length (map (alertOfArticle city) (firstn 3 articles)))%nat eqn:Hlen.
  - unfold ret in H. injection H as <- _.
    apply Nat.ltb_lt in Hlen. unfold alerts_for.
    split; [split; [lia|]|split].
    + rewrite -> length_map, length_firstn. lia.
    + apply List.Forall_forall. intros a Ha. apply in_map_iff in Ha.
      destruct Ha as (article & <- & _). reflexivity.
    + apply List.Forall_forall. intros a Ha. apply in_map_iff in Ha.
      destruct Ha as (article & <- & _). apply determineSeverity_level.
  - rewrite -> generateFallbackAlerts_run in H. injection H as <- _.
    apply fallback_alerts_for.
Qed.

(** X11. Unless a cached list is served, the alert fetcher returns,
    whatever the network does, between one and three alerts, all for the city
    asked and each with a severity among critical, high, medium and low: the
    generated advisory stands in when the news source is not configured,
    fails or has nothing. *)
Theorem health_alerts_are_one_to_three (city : string) (w : World) :
  fst (get (generateCacheKey "healthAlerts" [("city"%string, city)]) w) = Ok None ->
  exists (alerts : list HealthAlert) (w' : World),
    fetchHealthAlerts network keys city w = (Ok alerts, w')
    /\ (1 <= List.length alerts <= 3)%nat
    /\ List.Forall (fun a => location a = city) alerts
    /\ List.Forall
         (fun a => In (severity a) ["critical"; "high"; "medium"; "low"]%string) alerts.
Proof.
  intros Hmiss. unfold fetchHealthAlerts.
  destruct (isAPIKeyConfigured (key_newsApi keys)); cbn [negb].
  - set (key := generateCacheKey "healthAlerts" [("city"%string, city)]) in *.
    set (fetchFn := (r <- healthAlertsProducer network keys city ;;
                     ret (VHealthAlerts r))%js).
    pose proof (withCache_run key 7200 fetchFn w) as Hrun. rewrite -> Hmiss in Hrun.
    destruct (fetchFn (snd (get key w))) as [[v|e] w1] eqn:Hf.
    + subst fetchFn. apply bind_inv_ok in Hf. destruct Hf as (r & w0 & Hp & Hret).
      unfold ret in Hret. injection Hret as <- <-.
      eexists r, _. split.
      { apply try_catch_ok. rewrite -> (bind_ok _ _ _ _ _ Hrun). reflexivity. }
      apply (healthAlertsProducer_result city _ _ r Hp).
    + eexists _, w1. split.
      { rewrite -> (try_catch_throw _ _ _ _ _ (bind_throw _ _ _ _ _ Hrun)).
        apply generateFallbackAlerts_run. }
      apply fallback_alerts_for.
  - eexists _, w. split.
    { apply try_catch_ok. apply generateFallbackAlerts_run. }
    apply fallback_alerts_for.
Qed.

End HealthAlerts.

Lemma health_alerts_are_one_to_three_witness :
  fst (get (generateCacheKey "healthAlerts" [("city"%string, "Delhi"%string)]) freshWorld)
  = Ok None
  /\ exists (alerts : list HealthAlert) (w' : World),
       fetchHealthAlerts climateDown newsKey "Delhi" freshWorld = (Ok alerts, w')
       /\ (1 <= List.length alerts <= 3)%nat
       /\ List.Forall (fun a => location a = "Delhi"%string) alerts
       /\ List.Forall
            (fun a => In (severity a) ["critical"; "high"; "medium"; "low"]%string) alerts.
Proof.
  split; [reflexivity|].
  apply (health_alerts_are_one_to_three climateDown newsKey "Delhi" freshWorld).
  reflexivity.
Defined.

(** ** The quality record *)

Lemma nodup_length_le (l : list string) :
  (List.length (nodup string_dec l) <= List.length l)%nat.
Proof.
  induction l as [|x l IH]; cbn; [lia|].
  destruct (in_dec string_dec x l); cbn; lia.
Qed.

Lemma distinct_range (x : string) (l : list string) :
  (1 <= distinct (x :: l) <= S (List.length l))%nat.
Proof.
  unfold distinct. split; [|apply (nodup_length_le (x :: l))].
  assert (Hin : In x (nodup string_dec (x :: l))) by (apply nodup_In; left; reflexivity).
  destruct (nodup string_dec (x :: l)); [contradiction|cbn; lia].
Qed.

(** X12. In every aggregate the share of real-time data is one of 0, 25,
    50, 75 and 100 per cent, the number of sources lies between 1 and 5, and
    the grade is poor exactly at 0 per cent and excellent exactly from 75. *)
Theorem data_quality_ranges
    (network : nat -> Url -> Exchange) (keys : APIKeys)
    (city occupation : string) (age : Q) (w : World) :
  exists (r : RealTimeData) (w' : World),
    fetchAllRealTimeData network keys city occupation age w = (Ok r, w')
    /\ In (realTimeDataPercentage (dataQuality r)) [0; 25; 50; 75; 100]
    /\ (1 <= sources (dataQuality r) <= 5)%nat
    /\ (overall (dataQuality r) = poor <-> realTimeDataPercentage (dataQuality r) == 0)
    /\ (overall (dataQuality r) = excellent
        <-> 75 <= realTimeDataPercentage (dataQuality r)).
Proof.
  destruct (fetchAllRealTimeData_run network keys city occupation age w)
    as (r & w' & Hrun & Hq).
  exists r, w'. split; [exact Hrun|]. rewrite -> Hq.
  split; [|split].
  - unfold qualityOf, realTimeFlags. cbn [realTimeDataPercentage].
    destruct (includes _ _), (includes _ _), (String.eqb _ _), (String.eqb _ _);
      vm_compute; auto 6.
  - unfold qualityOf. cbn [sources]. apply distinct_range.
  - unfold qualityOf, realTimeFlags. cbn [realTimeDataPercentage overall].
    destruct (includes _ _), (includes _ _), (String.eqb _ _), (String.eqb _ _);
      vm_compute; repeat split; intros; try discriminate; try reflexivity;
      try contradiction.
Qed.

(** ** Death-rate estimates *)

Lemma Math_round_mono (x y : Q) : x <= y -> Math_round x <= Math_round y.
Proof.
  intros H. unfold Math_round. rewrite <- Zle_Qle. apply Qfloor_resp_le. lra.
Qed.






Example death_rate_estimates :
  fst (DataCollector.fetchDeathRateData "Delhi" 22 freshWorld) = Ok 5.1
  /\ fst (DataCollector.fetchDeathRateData "Delhi" 65 freshWorld) = Ok 18.3
  /\ ageAdjustedRate (deathRateFallback "Delhi" 22) = 7.3
  /\ ageAdjustedRate (deathRateFallback "Delhi" 65) = 18.3.
Proof. vm_compute. repeat split. Qed.

(** ** The collector always takes the enhanced path *)


(** ** The score and its explanation *)

Lemma Math_min_mono (x y c : Q) : x <= y -> Math_min x c <= Math_min y c.
Proof.
  intros H. destruct (Math_min_cases x c) as [[? E1]|[? E1]];
    destruct (Math_min_cases y c) as [[? E2]|[? E2]]; rewrite -> E1, E2; lra.
Qed.

(** X15. The risk score does not fall when the age rises or when the AQI
    rises, everything else unchanged. *)
Theorem risk_score_grows_with_age_and_aqi
    (calculateCrimeStressImpact : Q -> Q) (input : RiskCalculationInput) (x1 x2 : Q) :
  x1 <= x2 ->
  calculateRiskScore calculateCrimeStressImpact (withAge input x1)
  <= calculateRiskScore calculateCrimeStressImpact (withAge input x2)
  /\ calculateRiskScore calculateCrimeStressImpact (withAqi input x1)
     <= calculateRiskScore calculateCrimeStressImpact (withAqi input x2).
Proof.
  intros Hx. unfold calculateRiskScore. split.
  - apply Math_min_mono, Math_round_mono. unfold rawScore.
    assert (H : agePoints (withAge input x1) <= agePoints (withAge input x2))
      by (unfold agePoints; cbn [withAge userProfile age]; cmp_cases; lra).
    change (ageDeathRatePoints (withAge input x1)) with (ageDeathRatePoints input).
    change (ageDeathRatePoints (withAge input x2)) with (ageDeathRatePoints input).
    change (aqiPoints (withAge input x1)) with (aqiPoints input).
    change (aqiPoints (withAge input x2)) with (aqiPoints input).
    change (seasonalPoints (withAge input x1)) with (seasonalPoints input).
    change (seasonalPoints (withAge input x2)) with (seasonalPoints input).
    change (occupationPoints (withAge input x1)) with (occupationPoints input).
    change (occupationPoints (withAge input x2)) with (occupationPoints input).
    change (healthConditionPoints (withAge input x1)) with (healthConditionPoints input).
    change (healthConditionPoints (withAge input x2)) with (healthConditionPoints input).
    change (addictionPoints (withAge input x1)) with (addictionPoints input).
    change (addictionPoints (withAge input x2)) with (addictionPoints input).
    change (pastSurgeryPoints (withAge input x1)) with (pastSurgeryPoints input).
    change (pastSurgeryPoints (withAge input x2)) with (pastSurgeryPoints input).
    change (workShiftPoints (withAge input x1)) with (workShiftPoints input).
    change (workShiftPoints (withAge input x2)) with (workShiftPoints input).
    change (crimeStressPoints calculateCrimeStressImpact (withAge input x1))
      with (crimeStressPoints calculateCrimeStressImpact input).
    change (crimeStressPoints calculateCrimeStressImpact (withAge input x2))
      with (crimeStressPoints calculateCrimeStressImpact input).
    change (violentCrimePoints (withAge input x1)) with (violentCrimePoints input).
    change (violentCrimePoints (withAge input x2)) with (violentCrimePoints input).
    change (safetyIndexPoints (withAge input x1)) with (safetyIndexPoints input).
    change (safetyIndexPoints (withAge input x2)) with (safetyIndexPoints input).
    lra.
  - apply Math_min_mono, Math_round_mono. unfold rawScore.
    assert (H : aqiPoints (withAqi input x1) <= aqiPoints (withAqi input x2))
      by (unfold aqiPoints; cbn [withAqi environmentalData aqi]; cmp_cases; lra).
    change (agePoints (withAqi input x1)) with (agePoints input).
    change (agePoints (withAqi input x2)) with (agePoints input).
    change (ageDeathRatePoints (withAqi input x1)) with (ageDeathRatePoints input).
    change (ageDeathRatePoints (withAqi input x2)) with (ageDeathRatePoints input).
    change (seasonalPoints (withAqi input x1)) with (seasonalPoints input).
    change (seasonalPoints (withAqi input x2)) with (seasonalPoints input).
    change (occupationPoints (withAqi input x1)) with (occupationPoints input).
    change (occupationPoints (withAqi input x2)) with (occupationPoints input).
    change (healthConditionPoints (withAqi input x1)) with (healthConditionPoints input).
    change (healthConditionPoints (withAqi input x2)) with (healthConditionPoints input).
    change (addictionPoints (withAqi input x1)) with (addictionPoints input).
    change (addictionPoints (withAqi input x2)) with (addictionPoints input).
    change (pastSurgeryPoints (withAqi input x1)) with (pastSurgeryPoints input).
    change (pastSurgeryPoints (withAqi input x2)) with (pastSurgeryPoints input).
    change (workShiftPoints (withAqi input x1)) with (workShiftPoints input).
    change (workShiftPoints (withAqi input x2)) with (workShiftPoints input).
    change (crimeStressPoints calculateCrimeStressImpact (withAqi input x1))
      with (crimeStressPoints calculateCrimeStressImpact input).
    change (crimeStressPoints calculateCrimeStressImpact (withAqi input x2))
      with (crimeStressPoints calculateCrimeStressImpact input).
    change (violentCrimePoints (withAqi input x1)) with (violentCrimePoints input).
    change (violentCrimePoints (withAqi input x2)) with (violentCrimePoints input).
    change (safetyIndexPoints (withAqi input x1)) with (safetyIndexPoints input).
    change (safetyIndexPoints (withAqi input x2)) with (safetyIndexPoints input).
    lra.
Qed.

Lemma risk_score_grows_with_age_and_aqi_witness :
  22 <= 65
  /\ calculateRiskScore bandedCrimeStress (withAge bangaloreInput 22)
     <= calculateRiskScore bandedCrimeStress (withAge bangaloreInput 65)
  /\ calculateRiskScore bandedCrimeStress (withAqi bangaloreInput 22)
     <= calculateRiskScore bandedCrimeStress (withAqi bangaloreInput 65).
Proof.
  split; [vm_compute; discriminate|].
  apply (risk_score_grows_with_age_and_aqi bandedCrimeStress bangaloreInput 22 65).
  vm_compute. discriminate.
Defined.

Lemma in_pushedFactors (cs : Q -> Q) (input : RiskCalculationInput) (f : RiskFactor) :
  In f (pushedFactors cs input) ->
  In f (airQualityFactor input) \/ In f (seasonalFactor input)
  \/ In f (occupationFactor input) \/ In f (ageFactor input)
  \/ In f (healthConditionFactor input) \/ In f (lifestyleFactor input)
  \/ In f (workScheduleFactor input) \/ In f (crimeFactor cs input)
  \/ In f (citySafetyFactor input) \/ In f (cityHealthFactor input).
Proof.
  unfold pushedFactors. rewrite -> !in_app_iff. tauto.
Qed.

(** One factor or none: a case analysis on the list a factor builder made. *)
Ltac one_factor H :=
  match type of H with
  | In _ (if ?b then _ else _) => destruct b eqn:?; one_factor H
  | In _ [] => contradiction
  | In _ [_] => destruct H as [H|[]]; subst
  end.

(** X16. In the list [generateRiskFactors] returns, a factor of the
    category Air Quality, Age Factor, Pre-existing Condition, Lifestyle Risk,
    Work Schedule or City Safety has as impact exactly the points the score
    adds for the same condition. The seasonal factor, whose impact is two per
    risk without the cap of 5, and the crime factor, whose impact is the
    stress impact without the cap of 10, have at least the points of the
    score. *)
Theorem factor_impacts_match_score_points
    (calculateCrimeStressImpact : Q -> Q) (input : RiskCalculationInput) (f : RiskFactor) :
  In f (generateRiskFactors calculateCrimeStressImpact input) ->
  (forall points : Q, pointsFor input (category f) = Some points -> impact f = points)
  /\ (category f = "Seasonal Health Risks"%string -> seasonalPoints input <= impact f)
  /\ (category f = "Environmental Stress"%string ->
      crimeStressPoints calculateCrimeStressImpact input <= impact f).
Proof.
  intros Hin.
  assert (Hpushed : In f (pushedFactors calculateCrimeStressImpact input)).
  { eapply Permutation_in; [|exact Hin]. symmetry.
    apply (Array_sort_perm impact). }
  apply in_pushedFactors in Hpushed.
  destruct Hpushed as [H|[H|[H|[H|[H|[H|[H|[H|[H|H]]]]]]]]].
  - unfold airQualityFactor in H. one_factor H; cbn [category impact];
      (split; [|split; intros; discriminate]);
      intros points Hp; cbn in Hp; injection Hp as <-; unfold aqiPoints;
      repeat match goal with E : gtb _ _ = _ |- _ => revert E end;
      cmp_cases; intros; try reflexivity; try discriminate; exfalso; lra.
  - unfold seasonalFactor in H. one_factor H. cbn [category impact].
    split; [intros points Hp; discriminate|]. split; [|intros; discriminate].
    intros _. unfold seasonalPoints.
    match goal with E : hasSeasonalRisks input = true |- _ => rewrite -> E end.
    destruct (Math_min_cases (len (seasonalRisksOf input) * 2) 5) as [[? E]|[? E]];
      rewrite -> E; lra.
  - unfold occupationFactor in H. one_factor H. cbn [category impact].
    split; [intros points Hp|split; intros Hc]; cbn in *; discriminate.
  - unfold ageFactor in H. one_factor H. cbn [category impact].
    split; [|split; intros; discriminate].
    intros points Hp. cbn in Hp. injection Hp as <-. unfold agePoints.
    destruct (gtb (age (userProfile input)) 60); [reflexivity|].
    match goal with E : gtb _ 50 = true |- _ => rewrite -> E end. reflexivity.
  - unfold healthConditionFactor in H. one_factor H. cbn [category impact].
    split; [|split; intros; discriminate].
    intros points Hp. cbn in Hp. injection Hp as <-. unfold healthConditionPoints.
    match goal with E : present _ = true |- _ => rewrite -> E end. reflexivity.
  - unfold lifestyleFactor in H. one_factor H. cbn [category impact].
    split; [|split; intros; discriminate].
    intros points Hp. cbn in Hp. injection Hp as <-. unfold addictionPoints.
    match goal with E : present _ = true |- _ => rewrite -> E end. reflexivity.
  - unfold workScheduleFactor in H. one_factor H. cbn [category impact].
    split; [|split; intros; discriminate].
    intros points Hp. cbn in Hp. injection Hp as <-. unfold workShiftPoints.
    match goal with E : String.eqb _ _ = true |- _ => rewrite -> E end. reflexivity.
  - unfold crimeFactor in H. one_factor H. cbn [category impact].
    split; [intros points Hp; discriminate|]. split; [intros; discriminate|].
    intros _. unfold crimeStressPoints.
    destruct (Math_min_cases
                (calculateCrimeStressImpact (crimeRate (cityStats input))) 10)
      as [[? E]|[? E]]; rewrite -> E; lra.
  - unfold citySafetyFactor in H. one_factor H. cbn [category impact].
    split; [|split; intros; discriminate].
    intros points Hp. cbn in Hp. injection Hp as <-. unfold safetyIndexPoints.
    match goal with E : (truthy _ && ltb _ 60) = true |- _ => rewrite -> E end.
    reflexivity.
  - unfold cityHealthFactor in H. one_factor H. cbn [category impact].
    split; [intros points Hp|split; intros Hc]; cbn in *; discriminate.
Qed.

Lemma factor_impacts_match_score_points_witness :
  let f := {| category := "Air Quality"; level := "critical";
              description := DescAirSignificant 220 (weatherOf Samples.delhiInput);
              impact := 25 |} in
  In f (generateRiskFactors Samples.bandedCrimeStress Samples.delhiInput)
  /\ impact f = aqiPoints Samples.delhiInput.
Proof.
  cbv zeta.
  assert (Hin : In {| category := "Air Quality"; level := "critical";
                      description := DescAirSignificant 220 (weatherOf Samples.delhiInput);
                      impact := 25 |}
                   (generateRiskFactors Samples.bandedCrimeStress Samples.delhiInput)).
  { vm_compute. left. reflexivity. }
  split; [exact Hin|].
  apply (factor_impacts_match_score_points Samples.bandedCrimeStress Samples.delhiInput
           _ Hin).
  reflexivity.
Defined.

Lemma chosen_incl (l : list (bool * string)) : incl (chosen l) (map snd l).
Proof.
  induction l as [|[b c] l IH]; cbn; [apply incl_refl|].
  destruct b; cbn.
  - apply incl_cons; [left; reflexivity|]. apply incl_tl. exact IH.
  - apply incl_tl. exact IH.
Qed.

Lemma chosen_NoDup (l : list (bool * string)) :
  List.NoDup (map snd l) -> List.NoDup (chosen l).
Proof.
  induction l as [|[b c] l IH]; cbn; [constructor|].
  intros Hnd. apply List.NoDup_cons_iff in Hnd. destruct Hnd as [Hc Hnd].
  destruct b; cbn; [|auto].
  constructor; [|auto]. intros Hin. apply Hc. apply (chosen_incl l). exact Hin.
Qed.

Lemma chosen_length (l : list (bool * string)) :
  (List.length (chosen l) <= List.length l)%nat.
Proof.
  unfold chosen. induction l as [|[b c] l IH]; cbn [flat_map fst snd]; [cbn; lia|].
  rewrite -> length_app. destruct b; cbn [List.length]; lia.
Qed.

(** The categories of the pushed factors: each builder gives its category
    or nothing. *)
Lemma pushedFactors_categories (cs : Q -> Q) (input : RiskCalculationInput) :
  exists flags : list bool,
    List.length flags = 10%nat
    /\ map category (pushedFactors cs input) = chosen (combine flags allCategories).
Proof.
  exists [ gtb (aqi (environmentalData input)) 100;
           hasSeasonalRisks input;
           String.eqb (hazardLevel (occupationHazard input)) "critical"
           || String.eqb (hazardLevel (occupationHazard input)) "high";
           gtb (age (userProfile input)) 50;
           present (healthCondition (userProfile input));
           present (addictions (userProfile input));
           String.eqb (workShift (userProfile input)) "Night Shift";
           gtb (crimeRate (cityStats input)) 500;
           truthy (safetyIndex (statisticalData input))
           && ltb (val (safetyIndex (statisticalData input))) 60;
           ltb (cityHealthIndex (statisticalData input)) 60 ].
  split; [reflexivity|].
  unfold pushedFactors. rewrite -> !map_app.
  unfold airQualityFactor, seasonalFactor, occupationFactor, ageFactor,
    healthConditionFactor, lifestyleFactor, workScheduleFactor, crimeFactor,
    citySafetyFactor, cityHealthFactor.
  cbn [combine allCategories chosen flat_map fst snd].
  assert (Hair : map category
            (if gtb (aqi (environmentalData input)) 150
             then [ {| category := "Air Quality";
                       level := if gtb (aqi (environmentalData input)) 200
                                then "critical" else "high";
                       description := DescAirSignificant (aqi (environmentalData input))
                                        (weatherOf input);
                       impact := if gtb (aqi (environmentalData input)) 200
                                 then 25 else 20 |} ]
             else if gtb (aqi (environmentalData input)) 100
                  then [ {| category := "Air Quality"; level := "medium";
                            description := DescAirSensitive
                                             (aqi (environmentalData input))
                                             (weatherOf input);
                            impact := 15 |} ]
                  else [])
          = if gtb (aqi (environmentalData input)) 100
            then ["Air Quality"%string] else []).
  { cmp_cases; try reflexivity; exfalso; lra. }
  rewrite -> Hair.
  repeat match goal with
         | |- context [map category (if ?b then _ else _)] => destruct b
         end; reflexivity.
Qed.

(** X17. [generateRiskFactors] returns at most ten factors, each of one of
    the ten categories, and no two of the same category. *)
Theorem at_most_one_factor_per_category
    (calculateCrimeStressImpact : Q -> Q) (input : RiskCalculationInput) :
  let factors := generateRiskFactors calculateCrimeStressImpact input in
  (List.length factors <= 10)%nat
  /\ List.NoDup (map category factors)
  /\ forall f : RiskFactor, In f factors -> In (category f) allCategories.
Proof.
  cbv zeta.
  pose proof (Array_sort_perm impact (pushedFactors calculateCrimeStressImpact input))
    as Hperm.
  change (Array_sort (descending impact) (pushedFactors calculateCrimeStressImpact input))
    with (generateRiskFactors calculateCrimeStressImpact input) in Hperm.
  destruct (pushedFactors_categories calculateCrimeStressImpact input)
    as (flags & Hlen & Hcat).
  assert (Hsnd : map snd (combine flags allCategories) = allCategories).
  { do 11 (destruct flags as [|? flags]; try discriminate). reflexivity. }
  assert (Hall : List.NoDup allCategories).
  { unfold allCategories.
    repeat (constructor; [cbn; intuition discriminate|]). constructor. }
  split; [|split].
  - rewrite <- (Permutation_length Hperm), <- (length_map category), Hcat.
    etransitivity; [apply chosen_length|]. rewrite -> length_combine, Hlen. cbn. lia.
  - eapply Permutation_NoDup; [apply Permutation_map; exact Hperm|].
    rewrite -> Hcat. apply chosen_NoDup. rewrite -> Hsnd. exact Hall.
  - intros f Hin.
    assert (Hc : In (category f) (map category (pushedFactors calculateCrimeStressImpact input))).
    { apply in_map. eapply Permutation_in; [symmetry; exact Hperm|exact Hin]. }
    rewrite -> Hcat in Hc. apply chosen_incl in Hc. rewrite -> Hsnd in Hc. exact Hc.
Qed.

(** ** The pages *)

Ltac decide_Q :=
  first [ apply Qle_bool_iff; vm_compute; reflexivity
        | apply Qeq_bool_iff; vm_compute; reflexivity ].

(** X18. Whatever is stored and however the age parses, the analysis page's
    own score is a multiple of 5 from 45 to 85; the savings target the page
    computes from it is 40 times the score, between 1800 and 3400. *)
Theorem analysis_page_score_and_savings
    (Number_parseInt : AnalysisScore.Field -> option Q)
    (stored : AnalysisScore.StoredProfile) (profile : UserProfile) :
  let score := AnalysisScore.calculateRiskScore Number_parseInt stored in
  45 <= score <= 85
  /\ score == 5 * inject_Z (Qfloor (score / 5))
  /\ calculateMonthlySavings profile score == 40 * score
  /\ 1800 <= calculateMonthlySavings profile score <= 3400.
Proof.
  cbv zeta. unfold calculateMonthlySavings, AnalysisScore.calculateRiskScore.
  repeat match goal with
         | |- context [if ?b then _ else _] => destruct b
         end; repeat split; decide_Q.
Qed.

Lemma differs_true (field : AnalysisScore.Field) (s : string) :
  field <> AnalysisScore.Text s -> AnalysisScore.differs field s = true.
Proof.
  intros H. destruct field as [|t|n]; cbn; try reflexivity.
  destruct (String.eqb_spec t s) as [->|_]; [contradiction|reflexivity].
Qed.

(** X19. A stored profile whose health condition is anything but the string
    [None], and whose addictions are anything but [None] or the empty
    string (a missing field included), scores at least 80 on the analysis
    page, whatever its age and occupation, and so is offered the premium
    plan. *)
Theorem unanswered_profile_gets_premium
    (Number_parseInt : AnalysisScore.Field -> option Q)
    (stored : AnalysisScore.StoredProfile) :
  AnalysisScore.healthCondition stored <> AnalysisScore.Text "None" ->
  AnalysisScore.addictions stored <> AnalysisScore.Text "None" ->
  AnalysisScore.addictions stored <> AnalysisScore.Text "" ->
  80 <= AnalysisScore.calculateRiskScore Number_parseInt stored
  /\ getInsurancePlan (AnalysisScore.calculateRiskScore Number_parseInt stored)
     = {| name := "Premium Health Shield"; coverage := 1000000; premium := 8500 |}.
Proof.
  intros Hh Ha He.
  unfold AnalysisScore.calculateRiskScore.
  rewrite -> (differs_true _ _ Hh), (differs_true _ _ Ha), (differs_true _ _ He).
  cbn [andb].
  repeat match goal with
         | |- context [if ?b then _ else _] => destruct b
         end; (split; [decide_Q|vm_compute; reflexivity]).
Qed.

Lemma unanswered_profile_gets_premium_witness :
  80 <= AnalysisScore.calculateRiskScore AnalysisScore.sampleParseInt
          AnalysisScore.emptyProfile
  /\ getInsurancePlan (AnalysisScore.calculateRiskScore AnalysisScore.sampleParseInt
                         AnalysisScore.emptyProfile)
     = {| name := "Premium Health Shield"; coverage := 1000000; premium := 8500 |}.
Proof.
  apply (unanswered_profile_gets_premium AnalysisScore.sampleParseInt
           AnalysisScore.emptyProfile); cbn; discriminate.
Defined.

(** X20. The badge of the results page and the display information of the
    risk calculator colour a score alike, except from 75 up to 80: there
    the calculator's level is still [high] while the page already shows
    "Very High Risk". *)
Theorem results_badge_and_service_level (score : Q) :
  (ResultsPage.color (ResultsPage.getRiskLevel score)
   = RiskDisplay.info_color (RiskDisplay.getRiskLevelInfo score)
   <-> ~ (75 <= score < 80))
  /\ (75 <= score < 80 ->
      getRiskLevel score = high
      /\ ResultsPage.label (ResultsPage.getRiskLevel score) = "Very High Risk"%string
      /\ RiskDisplay.info_label (RiskDisplay.getRiskLevelInfo score) = "High Risk"%string).
Proof.
  unfold ResultsPage.getRiskLevel, RiskDisplay.getRiskLevelInfo, getRiskLevel.
  cmp_cases; cbn; repeat split; intros; try discriminate; try reflexivity;
    try lra; exfalso; lra.
Qed.

Lemma leb_gtb (x y : Q) : leb x y = negb (gtb x y).
Proof. unfold leb, gtb. now rewrite negb_involutive. Qed.

(** X21. The status label of the report page cuts the AQI at the same
    points as the services: two readings have the same label exactly when
    they cost the same deduction in the city health index, and exactly when
    they add the same points to the risk score; readings with the same
    label also have the same climate risk. *)
Theorem aqi_status_matches_service_bands
    (a b : Q) (input : RiskCalculationInput) :
  let same := ReportPage.label (ReportPage.getAQIStatus a)
              = ReportPage.label (ReportPage.getAQIStatus b) in
  (same <-> aqiDeduction a = aqiDeduction b)
  /\ (same <-> aqiPoints (withAqi input a) = aqiPoints (withAqi input b))
  /\ (same -> climateRiskOf a = climateRiskOf b).
Proof.
  cbv zeta. unfold ReportPage.getAQIStatus, aqiDeduction, aqiPoints, climateRiskOf, withAqi.
  cbn [environmentalData aqi]. rewrite -> !leb_gtb.
  destruct (gtb_spec a 50), (gtb_spec a 100), (gtb_spec a 150), (gtb_spec a 200);
    try (exfalso; lra);
    destruct (gtb_spec b 50), (gtb_spec b 100), (gtb_spec b 150), (gtb_spec b 200);
    try (exfalso; lra);
    cbn [negb ReportPage.label]; repeat split; intros; try discriminate; reflexivity.
Qed.

(** ** The collector's static alerts *)

(** The environmental data of the collector: always a record, and the
    estimate (AQI 150, 30 degrees) when the request to the route fails. *)
Lemma fetchEnvironmentalData_run
    (network : nat -> Url -> Exchange) (city : string) (w : World) :
  exists (env : EnvironmentalData) (w' : World),
    fetchEnvironmentalData network city w = (Ok env, w')
    /\ (forall (e : Error) (w1 : World),
          axios_get network (UrlEnvironment city) w = (Throw e, w1) ->
          aqi env = 150 /\ temperature env = 30).
Proof.
  unfold fetchEnvironmentalData, try_catch, bind.
  destruct (axios_get network (UrlEnvironment city) w) as [[data|e] w1].
  - destruct data; cbn; eexists _, _; (split; [reflexivity|]); intros; discriminate.
  - cbn. eexists _, _. split; [reflexivity|]. intros. split; reflexivity.
Qed.

(** X22. The collector's [fetchHealthAlerts] always returns, with at most
    two alerts, and the cache is left as it was, so its handler is never
    entered. When the request for the environmental data
    fails there is no alert at all: the estimate that stands in (AQI 150,
    30 degrees) is below both thresholds. *)
Theorem collector_alerts_always_return
    (network : nat -> Url -> Exchange) (city : string) (w : World) :
  exists (alerts : list string) (w' : World),
    CollectorAlerts.fetchHealthAlerts network city w = (Ok alerts, w')
    /\ (List.length alerts <= 2)%nat
    /\ cache w' = cache w
    /\ (forall (e : Error) (w1 : World),
          axios_get network (UrlEnvironment city) w = (Throw e, w1) -> alerts = []).
Proof.
  destruct (fetchEnvironmentalData_run network city w) as (env & w' & Hrun & Hdown).
  pose proof (fetchEnvironmentalData_keeps_cache network city w) as Hcache.
  rewrite -> Hrun in Hcache. cbn [snd] in Hcache.
  eexists _, w'. split.
  { unfold CollectorAlerts.fetchHealthAlerts. apply try_catch_ok.
    rewrite -> (bind_ok _ _ _ _ _ Hrun). reflexivity. }
  split; [|split; [exact Hcache|]].
  - cmp_cases; cbn; lia.
  - intros e w1 Hthrow. destruct (Hdown e w1 Hthrow) as [-> ->]. reflexivity.
Qed.

Example collector_alerts_when_route_is_down :
  fst (CollectorAlerts.fetchHealthAlerts SampleNetworks.unreachable "Delhi"
         SampleNetworks.freshWorld) = Ok [].
Proof. reflexivity. Qed.

(** ** [has] and [clear] *)

Lemma has_run (key : string) (w : World) :
  has key w
  = (Ok (match fst (get key w) with Ok (Some _) => true | _ => false end),
     snd (get key w)).
Proof.
  unfold has, bind. rewrite -> get_run.
  destruct (cache w !! key) as [entry|]; [|reflexivity].
  destruct (expired (now w) entry); reflexivity.
Qed.

(** X23. [has] answers true exactly for a key whose entry has not expired,
    and once it has answered the key is in the map exactly if the answer
    was true: an expired entry under the key is gone. After [clear], [has]
    is false for every key. *)
Theorem has_agrees_with_the_map (key : string) (w : World) :
  (fst (has key w) = Ok true \/ fst (has key w) = Ok false)
  /\ (fst (has key w) = Ok true
      <-> exists entry : CacheEntry,
            cache w !! key = Some entry /\ expired (now w) entry = false)
  /\ (fst (has key w) = Ok true <-> is_Some (cache (snd (has key w)) !! key))
  /\ fst (has key (snd (clear w))) = Ok false.
Proof.
  rewrite -> !has_run, !get_run. cbn [fst snd].
  split; [|split; [|split]].
  - destruct (cache w !! key) as [entry|]; [|auto].
    destruct (expired (now w) entry); auto.
  - destruct (cache w !! key) as [entry|] eqn:E.
    + destruct (expired (now w) entry) eqn:X; split.
      * discriminate.
      * intros (entry' & Heq & Hx). injection Heq as <-. congruence.
      * intros _. exists entry. auto.
      * reflexivity.
    + split; [discriminate|]. intros (entry' & Heq & _). discriminate.
  - destruct (cache w !! key) as [entry|] eqn:E.
    + destruct (expired (now w) entry) eqn:X; split.
      * discriminate.
      * unfold withLookup, afterLookup. rewrite -> E, X. cbn [cache].
        rewrite -> lookup_delete_eq. intros [? H]. discriminate.
      * intros _. rewrite -> E. eexists. reflexivity.
      * reflexivity.
    + split; [discriminate|]. rewrite -> E. intros [? H]. discriminate.
  - unfold clear, putCache. cbn [snd cache]. rewrite -> lookup_empty. reflexivity.
Qed.

(** ** The crime table *)


